(** * roncav-budget: ledger balance maintenance and budget analytics

    A shallow embedding of the Django application's ledger handlers
    ([budget/views.py], [budget/api/views.py]), its analytics
    ([budget/analytics.py]) and its budget notifications
    ([budget/notifications.py]).

    Conventions of the embedding.
    - A [DecimalField(max_digits=12, decimal_places=2)] value is an integer
      number of centavos ([Z]): amounts have at most two decimal places, as
      the column stores them.  A Decimal quotient is an exact rational [Q]
      (the 28-digit context precision of Python's [decimal] is not modelled).
    - Python floats are an interface ([PyFloat]) whose rounding is left
      open; exact rational arithmetic is one instance of it.
    - The database is a record of tables, each a finite map from primary key
      to row.  Model instances living in Python memory are kept in a separate
      heap of objects: [objects.get] allocates a fresh object holding a copy
      of the row, attribute assignment changes the object only, and a row
      changes only through [save], [create] or [delete].
    - Exceptions are an error monad over that state.  An ORM write is
      committed as it is made (autocommit, Django's default) unless it runs
      inside [transaction.atomic()]; every write consults a fault budget so
      that a database failure between two writes can be expressed.
    - Timestamps ([criado_em], [atualizado_em]) are not modelled. *)

From Stdlib Require Import ZArith QArith Qround String List Lia.
From stdpp Require Import gmap strings list fin_maps.

Local Open Scope string_scope.
Local Open Scope Z_scope.

(** ** Data model ([budget/models.py]) *)

Record Data := mkData { ano : Z; mes : Z; dia : Z }.

Module Conta.
Record t := mk {
  usuario : Z;
  nome : string;
  tipo : string;
  saldo : Z;
  banco : string;
  cor : string;
  ativo : bool
}.
Definition set_saldo (s : Z) (c : t) : t :=
  mk (usuario c) (nome c) (tipo c) s (banco c) (cor c) (ativo c).
Definition set_ativo (a : bool) (c : t) : t :=
  mk (usuario c) (nome c) (tipo c) (saldo c) (banco c) (cor c) a.
End Conta.

Module Categoria.
Record t := mk {
  usuario : Z;
  nome : string;
  tipo : string;
  icone : string;
  cor : string
}.
End Categoria.

Module Transacao.
Record t := mk {
  usuario : Z;
  conta : Z;
  categoria : option Z;
  descricao : string;
  valor : Z;
  tipo : string;
  data : Data;
  observacoes : string;
  recorrente : bool
}.
End Transacao.

Module Orcamento.
Record t := mk {
  usuario : Z;
  categoria : Z;
  limite : Z;
  mes : Z;
  ano : Z
}.
End Orcamento.

(** The tables.  [transacao_seq] is the last primary key handed out for
    [Transacao] rows (AUTOINCREMENT). *)
Record DB := mkDB {
  contas : gmap Z Conta.t;
  categorias : gmap Z Categoria.t;
  transacoes : gmap Z Transacao.t;
  orcamentos : gmap Z Orcamento.t;
  transacao_seq : Z
}.

Definition set_contas (f : gmap Z Conta.t -> gmap Z Conta.t) (d : DB) : DB :=
  mkDB (f (contas d)) (categorias d) (transacoes d) (orcamentos d) (transacao_seq d).

Definition set_transacoes (f : gmap Z Transacao.t -> gmap Z Transacao.t) (d : DB) : DB :=
  mkDB (contas d) (categorias d) (f (transacoes d)) (orcamentos d) (transacao_seq d).

(** ** Python objects, exceptions and the ORM *)

(** A [Conta] instance in memory: its primary key and its attribute values. *)
Record ContaObj := mkContaObj { pk : Z; campos : Conta.t }.

Inductive erro :=
  | PermissionDenied
  | DoesNotExist
  | InvalidOperation
  | ValidationError
  | DatabaseError
  | ZeroDivisionError.

Inductive Res (A : Type) :=
  | Ok (a : A)
  | Raise (e : erro).
Arguments Ok {A} a.
Arguments Raise {A} e.

(** [escritas_ate_falha = Some n]: the first [n] ORM writes succeed and the
    next one raises [DatabaseError]; [None]: no write fails. *)
Record World := mkWorld {
  db : DB;
  heap : list ContaObj;
  escritas_ate_falha : option nat
}.

Definition M (A : Type) : Type := World -> Res A * World.

Definition ret {A} (a : A) : M A := fun w => (Ok a, w).

Definition bind {A B} (m : M A) (k : A -> M B) : M B :=
  fun w => match m w with
           | (Ok a, w') => k a w'
           | (Raise e, w') => (Raise e, w')
           end.

#[export] Instance M_ret : MRet M := @ret.
#[export] Instance M_bind : MBind M := fun A B k m => bind m k.

Definition raise {A} (e : erro) : M A := fun w => (Raise e, w).

(** [try: m except Exception as e: h e] *)
Definition try_except {A} (m : M A) (h : erro -> M A) : M A :=
  fun w => match m w with
           | (Ok a, w') => (Ok a, w')
           | (Raise e, w') => h e w'
           end.

(** [with transaction.atomic(): m] - an exception leaving the block rolls the
    database back to its state at entry; Python objects keep their values. *)
Definition atomic {A} (m : M A) : M A :=
  fun w => match m w with
           | (Ok a, w') => (Ok a, w')
           | (Raise e, w') =>
               (Raise e, mkWorld (db w) (heap w') (escritas_ate_falha w'))
           end.

Definition read_db : M DB := fun w => (Ok (db w), w).

(** One ORM write (INSERT, UPDATE or DELETE). *)
Definition orm_write (f : DB -> DB) : M unit :=
  fun w => match escritas_ate_falha w with
           | Some O => (Raise DatabaseError, w)
           | Some (S n) => (Ok tt, mkWorld (f (db w)) (heap w) (Some n))
           | None => (Ok tt, mkWorld (f (db w)) (heap w) None)
           end.

(** Allocation of a new Python object; its reference is its position in the
    heap. *)
Definition novo_objeto (o : ContaObj) : M nat :=
  fun w => (Ok (length (heap w)),
            mkWorld (db w) (heap w ++ [o]) (escritas_ate_falha w)).

Definition ler_objeto (l : nat) : M ContaObj :=
  fun w => match heap w !! l with
           | Some o => (Ok o, w)
           | None => (Raise DoesNotExist, w)
           end.

(** [obj.saldo = s] *)
Definition atribuir_saldo (l : nat) (s : Z) : M unit :=
  fun w => (Ok tt, mkWorld (db w)
                     (alter (fun o => mkContaObj (pk o) (Conta.set_saldo s (campos o))) l (heap w))
                     (escritas_ate_falha w)).

(** [obj.ativo = a] *)
Definition atribuir_ativo (l : nat) (a : bool) : M unit :=
  fun w => (Ok tt, mkWorld (db w)
                     (alter (fun o => mkContaObj (pk o) (Conta.set_ativo a (campos o))) l (heap w))
                     (escritas_ate_falha w)).

(** [Conta.objects.get(id=id, usuario=user)] *)
Definition Conta_objects_get (id user : Z) : M nat :=
  d ← read_db;
  match contas d !! id with
  | Some c => if Conta.usuario c =? user
              then novo_objeto (mkContaObj id c)
              else raise DoesNotExist
  | None => raise DoesNotExist
  end.

(** [Conta.objects.get(pk=id)], as done by a related-object access
    ([transacao.conta]) and by the serializer's primary-key field. *)
Definition Conta_objects_get_pk (id : Z) : M nat :=
  d ← read_db;
  match contas d !! id with
  | Some c => novo_objeto (mkContaObj id c)
  | None => raise DoesNotExist
  end.

(** [Categoria.objects.get(id=id, usuario=user)]; only the key is used
    afterwards. *)
Definition Categoria_objects_get (id user : Z) : M Z :=
  d ← read_db;
  match categorias d !! id with
  | Some c => if Categoria.usuario c =? user then ret id else raise DoesNotExist
  | None => raise DoesNotExist
  end.

(** [Transacao.objects.get(id=id, usuario=user)] *)
Definition Transacao_objects_get (id user : Z) : M Transacao.t :=
  d ← read_db;
  match transacoes d !! id with
  | Some t => if Transacao.usuario t =? user then ret t else raise DoesNotExist
  | None => raise DoesNotExist
  end.

(** [conta.save()]: every column of the row is written from the object. *)
Definition Conta_save (l : nat) : M unit :=
  o ← ler_objeto l;
  orm_write (set_contas (insert (pk o) (campos o))).

(** [conta.save(update_fields=["saldo", "atualizado_em"])]: only the balance
    column is written. *)
Definition Conta_save_saldo (l : nat) : M unit :=
  o ← ler_objeto l;
  d ← read_db;
  match contas d !! pk o with
  | Some _ =>
      orm_write (set_contas (alter (Conta.set_saldo (Conta.saldo (campos o))) (pk o)))
  | None => raise DatabaseError
  end.

(** [Transacao.objects.create(...)]: a new row under the next primary key. *)
Definition Transacao_objects_create (t : Transacao.t) : M Z :=
  d ← read_db;
  let id := transacao_seq d + 1 in
  orm_write (fun d => mkDB (contas d) (categorias d) (<[id := t]> (transacoes d))
                        (orcamentos d) id);;
  ret id.

(** [transacao.save()] on an existing instance. *)
Definition Transacao_save (id : Z) (t : Transacao.t) : M unit :=
  orm_write (set_transacoes (insert id t)).

(** [transacao.delete()] *)
Definition Transacao_delete (id : Z) : M unit :=
  orm_write (set_transacoes (delete id)).

(** [Decimal(text)]: [None] stands for a text that is not a decimal literal. *)
Definition Decimal (v : option Z) : M Z :=
  match v with
  | Some z => ret z
  | None => raise InvalidOperation
  end.

(** A [DateField] rejects a text that is not a date when the row is written. *)
Definition DateField_to_python (v : option Data) : M Data :=
  match v with
  | Some d => ret d
  | None => raise ValidationError
  end.

(** SQL aggregates over a table scan.  [Sum] of no row is [None] (NULL),
    which the callers turn into zero with [or Decimal('0')]. *)
Definition linhas {A} (m : gmap Z A) : list (Z * A) := map_to_list m.

Definition total (l : list Z) : Z := foldr Z.add 0 l.

Definition Sum (l : list Z) : option Z :=
  match l with
  | [] => None
  | _ => Some (total l)
  end.

Definition Count {A} (l : list A) : Z := Z.of_nat (length l).

(** [total] of column [f] over the rows that satisfy [p]. *)
Definition soma_filtrada {A} (p : A -> bool) (f : A -> Z) (l : list A) : Z :=
  total (map f (List.filter p l)).

Definition ou_zero (o : option Z) : Z :=
  match o with
  | Some z => z
  | None => 0
  end.

(** ** Web handlers ([budget/views.py]) *)

Module Views.

Inductive Request (A : Type) :=
  | GET
  | POST (dados : A).
Arguments GET {A}.
Arguments POST {A} dados.

(** The fields of [request.POST] for the transaction form. *)
Record TransacaoForm := mkForm {
  f_conta : Z;
  f_categoria : Z;
  f_descricao : string;
  f_valor : option Z;
  f_tipo : string;
  f_data : option Data;
  f_observacoes : string;
  f_recorrente : bool
}.

Inductive Resposta :=
  | Redirect (rota : string)
  | Render (template : string).

Inductive Mensagem :=
  | Success (texto : string)
  | Error (texto : string) (e : erro).

Definition Resultado : Type := Resposta * list Mensagem.

(** [transacao_criar] *)
Definition transacao_criar (user : Z) (request : Request TransacaoForm) : M Resultado :=
  match request with
  | POST f =>
      try_except
        (conta ← Conta_objects_get (f_conta f) user;
         categoria ← Categoria_objects_get (f_categoria f) user;
         valor ← Decimal (f_valor f);
         data ← DateField_to_python (f_data f);
         _ ← Transacao_objects_create
               (Transacao.mk user (f_conta f) (Some categoria) (f_descricao f)
                  valor (f_tipo f) data (f_observacoes f) (f_recorrente f));
         (* Atualizar saldo da conta *)
         c ← ler_objeto conta;
         (if String.eqb (f_tipo f) "receita"
          then atribuir_saldo conta (Conta.saldo (campos c) + valor)
          else atribuir_saldo conta (Conta.saldo (campos c) - valor));;
         Conta_save conta;;
         mret (Redirect "transacoes", [Success "Transacao criada com sucesso!"]))
        (fun e => mret (Render "budget/transacao_form.html",
                        [Error "Erro ao criar transacao" e]))
  | GET => mret (Render "budget/transacao_form.html", [])
  end.

(** [transacao_editar].  [transacao.conta] is loaded on first access and
    that object receives the reversal; [nova_conta] is a second object
    obtained from [Conta.objects.get]. *)
Definition transacao_editar (user id : Z) (request : Request TransacaoForm) : M Resultado :=
  transacao ← Transacao_objects_get id user;
  match request with
  | POST f =>
      try_except
        ((* Reverter saldo anterior *)
         transacao_conta ← Conta_objects_get_pk (Transacao.conta transacao);
         c ← ler_objeto transacao_conta;
         (if String.eqb (Transacao.tipo transacao) "receita"
          then atribuir_saldo transacao_conta
                 (Conta.saldo (campos c) - Transacao.valor transacao)
          else atribuir_saldo transacao_conta
                 (Conta.saldo (campos c) + Transacao.valor transacao));;
         (* Atualizar transacao *)
         nova_conta ← Conta_objects_get (f_conta f) user;
         categoria ← Categoria_objects_get (f_categoria f) user;
         valor ← Decimal (f_valor f);
         data ← DateField_to_python (f_data f);
         Transacao_save id
           (Transacao.mk (Transacao.usuario transacao) (f_conta f) (Some categoria)
              (f_descricao f) valor (f_tipo f) data (f_observacoes f) (f_recorrente f));;
         (* Aplicar novo saldo *)
         n ← ler_objeto nova_conta;
         (if String.eqb (f_tipo f) "receita"
          then atribuir_saldo nova_conta (Conta.saldo (campos n) + valor)
          else atribuir_saldo nova_conta (Conta.saldo (campos n) - valor));;
         Conta_save nova_conta;;
         mret (Redirect "transacoes", [Success "Transacao atualizada com sucesso!"]))
        (fun e => mret (Render "budget/transacao_form.html",
                        [Error "Erro ao editar transacao" e]))
  | GET => mret (Render "budget/transacao_form.html", [])
  end.

(** [transacao_deletar] *)
Definition transacao_deletar (user id : Z) (request : Request unit) : M Resultado :=
  match request with
  | POST _ =>
      try_except
        (transacao ← Transacao_objects_get id user;
         (* Reverter saldo *)
         transacao_conta ← Conta_objects_get_pk (Transacao.conta transacao);
         c ← ler_objeto transacao_conta;
         (if String.eqb (Transacao.tipo transacao) "receita"
          then atribuir_saldo transacao_conta
                 (Conta.saldo (campos c) - Transacao.valor transacao)
          else atribuir_saldo transacao_conta
                 (Conta.saldo (campos c) + Transacao.valor transacao));;
         Conta_save transacao_conta;;
         Transacao_delete id;;
         mret (Redirect "transacoes", [Success "Transacao deletada com sucesso!"]))
        (fun e => mret (Redirect "transacoes", [Error "Erro ao deletar transacao" e]))
  | GET => mret (Redirect "transacoes", [])
  end.

(** [conta_deletar] *)
Definition conta_deletar (user id : Z) (request : Request unit) : M Resultado :=
  match request with
  | POST _ =>
      try_except
        (conta ← Conta_objects_get id user;
         atribuir_ativo conta false;;
         Conta_save conta;;
         mret (Redirect "contas", [Success "Conta desativada com sucesso!"]))
        (fun e => mret (Redirect "contas", [Error "Erro ao deletar conta" e]))
  | GET => mret (Redirect "contas", [])
  end.

(** [dashboard], the total balance:
    [Conta.objects.filter(usuario=user, ativo=True).aggregate(Sum('saldo'))
     ['saldo__sum'] or Decimal('0')]. *)
Definition conta_ativa_de (user : Z) (r : Z * Conta.t) : bool :=
  (Conta.usuario r.2 =? user) && Conta.ativo r.2.

Definition saldo_total (user : Z) (d : DB) : Z :=
  ou_zero (Sum (map (fun r => Conta.saldo r.2)
                  (List.filter (conta_ativa_de user) (linhas (contas d))))).

End Views.

(** ** REST API ([budget/api/views.py]) *)

Module Api.

(** A [Categoria] instance: key and row (never mutated by the viewset). *)
Definition CategoriaObj : Type := Z * Categoria.t.

(** A [Transacao] instance as [get_queryset] yields it:
    [select_related("conta", "categoria")] has already attached the related
    objects. *)
Record Instancia := mkInstancia {
  inst_pk : Z;
  inst_campos : Transacao.t;
  inst_conta : nat;
  inst_categoria : option CategoriaObj
}.

(** [serializer.validated_data] of a create request: every required field
    is present. *)
Record DadosCriacao := mkDadosCriacao {
  c_conta : nat;
  c_categoria : option CategoriaObj;
  c_descricao : string;
  c_valor : Z;
  c_tipo : string;
  c_data : Data;
  c_observacoes : string;
  c_recorrente : bool
}.

(** [serializer.validated_data] of an update request: a field that the
    request did not send is absent ([None]). *)
Record DadosAtualizacao := mkDadosAtualizacao {
  u_conta : option nat;
  u_categoria : option (option CategoriaObj);
  u_descricao : option string;
  u_valor : option Z;
  u_tipo : option string;
  u_data : option Data;
  u_observacoes : option string;
  u_recorrente : option bool
}.

(** [TransacaoViewSet._validate_related_objects] *)
Definition _validate_related_objects (user : Z) (conta : nat)
    (categoria : option CategoriaObj) : M unit :=
  c ← ler_objeto conta;
  if negb (Conta.usuario (campos c) =? user) then raise PermissionDenied
  else match categoria with
       | Some cat =>
           if negb (Categoria.usuario cat.2 =? user) then raise PermissionDenied
           else mret tt
       | None => mret tt
       end.

(** [TransacaoViewSet._aplicar_saldo] *)
Definition _aplicar_saldo (conta : nat) (valor : Z) (tipo : string)
    (reverter : bool) : M unit :=
  c ← ler_objeto conta;
  (if String.eqb tipo "receita"
   then atribuir_saldo conta
          (if reverter then Conta.saldo (campos c) - valor
           else Conta.saldo (campos c) + valor)
   else atribuir_saldo conta
          (if reverter then Conta.saldo (campos c) + valor
           else Conta.saldo (campos c) - valor));;
  Conta_save_saldo conta.

(** [serializer.save(usuario=user)] of a create: [Transacao.objects.create]. *)
Definition serializer_save_create (user : Z) (v : DadosCriacao) : M Instancia :=
  c ← ler_objeto (c_conta v);
  let t := Transacao.mk user (pk c) (fst <$> c_categoria v) (c_descricao v)
             (c_valor v) (c_tipo v) (c_data v) (c_observacoes v) (c_recorrente v) in
  id ← Transacao_objects_create t;
  mret (mkInstancia id t (c_conta v) (c_categoria v)).

(** [serializer.save()] of an update: every validated field is assigned to
    the instance ([setattr]), then the instance is saved.  Assigning
    [conta] makes the validated object the instance's related object. *)
Definition serializer_save_update (inst : Instancia) (v : DadosAtualizacao) : M Instancia :=
  let conta := default (inst_conta inst) (u_conta v) in
  let categoria := default (inst_categoria inst) (u_categoria v) in
  c ← ler_objeto conta;
  let old := inst_campos inst in
  let t := Transacao.mk (Transacao.usuario old) (pk c) (fst <$> categoria)
             (default (Transacao.descricao old) (u_descricao v))
             (default (Transacao.valor old) (u_valor v))
             (default (Transacao.tipo old) (u_tipo v))
             (default (Transacao.data old) (u_data v))
             (default (Transacao.observacoes old) (u_observacoes v))
             (default (Transacao.recorrente old) (u_recorrente v)) in
  Transacao_save (inst_pk inst) t;;
  mret (mkInstancia (inst_pk inst) t conta categoria).

(** [TransacaoViewSet.perform_create] *)
Definition perform_create (user : Z) (v : DadosCriacao) : M unit :=
  let conta := c_conta v in
  let categoria := c_categoria v in
  _validate_related_objects user conta categoria;;
  atomic
    (transacao ← serializer_save_create user v;
     _aplicar_saldo conta (Transacao.valor (inst_campos transacao))
       (Transacao.tipo (inst_campos transacao)) false).

(** [TransacaoViewSet.perform_update] *)
Definition perform_update (user : Z) (instance : Instancia) (v : DadosAtualizacao) : M unit :=
  let conta := default (inst_conta instance) (u_conta v) in
  let categoria :=
    match u_categoria v with
    | Some (Some cat) => Some cat
    | _ => inst_categoria instance
    end in
  _validate_related_objects user conta categoria;;
  atomic
    (let inst := instance in
     (* Reverter saldo anterior *)
     _aplicar_saldo (inst_conta inst) (Transacao.valor (inst_campos inst))
       (Transacao.tipo (inst_campos inst)) true;;
     transacao ← serializer_save_update instance v;
     _aplicar_saldo (inst_conta transacao) (Transacao.valor (inst_campos transacao))
       (Transacao.tipo (inst_campos transacao)) false).

(** [TransacaoViewSet.perform_destroy] *)
Definition perform_destroy (instance : Instancia) : M unit :=
  atomic
    (_aplicar_saldo (inst_conta instance) (Transacao.valor (inst_campos instance))
       (Transacao.tipo (inst_campos instance)) true;;
     Transacao_delete (inst_pk instance)).

(** *** The viewset's request cycle

    [get_object], the serializer's validation and the dispatch to the
    [perform_*] hooks belong to Django REST framework's [ModelViewSet], not
    to the repository; they are reproduced here only as far as the hooks
    above depend on them: which objects exist in memory when a hook runs. *)

(** [get_queryset().get(pk=id)]: [filter(usuario=user)] with
    [select_related("conta", "categoria")]. *)
Definition get_object (user id : Z) : M Instancia :=
  d ← read_db;
  match transacoes d !! id with
  | Some t =>
      if Transacao.usuario t =? user
      then conta ← Conta_objects_get_pk (Transacao.conta t);
           mret (mkInstancia id t conta
                   (cid ← Transacao.categoria t;
                    cat ← categorias d !! cid;
                    Some (cid, cat)))
      else raise DoesNotExist
  | None => raise DoesNotExist
  end.

(** The request body: [None] is an absent field, [Some None] for [valor] a
    text that is not a decimal number and for [categoria] a JSON null. *)
Record Payload := mkPayload {
  p_conta : option Z;
  p_categoria : option (option Z);
  p_descricao : option string;
  p_valor : option (option Z);
  p_tipo : option string;
  p_data : option Data;
  p_observacoes : option string;
  p_recorrente : option bool
}.

(** A primary-key field resolves its value with [queryset.get(pk=...)] over
    all rows and yields a new object. *)
Definition validar_conta (p : option Z) : M (option nat) :=
  match p with
  | Some id =>
      try_except (conta ← Conta_objects_get_pk id; mret (Some conta))
        (fun _ => raise ValidationError)
  | None => mret None
  end.

Definition validar_categoria (p : option (option Z)) : M (option (option CategoriaObj)) :=
  match p with
  | Some (Some id) =>
      d ← read_db;
      match categorias d !! id with
      | Some cat => mret (Some (Some (id, cat)))
      | None => raise ValidationError
      end
  | Some None => mret (Some None)
  | None => mret None
  end.

Definition validar_valor (p : option (option Z)) : M (option Z) :=
  match p with
  | Some (Some z) => mret (Some z)
  | Some None => raise ValidationError
  | None => mret None
  end.

Definition exigir {A} (o : option A) : M A :=
  match o with
  | Some a => mret a
  | None => raise ValidationError
  end.

(** POST /transacoes/ *)
Definition create (user : Z) (p : Payload) : M unit :=
  conta ← validar_conta (p_conta p);
  conta ← exigir conta;
  categoria ← validar_categoria (p_categoria p);
  valor ← validar_valor (p_valor p);
  valor ← exigir valor;
  descricao ← exigir (p_descricao p);
  tipo ← exigir (p_tipo p);
  data ← exigir (p_data p);
  perform_create user
    (mkDadosCriacao conta (default None categoria) descricao valor tipo data
       (default "" (p_observacoes p)) (default false (p_recorrente p))).

(** PUT and PATCH /transacoes/id/ (a PUT sends every required field). *)
Definition update (user id : Z) (p : Payload) : M unit :=
  instance ← get_object user id;
  conta ← validar_conta (p_conta p);
  categoria ← validar_categoria (p_categoria p);
  valor ← validar_valor (p_valor p);
  perform_update user instance
    (mkDadosAtualizacao conta categoria (p_descricao p) valor (p_tipo p)
       (p_data p) (p_observacoes p) (p_recorrente p)).

(** DELETE /transacoes/id/ *)
Definition destroy (user id : Z) : M unit :=
  instance ← get_object user id;
  perform_destroy instance.

End Api.

(** ** Running a handler *)

Definition mundo (d : DB) : World := mkWorld d [] None.
Definition mundo_com_falha (d : DB) (n : nat) : World := mkWorld d [] (Some n).

(** The database a request leaves behind, and what it returned. *)
Definition efeito {A} (m : M A) (w : World) : DB := db (m w).2.
Definition retorno {A} (m : M A) (w : World) : Res A := (m w).1.

Definition saldo_de (d : DB) (conta : Z) : option Z :=
  Conta.saldo <$> contas d !! conta.

(** The signed amount of a transaction: a receita counts positive, anything
    else negative. *)
Definition valor_assinado (t : Transacao.t) : Z :=
  if String.eqb (Transacao.tipo t) "receita" then Transacao.valor t
  else - Transacao.valor t.

(** Signed sum of the transactions that reference an account. *)
Definition soma_assinada (d : DB) (conta : Z) : Z :=
  total (map (fun r => valor_assinado r.2)
           (List.filter (fun r => Transacao.conta r.2 =? conta) (linhas (transacoes d)))).

(** ** Read-only computations: exceptions without state *)

#[export] Instance Res_ret : MRet Res := @Ok.
#[export] Instance Res_bind : MBind Res :=
  fun A B k r => match r with
                 | Ok a => k a
                 | Raise e => Raise e
                 end.

(** [for x in l: r = f x; if r: resultado.append(r)] *)
Fixpoint for_each {A B} (f : A -> Res (option B)) (l : list A) : Res (list B) :=
  match l with
  | [] => Ok []
  | x :: l' =>
      match f x with
      | Raise e => Raise e
      | Ok o =>
          match for_each f l' with
          | Raise e => Raise e
          | Ok r => Ok (match o with Some b => b :: r | None => r end)
          end
      end
  end.

(** *** Dates *)

Definition Data_ltb (a b : Data) : bool :=
  (ano a <? ano b)
  || ((ano a =? ano b) && ((mes a <? mes b) || ((mes a =? mes b) && (dia a <? dia b)))).

Definition Data_eqb (a b : Data) : bool :=
  (ano a =? ano b) && (mes a =? mes b) && (dia a =? dia b).

Definition Data_leb (a b : Data) : bool := Data_ltb a b || Data_eqb a b.

(** Day number of a civil date and back (proleptic Gregorian calendar), for
    [date - timedelta(days=n)]. *)
Definition dias_desde_civil (x : Data) : Z :=
  let y := if mes x <=? 2 then ano x - 1 else ano x in
  let era := y / 400 in
  let yoe := y - era * 400 in
  let mp := if 2 <? mes x then mes x - 3 else mes x + 9 in
  let doy := (153 * mp + 2) / 5 + dia x - 1 in
  let doe := yoe * 365 + yoe / 4 - yoe / 100 + doy in
  era * 146097 + doe - 719468.

Definition civil_de_dias (z0 : Z) : Data :=
  let z := z0 + 719468 in
  let era := z / 146097 in
  let doe := z - era * 146097 in
  let yoe := (doe - doe / 1460 + doe / 36524 - doe / 146096) / 365 in
  let y := yoe + era * 400 in
  let doy := doe - (365 * yoe + yoe / 4 - yoe / 100) in
  let mp := (5 * doy + 2) / 153 in
  let d := doy - (153 * mp + 2) / 5 + 1 in
  let m := if mp <? 10 then mp + 3 else mp - 9 in
  mkData (if m <=? 2 then y + 1 else y) m d.

Definition timedelta_sub (x : Data) (days : Z) : Data :=
  civil_de_dias (dias_desde_civil x - days).

(** *** Decimal and float arithmetic *)

(** The Decimal value of an amount held in centavos. *)
Definition centavos (c : Z) : Q := Qmake c 100.

(** Decimal [x / y]; a zero divisor raises. *)
Definition dec_div (x y : Q) : Res Q :=
  if Qeq_bool y 0 then Raise ZeroDivisionError else Ok (x / y)%Q.

Definition Qltb (x y : Q) : bool := negb (Qle_bool y x).

(** Python's [float]: the operations the analytics module applies to it.
    Nothing is assumed about rounding. *)
Class PyFloat := {
  float : Type;
  float_of_decimal : Q -> float;        (* float(Decimal) *)
  float_of_int : Z -> float;            (* an int operand or literal *)
  fsub : float -> float -> float;
  fmul : float -> float -> float;
  fdiv : float -> float -> float;       (* x / y for y != 0 *)
  fsum : list float -> float;           (* sum(l) *)
  flt : float -> float -> bool;         (* x < y *)
  fzero : float -> bool;                (* x == 0 *)
  round2 : float -> float               (* round(x, 2) *)
}.

(** What the guards rely on: a positive int, a Decimal of at least one
    centavo and a float greater than zero are not zero; zero is below 70,
    not above 5 and not below -5. *)
Record PyFloatLaws (F : PyFloat) : Prop := {
  float_of_int_pos : forall n : Z, 0 < n -> fzero (float_of_int n) = false;
  float_of_centavos_pos : forall c : Z, 0 < c -> fzero (float_of_decimal (centavos c)) = false;
  flt_zero_pos : forall x : float, flt (float_of_int 0) x = true -> fzero x = false;
  flt_0_70 : flt (float_of_int 0) (float_of_int 70) = true;
  flt_5_0 : flt (float_of_int 5) (float_of_int 0) = false;
  flt_0_neg5 : flt (float_of_int 0) (float_of_int (-5)) = false
}.

(** [x / y] on floats *)
Definition truediv {F : PyFloat} (x y : float) : Res float :=
  if fzero y then Raise ZeroDivisionError else Ok (fdiv x y).

(** Exact arithmetic as an instance: rationals, with [round] to two places
    rounding half to even. *)
Definition Qround2 (x : Q) : Q :=
  let y := (x * 100)%Q in
  let f := Qfloor y in
  let r := (y - inject_Z f)%Q in
  let n := if Qltb r (Qmake 1 2) then f
           else if Qltb (Qmake 1 2) r then f + 1
           else if Z.even f then f else f + 1 in
  Qmake n 100.

Definition QFloat : PyFloat := {|
  float := Q;
  float_of_decimal := fun q => q;
  float_of_int := inject_Z;
  fsub := Qminus;
  fmul := Qmult;
  fdiv := Qdiv;
  fsum := fun l => foldl Qplus (inject_Z 0) l;
  flt := Qltb;
  fzero := fun x => Qeq_bool x 0;
  round2 := Qround2
|}.

(** ** Analytics ([budget/analytics.py]) *)

Module Analytics.
Section ComFloat.
Context {F : PyFloat}.

Record FinancialAnalytics := mkAnalytics {
  usuario : Z;
  data_inicio : Data;
  data_fim : Data
}.

(** [FinancialAnalytics.__init__]; [hoje] is [date.today()]. *)
Definition __init__ (hoje : Data) (usuario : Z) (data_inicio data_fim : option Data)
    : FinancialAnalytics :=
  let fim := default hoje data_fim in
  mkAnalytics usuario (default (timedelta_sub fim 365) data_inicio) fim.

Record Resumo := mkResumo {
  periodo : Data * Data;
  receitas_total : float;
  receitas_quantidade : Z;
  despesas_total : float;
  despesas_quantidade : Z;
  saldo_atual : float;
  balanco : float;
  media_receita : float;
  media_despesa : float
}.

(** [Transacao.objects.filter(usuario=self.usuario,
     data__range=[self.data_inicio, self.data_fim]).filter(tipo=tipo)] *)
Definition transacoes_do_periodo (self : FinancialAnalytics) (tipo : string) (d : DB)
    : list (Z * Transacao.t) :=
  List.filter
    (fun r => (Transacao.usuario r.2 =? usuario self)
              && Data_leb (data_inicio self) (Transacao.data r.2)
              && Data_leb (Transacao.data r.2) (data_fim self)
              && String.eqb (Transacao.tipo r.2) tipo)
    (linhas (transacoes d)).

Definition valores (l : list (Z * Transacao.t)) : list Z :=
  map (fun r => Transacao.valor r.2) l.

(** [resumo_geral] *)
Definition resumo_geral (self : FinancialAnalytics) (d : DB) : Res Resumo :=
  let receitas := transacoes_do_periodo self "receita" d in
  let receitas_total := Sum (valores receitas) in
  let receitas_count := Count receitas in
  let despesas := transacoes_do_periodo self "despesa" d in
  let despesas_total := Sum (valores despesas) in
  let despesas_count := Count despesas in
  let saldo_contas :=
    Sum (map (fun r => Conta.saldo r.2)
           (List.filter (fun r => (Conta.usuario r.2 =? usuario self) && Conta.ativo r.2)
              (linhas (contas d)))) in
  media_receita ← dec_div (centavos (ou_zero receitas_total))
                    (inject_Z (Z.max receitas_count 1));
  media_despesa ← dec_div (centavos (ou_zero despesas_total))
                    (inject_Z (Z.max despesas_count 1));
  Ok (mkResumo (data_inicio self, data_fim self)
        (float_of_decimal (centavos (ou_zero receitas_total))) receitas_count
        (float_of_decimal (centavos (ou_zero despesas_total))) despesas_count
        (float_of_decimal (centavos (ou_zero saldo_contas)))
        (float_of_decimal (centavos (ou_zero receitas_total - ou_zero despesas_total)))
        (float_of_decimal media_receita)
        (float_of_decimal media_despesa)).

(** [_status_orcamento] *)
Definition _status_orcamento (percentual : float) : string :=
  if flt percentual (float_of_int 70) then "normal"
  else if flt percentual (float_of_int 90) then "atencao"
  else if flt percentual (float_of_int 100) then "critico"
  else "excedido".

Record Desempenho := mkDesempenho {
  categoria : string;
  icone : string;
  limite : float;
  gasto : float;
  disponivel : float;
  percentual : float;
  status : string
}.

(** The expense total of a budget's category in the budget's month:
    [Transacao.objects.filter(usuario=..., categoria=orc.categoria,
     tipo='despesa', data__month=orc.mes, data__year=orc.ano)
     .aggregate(total=Sum('valor'))['total'] or Decimal('0')]. *)
Definition gasto_do_orcamento (usuario : Z) (orc : Orcamento.t) (d : DB) : Z :=
  ou_zero (Sum (valores
    (List.filter
       (fun r => (Transacao.usuario r.2 =? usuario)
                 && bool_decide (Transacao.categoria r.2 = Some (Orcamento.categoria orc))
                 && String.eqb (Transacao.tipo r.2) "despesa"
                 && (mes (Transacao.data r.2) =? Orcamento.mes orc)
                 && (ano (Transacao.data r.2) =? Orcamento.ano orc))
       (linhas (transacoes d))))).

(** [Orcamento.objects.filter(usuario=..., mes=hoje.month, ano=hoje.year)] *)
Definition orcamentos_do_mes (usuario : Z) (hoje : Data) (d : DB) : list (Z * Orcamento.t) :=
  List.filter
    (fun r => (Orcamento.usuario r.2 =? usuario)
              && (Orcamento.mes r.2 =? mes hoje)
              && (Orcamento.ano r.2 =? ano hoje))
    (linhas (orcamentos d)).

(** The percentage of [orcamento_performance] before it is rounded:
    [(float(gasto) / float(orc.limite)) * 100 if orc.limite > 0 else 0]. *)
Definition percentual_usado (gasto limite : Z) : Res float :=
  if 0 <? limite
  then q ← truediv (float_of_decimal (centavos gasto)) (float_of_decimal (centavos limite));
       Ok (fmul q (float_of_int 100))
  else Ok (float_of_int 0).

(** The body of the loop of [orcamento_performance]. *)
Definition desempenho_de (self : FinancialAnalytics) (d : DB) (orc : Orcamento.t)
    : Res (option Desempenho) :=
  let gasto := gasto_do_orcamento (usuario self) orc d in
  percentual ← percentual_usado gasto (Orcamento.limite orc);
  match categorias d !! Orcamento.categoria orc with
  | None => Raise DoesNotExist
  | Some cat =>
      Ok (Some (mkDesempenho (Categoria.nome cat) (Categoria.icone cat)
                  (float_of_decimal (centavos (Orcamento.limite orc)))
                  (float_of_decimal (centavos gasto))
                  (float_of_decimal (centavos (Orcamento.limite orc - gasto)))
                  (round2 percentual)
                  (_status_orcamento percentual)))
  end.

(** [orcamento_performance]; [hoje] is [date.today()]. *)
Definition orcamento_performance (self : FinancialAnalytics) (hoje : Data) (d : DB)
    : Res (list Desempenho) :=
  for_each (fun r => desempenho_de self d r.2) (orcamentos_do_mes (usuario self) hoje d).

(** Daily totals: rows grouped by their date, in date order. *)
Fixpoint acumular_dia (dia : Data) (valor : Z) (l : list (Data * Z)) : list (Data * Z) :=
  match l with
  | [] => [(dia, valor)]
  | (d, v) :: l' =>
      if Data_eqb dia d then (d, v + valor) :: l'
      else if Data_ltb dia d then (dia, valor) :: (d, v) :: l'
      else (d, v) :: acumular_dia dia valor l'
  end.

Definition gastos_diarios (usuario : Z) (desde : Data) (d : DB) : list (Data * Z) :=
  foldr (fun r acc => acumular_dia (Transacao.data r.2) (Transacao.valor r.2) acc) []
    (List.filter
       (fun r => (Transacao.usuario r.2 =? usuario)
                 && String.eqb (Transacao.tipo r.2) "despesa"
                 && Data_leb desde (Transacao.data r.2))
       (linhas (transacoes d))).

(** The two shapes of dictionary that [tendencia_gastos] returns. *)
Inductive Tendencia :=
  | SemDados (media_diaria : float) (tendencia : string) (variacao : float)
  | ComDados (media_diaria : float) (tendencia : string) (variacao_percentual : float)
      (dias_analisados : nat).

(** The variation between the halves of the series. *)
Definition variacao_das_metades (valores : list float) : Res float :=
  let meio := (length valores / 2)%nat in
  if (0 <? meio)%nat
  then media_primeira ← truediv (fsum (take meio valores)) (float_of_int (Z.of_nat meio));
       media_segunda ← truediv (fsum (drop meio valores))
                         (float_of_int (Z.of_nat (length (drop meio valores))));
       if flt (float_of_int 0) media_primeira
       then q ← truediv (fsub media_segunda media_primeira) media_primeira;
            Ok (fmul q (float_of_int 100))
       else Ok (float_of_int 0)
  else Ok (float_of_int 0).

Definition classificar_tendencia (variacao : float) : string :=
  if flt (float_of_int 5) variacao then "crescente"
  else if flt variacao (float_of_int (-5)) then "decrescente"
  else "estavel".

(** [tendencia_gastos] over the list [valores] of daily float totals. *)
Definition tendencia_dos_valores (valores : list float) : Res Tendencia :=
  match valores with
  | [] => Ok (SemDados (float_of_int 0) "estavel" (float_of_int 0))
  | _ =>
      media ← truediv (fsum valores) (float_of_int (Z.of_nat (length valores)));
      variacao ← variacao_das_metades valores;
      Ok (ComDados (round2 media) (classificar_tendencia variacao) (round2 variacao)
            (length valores))
  end.

(** [tendencia_gastos]; [hoje] is [date.today()]. *)
Definition tendencia_gastos (self : FinancialAnalytics) (hoje : Data) (dias : Z) (d : DB)
    : Res Tendencia :=
  let data_inicio := timedelta_sub hoje dias in
  let gastos := gastos_diarios (usuario self) data_inicio d in
  let valores := map (fun g => float_of_decimal (centavos g.2)) gastos in
  tendencia_dos_valores valores.

End ComFloat.
End Analytics.

(** ** Budget notifications ([budget/notifications.py]) *)

Module Notifications.

Record BudgetNotificationSystem := mkSistema {
  usuario : Z;
  hoje : Data
}.

(** An alert; the icon and the message text (number formatting) are left
    out. *)
Record Alerta := mkAlerta {
  tipo : string;
  nivel : string;
  titulo : string;
  orcamento_id : Z;
  categoria : string;
  percentual : Q
}.

(** [_calcular_gasto] *)
Definition _calcular_gasto (self : BudgetNotificationSystem) (orcamento : Orcamento.t)
    (d : DB) : Z :=
  let total :=
    Sum (map (fun r => Transacao.valor r.2)
           (List.filter
              (fun r => (Transacao.usuario r.2 =? usuario self)
                        && bool_decide (Transacao.categoria r.2
                                        = Some (Orcamento.categoria orcamento))
                        && String.eqb (Transacao.tipo r.2) "despesa"
                        && (mes (Transacao.data r.2) =? Orcamento.mes orcamento)
                        && (ano (Transacao.data r.2) =? Orcamento.ano orcamento))
              (linhas (transacoes d)))) in
  ou_zero total.

(** [orcamento.categoria.nome] *)
Definition nome_da_categoria (d : DB) (orcamento : Orcamento.t) : Res string :=
  match categorias d !! Orcamento.categoria orcamento with
  | Some cat => Ok (Categoria.nome cat)
  | None => Raise DoesNotExist
  end.

(** [_criar_alerta] *)
Definition _criar_alerta (d : DB) (id : Z) (orcamento : Orcamento.t) (gasto : Z)
    (percentual : Q) : Res (option Alerta) :=
  if Qle_bool 100 percentual then
    nome ← nome_da_categoria d orcamento;
    Ok (Some (mkAlerta "danger" "critico" ("Orcamento Excedido: " +:+ nome)
                id nome percentual))
  else if Qle_bool 90 percentual then
    nome ← nome_da_categoria d orcamento;
    Ok (Some (mkAlerta "warning" "alto" ("Orcamento Critico: " +:+ nome)
                id nome percentual))
  else if Qle_bool 75 percentual then
    nome ← nome_da_categoria d orcamento;
    Ok (Some (mkAlerta "info" "medio" ("Atencao: " +:+ nome) id nome percentual))
  else Ok None.

(** [(gasto / orc.limite * 100) if orc.limite > 0 else 0] *)
Definition percentual_do_orcamento (gasto limite : Z) : Res Q :=
  if 0 <? limite
  then q ← dec_div (centavos gasto) (centavos limite); Ok (q * 100)%Q
  else Ok 0%Q.

Definition orcamentos_de_hoje (self : BudgetNotificationSystem) (d : DB)
    : list (Z * Orcamento.t) :=
  List.filter
    (fun r => (Orcamento.usuario r.2 =? usuario self)
              && (Orcamento.mes r.2 =? mes (hoje self))
              && (Orcamento.ano r.2 =? ano (hoje self)))
    (linhas (orcamentos d)).

(** The body of the loop of [get_alertas]. *)
Definition alerta_de (self : BudgetNotificationSystem) (d : DB) (r : Z * Orcamento.t)
    : Res (option Alerta) :=
  let gasto := _calcular_gasto self r.2 d in
  percentual ← percentual_do_orcamento gasto (Orcamento.limite r.2);
  _criar_alerta d r.1 r.2 gasto percentual.

(** [get_alertas] *)
Definition get_alertas (self : BudgetNotificationSystem) (d : DB) : Res (list Alerta) :=
  for_each (alerta_de self d) (orcamentos_de_hoje self d).

(** [tem_alertas_criticos] *)
Definition tem_alertas_criticos (self : BudgetNotificationSystem) (d : DB) : Res bool :=
  alertas ← get_alertas self d;
  Ok (existsb (fun a => String.eqb (nivel a) "critico") alertas).

Record Contagem := mkContagem {
  total_alertas : Z;
  criticos : Z;
  altos : Z;
  medios : Z
}.

(** [sum(1 for a in alertas if a['nivel'] == n)] *)
Definition contar_nivel (n : string) (alertas : list Alerta) : Z :=
  total (map (fun _ => 1) (List.filter (fun a => String.eqb (nivel a) n) alertas)).

(** [contar_alertas] *)
Definition contar_alertas (self : BudgetNotificationSystem) (d : DB) : Res Contagem :=
  alertas ← get_alertas self d;
  Ok (mkContagem (Z.of_nat (length alertas))
        (contar_nivel "critico" alertas)
        (contar_nivel "alto" alertas)
        (contar_nivel "medio" alertas)).

End Notifications.

(** The balance invariant of an account, relative to the database the
    requests started from: the balance is the initial balance plus the signed
    sum of the transactions now referencing the account. *)
Definition invariante_saldo (inicial d : DB) (conta : Z) : Prop :=
  saldo_de d conta = (fun s => s + soma_assinada d conta) <$> saldo_de inicial conta.

(** A form that names an account or a category of another user. *)
Definition referencia_alheia (d : DB) (user conta categoria : Z) : Prop :=
  (exists c, contas d !! conta = Some c /\ Conta.usuario c <> user)
  \/ (exists k, categorias d !! categoria = Some k /\ Categoria.usuario k <> user).

(** Validated objects of which the account or the category belongs to another
    user. *)
Definition objeto_alheio (user : Z) (conta : ContaObj)
    (categoria : option Api.CategoriaObj) : Prop :=
  Conta.usuario (campos conta) <> user
  \/ (exists cat, categoria = Some cat /\ Categoria.usuario cat.2 <> user).

(** A request that ended in an authorization error: [PermissionDenied],
    raised to the framework or reported to the user. *)
Definition erro_de_autorizacao (r : Res Views.Resultado) : Prop :=
  r = Raise PermissionDenied
  \/ (exists resp texto, r = Ok (resp, [Views.Error texto PermissionDenied])).

(** ** Example data *)

Module Exemplo.

(** User 1 owns accounts 1 (balance 100.00) and 3 (balance 300.00) and
    category 1; user 2 owns account 2 and category 2. *)
Definition conta_a : Conta.t := Conta.mk 1 "A" "corrente" 10000 "" "#007AFF" true.
Definition conta_b : Conta.t := Conta.mk 2 "B" "carteira" 700 "" "#007AFF" true.
Definition conta_c : Conta.t := Conta.mk 1 "C" "poupanca" 30000 "" "#007AFF" true.
Definition salario : Categoria.t := Categoria.mk 1 "Salario" "receita" "" "#007AFF".
Definition alheia : Categoria.t := Categoria.mk 2 "Alheia" "despesa" "" "#007AFF".

Definition db0 : DB :=
  mkDB {[ 1 := conta_a; 2 := conta_b; 3 := conta_c ]} {[ 1 := salario; 2 := alheia ]}
    ∅ ∅ 0.

Definition dia15 : Data := mkData 2025 1 15.

(** Income of 50.00 on account 1, and the same transaction turned into an
    expense of 20.00. *)
Definition receita_50 : Views.TransacaoForm :=
  Views.mkForm 1 1 "salario" (Some 5000) "receita" (Some dia15) "" false.
Definition despesa_20 : Views.TransacaoForm :=
  Views.mkForm 1 1 "salario" (Some 2000) "despesa" (Some dia15) "" false.

(** The income of 50.00 moved to account 3. *)
Definition receita_50_em_c : Views.TransacaoForm :=
  Views.mkForm 3 1 "salario" (Some 5000) "receita" (Some dia15) "" false.

(** Forms of user 1 that name user 2's account, and user 2's category. *)
Definition conta_alheia : Views.TransacaoForm :=
  Views.mkForm 2 1 "salario" (Some 5000) "receita" (Some dia15) "" false.
Definition categoria_alheia : Views.TransacaoForm :=
  Views.mkForm 1 2 "salario" (Some 5000) "receita" (Some dia15) "" false.

(** The web handlers, one request after the other. *)
Definition apos_criar : DB :=
  efeito (Views.transacao_criar 1 (Views.POST receita_50)) (mundo db0).
Definition apos_editar_igual : DB :=
  efeito (Views.transacao_editar 1 1 (Views.POST receita_50)) (mundo apos_criar).
Definition apos_editar : DB :=
  efeito (Views.transacao_editar 1 1 (Views.POST despesa_20)) (mundo apos_criar).
Definition apos_deletar : DB :=
  efeito (Views.transacao_deletar 1 1 (Views.POST tt)) (mundo apos_editar).
Definition apos_mover : DB :=
  efeito (Views.transacao_editar 1 1 (Views.POST receita_50_em_c)) (mundo apos_criar).

(** The same requests through the REST API. *)
Definition api_receita_50 : Api.Payload :=
  Api.mkPayload (Some 1) (Some (Some 1)) (Some "salario") (Some (Some 5000))
    (Some "receita") (Some dia15) None None.
Definition api_put_despesa_20 : Api.Payload :=
  Api.mkPayload (Some 1) (Some (Some 1)) (Some "salario") (Some (Some 2000))
    (Some "despesa") (Some dia15) None None.
Definition api_patch_despesa_20 : Api.Payload :=
  Api.mkPayload None None None (Some (Some 2000)) (Some "despesa") None None None.
Definition api_conta_alheia : Api.Payload :=
  Api.mkPayload (Some 2) (Some (Some 1)) (Some "salario") (Some (Some 5000))
    (Some "receita") (Some dia15) None None.

Definition api_apos_criar : DB := efeito (Api.create 1 api_receita_50) (mundo db0).
Definition api_apos_patch : DB :=
  efeito (Api.update 1 1 api_patch_despesa_20) (mundo api_apos_criar).
Definition api_apos_put : DB :=
  efeito (Api.update 1 1 api_put_despesa_20) (mundo api_apos_criar).
Definition api_apos_destroy : DB := efeito (Api.destroy 1 1) (mundo api_apos_patch).

(** A PATCH that moves the transaction to account 3. *)
Definition api_patch_conta_c : Api.Payload :=
  Api.mkPayload (Some 3) None None None None None None None.
Definition api_apos_mover : DB :=
  efeito (Api.update 1 1 api_patch_conta_c) (mundo api_apos_criar).

(** January 2025: user 1 limits category 3 to [limite] centavos and has one
    expense of [gasto] centavos in it, dated the 15th. *)
Definition mercado : Categoria.t := Categoria.mk 1 "Mercado" "despesa" "" "#007AFF".
Definition hoje : Data := mkData 2025 1 20.

Definition db_orcamento (limite gasto : Z) : DB :=
  mkDB {[ 1 := conta_a ]} {[ 3 := mercado ]}
    {[ 1 := Transacao.mk 1 1 (Some 3) "compras" gasto "despesa" dia15 "" false ]}
    {[ 1 := Orcamento.mk 1 3 limite 1 2025 ]} 1.

(** A limit of 200.00 and three expenses that add up to 210.00; an income
    of 50.00 in the same month. *)
Definition db_alimentacao : DB :=
  mkDB {[ 1 := conta_a ]} {[ 1 := salario; 3 := mercado ]}
    {[ 1 := Transacao.mk 1 1 (Some 3) "feira" 10000 "despesa" (mkData 2025 1 3) "" false;
       2 := Transacao.mk 1 1 (Some 3) "padaria" 6000 "despesa" (mkData 2025 1 10) "" false;
       3 := Transacao.mk 1 1 (Some 3) "mercado" 5000 "despesa" dia15 "" false;
       4 := Transacao.mk 1 1 (Some 1) "salario" 5000 "receita" dia15 "" false ]}
    {[ 1 := Orcamento.mk 1 3 20000 1 2025 ]} 4.

(** Two expenses entered with negative amounts, -10.00 on the 10th and
    -20.00 on the 15th. *)
Definition db_estornos : DB :=
  mkDB {[ 1 := conta_a ]} {[ 3 := mercado ]}
    {[ 1 := Transacao.mk 1 1 (Some 3) "estorno" (-1000) "despesa" (mkData 2025 1 10) "" false;
       2 := Transacao.mk 1 1 (Some 3) "estorno" (-2000) "despesa" dia15 "" false ]}
    ∅ 2.

Definition analise : Analytics.FinancialAnalytics := Analytics.__init__ hoje 1 None None.
Definition avisos : Notifications.BudgetNotificationSystem :=
  Notifications.mkSistema 1 hoje.

End Exemplo.

(** ** Sequences of ledger requests *)

(** The requests that create and remove transactions, through the web forms
    and through the REST API, and the API's update. *)
Inductive Pedido :=
  | WebCriar (user : Z) (f : Views.TransacaoForm)
  | WebDeletar (user id : Z)
  | ApiCriar (user : Z) (p : Api.Payload)
  | ApiAtualizar (user id : Z) (p : Api.Payload)
  | ApiDestruir (user id : Z).

(** Each request is served with no model instance in memory left over from an
    earlier one; the database it leaves is the next request's. *)
Definition executar (d : DB) (p : Pedido) : DB :=
  match p with
  | WebCriar user f => efeito (Views.transacao_criar user (Views.POST f)) (mundo d)
  | WebDeletar user id => efeito (Views.transacao_deletar user id (Views.POST tt)) (mundo d)
  | ApiCriar user p => efeito (Api.create user p) (mundo d)
  | ApiAtualizar user id p => efeito (Api.update user id p) (mundo d)
  | ApiDestruir user id => efeito (Api.destroy user id) (mundo d)
  end.


(** An update request does not send the account the transaction is on. *)
Definition nao_reenvia_conta (d : DB) (p : Pedido) : Prop :=
  match p with
  | ApiAtualizar _ id p =>
      forall t, transacoes d !! id = Some t -> Api.p_conta p <> Some (Transacao.conta t)
  | _ => True
  end.


(** Every balance has moved, since [d0], by what the signed sum of the
    account's transactions has moved. *)
Definition razao_em_dia (d0 d : DB) : Prop :=
  forall j, saldo_de d j
            = (fun s => s + (soma_assinada d j - soma_assinada d0 j)) <$> saldo_de d0 j.

(** No [Transacao] row has a key above the last one handed out. *)
Definition chaves_emitidas (d : DB) : Prop :=
  forall id, is_Some (transacoes d !! id) -> id <= transacao_seq d.

(** The three ways in which a request changes the ledger: a transaction is
    entered and its account credited with its signed amount; a transaction is
    removed and its signed amount taken back; a transaction is replaced on
    its account and the balance moved by the difference. *)
Definition lancado (d d' : DB) : Prop :=
  exists t c,
    contas d !! Transacao.conta t = Some c
    /\ d' = mkDB (<[Transacao.conta t := Conta.set_saldo (Conta.saldo c + valor_assinado t) c]>
                    (contas d))
              (categorias d) (<[transacao_seq d + 1 := t]> (transacoes d))
              (orcamentos d) (transacao_seq d + 1).

Definition estornado (d d' : DB) : Prop :=
  exists id t c,
    transacoes d !! id = Some t
    /\ contas d !! Transacao.conta t = Some c
    /\ d' = mkDB (<[Transacao.conta t := Conta.set_saldo (Conta.saldo c - valor_assinado t) c]>
                    (contas d))
              (categorias d) (delete id (transacoes d)) (orcamentos d) (transacao_seq d).

Definition substituido (d d' : DB) : Prop :=
  exists id t t' c,
    transacoes d !! id = Some t
    /\ Transacao.conta t' = Transacao.conta t
    /\ contas d !! Transacao.conta t = Some c
    /\ d' = mkDB (<[Transacao.conta t
                    := Conta.set_saldo (Conta.saldo c - valor_assinado t + valor_assinado t') c]>
                    (contas d))
              (categorias d) (<[id := t']> (transacoes d)) (orcamentos d) (transacao_seq d).

(** ** Template context ([budget/context_processors.py]) *)

Module ContextProcessors.

Record Contexto := mkContexto {
  alertas_orcamento : list Notifications.Alerta;
  contagem_alertas : Notifications.Contagem
}.

(** [budget_notifications]; [user] is [None] for a visitor who is not
    authenticated, [hoje] is [date.today()]. *)
Definition budget_notifications (hoje : Data) (user : option Z) (d : DB) : Res Contexto :=
  match user with
  | Some u =>
      let notificacoes := Notifications.mkSistema u hoje in
      alertas ← Notifications.get_alertas notificacoes d;
      contagem ← Notifications.contar_alertas notificacoes d;
      Ok (mkContexto alertas contagem)
  | None => Ok (mkContexto [] (Notifications.mkContagem 0 0 0 0))
  end.

End ContextProcessors.

(** ** Rounding a Decimal *)

(** The integer nearest to [y], a tie going to the even one
    ([ROUND_HALF_EVEN], which is what [round] applies to a Decimal). *)
Definition meio_par (y : Q) : Z :=
  let f := Qfloor y in
  let r := (y - inject_Z f)%Q in
  if Qltb r (Qmake 1 2) then f
  else if Qltb (Qmake 1 2) r then f + 1
  else if Z.even f then f else f + 1.

(** [round(x, 1)] on a Decimal. *)
Definition Qround1 (x : Q) : Q := Qmake (meio_par (x * 10)) 10.

(** ** Savings goals ([budget/models.py], class [Meta]) *)

Module Meta.

Record t := mk {
  usuario : Z;
  nome : string;
  valor_alvo : Z;
  valor_atual : Z;
  data_inicio : Data;
  data_alvo : Data;
  concluida : bool
}.

(** The property [percentual_completo]:
    [round((self.valor_atual / self.valor_alvo) * 100, 1)] when
    [self.valor_alvo > 0], else 0. *)
Definition percentual_completo (self : t) : Res Q :=
  if 0 <? valor_alvo self
  then q ← dec_div (centavos (valor_atual self)) (centavos (valor_alvo self));
       Ok (Qround1 (q * 100))
  else Ok 0%Q.

End Meta.

(** ** Serializers ([budget/api/serializers.py]) *)

Module Serializers.

(** The serializer context's entry ["_orcamento_gasto_cache"]: [None] while
    the key is absent, then a dictionary from budget key to amount. *)
Definition Contexto : Type := option (gmap Z Z).

(** The query of [get_valor_gasto]: the expenses of the budget's owner in the
    budget's category, month and year. *)
Definition despesas_do_orcamento (orc : Orcamento.t) (d : DB) : list (Z * Transacao.t) :=
  List.filter
    (fun r => (Transacao.usuario r.2 =? Orcamento.usuario orc)
              && bool_decide (Transacao.categoria r.2 = Some (Orcamento.categoria orc))
              && String.eqb (Transacao.tipo r.2) "despesa"
              && (mes (Transacao.data r.2) =? Orcamento.mes orc)
              && (ano (Transacao.data r.2) =? Orcamento.ano orc))
    (linhas (transacoes d)).

(** [OrcamentoSerializer.get_valor_gasto]: [setdefault] creates the cache,
    a cached amount is returned as it is, a computed one is stored. *)
Definition get_valor_gasto (obj : Z * Orcamento.t) (d : DB) (context : Contexto)
    : Z * Contexto :=
  let cache := default ∅ context in
  match cache !! obj.1 with
  | Some valor => (valor, Some cache)
  | None =>
      let total := Sum (map (fun r => Transacao.valor r.2) (despesas_do_orcamento obj.2 d)) in
      let valor := ou_zero total in
      (valor, Some (<[obj.1 := valor]> cache))
  end.

(** [OrcamentoSerializer.get_valor_disponivel] *)
Definition get_valor_disponivel (obj : Z * Orcamento.t) (d : DB) (context : Contexto)
    : Z * Contexto :=
  let (gasto, context) := get_valor_gasto obj d context in
  (Orcamento.limite obj.2 - gasto, context).

(** [OrcamentoSerializer.get_percentual_utilizado] *)
Definition get_percentual_utilizado (obj : Z * Orcamento.t) (d : DB) (context : Contexto)
    : Res Q * Contexto :=
  let (gasto, context) := get_valor_gasto obj d context in
  if Orcamento.limite obj.2 <=? 0 then (Ok 0%Q, context)
  else (q ← dec_div (centavos gasto) (centavos (Orcamento.limite obj.2));
        Ok (Qround2 (q * 100)),
        context).

(** The three computed fields of a budget's representation, in the order of
    [Meta.fields]: [valor_gasto], [valor_disponivel],
    [percentual_utilizado]. *)
Record OrcamentoData := mkOrcamentoData {
  valor_gasto : Z;
  valor_disponivel : Z;
  percentual_utilizado : Q
}.

Definition OrcamentoSerializer_data (obj : Z * Orcamento.t) (d : DB) (context : Contexto)
    : Res OrcamentoData * Contexto :=
  let (gasto, context) := get_valor_gasto obj d context in
  let (disponivel, context) := get_valor_disponivel obj d context in
  let (percentual, context) := get_percentual_utilizado obj d context in
  (p ← percentual; Ok (mkOrcamentoData gasto disponivel p), context).

(** [MetaSerializer.get_percentual_completo] *)
Definition get_percentual_completo (obj : Meta.t) : Res Q := Meta.percentual_completo obj.

End Serializers.

(** ** The dashboard ([budget/views.py], [dashboard] and [orcamentos_view]) *)

Module Dashboard.

(** The loop of [gerar_sequencia_meses]: the month is appended, then the
    loop steps one month back. *)
Fixpoint meses_para_tras (quantidade : nat) (ano mes : Z) (meses : list (Z * Z))
    : list (Z * Z) :=
  match quantidade with
  | O => meses
  | S n =>
      let meses := (meses ++ [(ano, mes)])%list in
      let mes := mes - 1 in
      if mes =? 0 then meses_para_tras n (ano - 1) 12 meses
      else meses_para_tras n ano mes meses
  end.

(** [gerar_sequencia_meses] *)
Definition gerar_sequencia_meses (referencia : Data) (quantidade : nat) : list (Z * Z) :=
  reverse (meses_para_tras quantidade (ano referencia) (mes referencia) []).

(** A budget of the list with the attributes the views attach to it. *)
Record OrcamentoAnotado := mkAnotado {
  orcamento : Z * Orcamento.t;
  gasto : Z;
  percentual : Q;
  disponivel : Z
}.

(** The expenses of the user in a category in the current month. *)
Definition gasto_no_mes (user : Z) (categoria : Z) (hoje : Data) (d : DB) : Z :=
  ou_zero (Sum (map (fun r => Transacao.valor r.2)
    (List.filter
       (fun r => (Transacao.usuario r.2 =? user)
                 && bool_decide (Transacao.categoria r.2 = Some categoria)
                 && String.eqb (Transacao.tipo r.2) "despesa"
                 && (mes (Transacao.data r.2) =? mes hoje)
                 && (ano (Transacao.data r.2) =? ano hoje))
       (linhas (transacoes d))))).

(** The body of the loop over the budgets:
    [round((gasto / orcamento.limite * 100), 1) if orcamento.limite > 0 else 0]. *)
Definition anotar (user : Z) (hoje : Data) (d : DB) (r : Z * Orcamento.t)
    : Res (option OrcamentoAnotado) :=
  let gasto := gasto_no_mes user (Orcamento.categoria r.2) hoje d in
  percentual ← (if 0 <? Orcamento.limite r.2
                then q ← dec_div (centavos gasto) (centavos (Orcamento.limite r.2));
                     Ok (Qround1 (q * 100))
                else Ok 0%Q);
  Ok (Some (mkAnotado r gasto percentual (Orcamento.limite r.2 - gasto))).

(** The budgets of the dashboard, annotated. *)
Definition orcamentos_anotados (user : Z) (hoje : Data) (d : DB)
    : Res (list OrcamentoAnotado) :=
  for_each (anotar user hoje d)
    (List.filter
       (fun r => (Orcamento.usuario r.2 =? user)
                 && (Orcamento.mes r.2 =? mes hoje)
                 && (Orcamento.ano r.2 =? ano hoje))
       (linhas (orcamentos d))).

End Dashboard.

(** ** Subscription plans ([budget/models_profile.py]) *)

Module UserProfile.

(** The columns of [UserProfile]; the two payment dates, which no method
    reads, are left out with the timestamps. *)
Record t := mk {
  user : Z;
  plano : string;
  limite_transacoes : Z;
  limite_orcamentos : Z;
  transacoes_mes_atual : Z;
  mes_referencia : Z;
  ano_referencia : Z;
  stripe_customer_id : string;
  stripe_subscription_id : string;
  receber_notificacoes : bool;
  idioma : string
}.

Definition set_plano (v : string) (p : t) : t :=
  mk (user p) v (limite_transacoes p) (limite_orcamentos p) (transacoes_mes_atual p)
    (mes_referencia p) (ano_referencia p) (stripe_customer_id p) (stripe_subscription_id p)
    (receber_notificacoes p) (idioma p).
Definition set_limite_transacoes (v : Z) (p : t) : t :=
  mk (user p) (plano p) v (limite_orcamentos p) (transacoes_mes_atual p)
    (mes_referencia p) (ano_referencia p) (stripe_customer_id p) (stripe_subscription_id p)
    (receber_notificacoes p) (idioma p).
Definition set_limite_orcamentos (v : Z) (p : t) : t :=
  mk (user p) (plano p) (limite_transacoes p) v (transacoes_mes_atual p)
    (mes_referencia p) (ano_referencia p) (stripe_customer_id p) (stripe_subscription_id p)
    (receber_notificacoes p) (idioma p).
Definition set_transacoes_mes_atual (v : Z) (p : t) : t :=
  mk (user p) (plano p) (limite_transacoes p) (limite_orcamentos p) v
    (mes_referencia p) (ano_referencia p) (stripe_customer_id p) (stripe_subscription_id p)
    (receber_notificacoes p) (idioma p).
Definition set_mes_referencia (v : Z) (p : t) : t :=
  mk (user p) (plano p) (limite_transacoes p) (limite_orcamentos p) (transacoes_mes_atual p)
    v (ano_referencia p) (stripe_customer_id p) (stripe_subscription_id p)
    (receber_notificacoes p) (idioma p).
Definition set_ano_referencia (v : Z) (p : t) : t :=
  mk (user p) (plano p) (limite_transacoes p) (limite_orcamentos p) (transacoes_mes_atual p)
    (mes_referencia p) v (stripe_customer_id p) (stripe_subscription_id p)
    (receber_notificacoes p) (idioma p).

(** A profile instance in memory ([self]) and its row in the table.  The row
    exists and the writes succeed. *)
Record Estado := mkEstado { self : t; linha : t }.

(** [pode_criar_transacao]; [hoje] is [date.today()].  The save names three
    columns in [update_fields]: only they are written. *)
Definition pode_criar_transacao (hoje : Data) (e : Estado) : bool * Estado :=
  if String.eqb (plano (self e)) "enterprise" then (true, e)
  else
    let e :=
      (* Reset contador se mudou de mes *)
      if negb (mes_referencia (self e) =? mes hoje) || negb (ano_referencia (self e) =? ano hoje)
      then
        let s := set_ano_referencia (ano hoje)
                   (set_mes_referencia (mes hoje) (set_transacoes_mes_atual 0 (self e))) in
        mkEstado s
          (set_ano_referencia (ano_referencia s)
             (set_mes_referencia (mes_referencia s)
                (set_transacoes_mes_atual (transacoes_mes_atual s) (linha e))))
      else e in
    (transacoes_mes_atual (self e) <? limite_transacoes (self e), e).

(** [pode_criar_orcamento]:
    [Orcamento.objects.filter(usuario=self.user).count() < self.limite_orcamentos]. *)
Definition pode_criar_orcamento (d : DB) (e : Estado) : bool :=
  if String.eqb (plano (self e)) "enterprise" then true
  else
    let total :=
      Count (List.filter (fun r : Z * Orcamento.t => Orcamento.usuario r.2 =? user (self e))
               (linhas (orcamentos d))) in
    total <? limite_orcamentos (self e).

(** [incrementar_transacoes] *)
Definition incrementar_transacoes (e : Estado) : Estado :=
  let s := set_transacoes_mes_atual (transacoes_mes_atual (self e) + 1) (self e) in
  mkEstado s (set_transacoes_mes_atual (transacoes_mes_atual s) (linha e)).

(** The dictionary [limites] of [upgrade_plano]: ([transacoes],
    [orcamentos]) per plan; [None] where indexing raises [KeyError]. *)
Definition limites (plano : string) : option (Z * Z) :=
  if String.eqb plano "free" then Some (50, 3)
  else if String.eqb plano "pro" then Some (1000, 20)
  else if String.eqb plano "enterprise" then Some (-1, -1)
  else None.

Inductive Saida :=
  | Retorna
  | KeyError.

(** [upgrade_plano]: the plan is assigned before the dictionary is indexed;
    the final [save()] writes every column. *)
Definition upgrade_plano (novo_plano : string) (e : Estado) : Saida * Estado :=
  let s := set_plano novo_plano (self e) in
  match limites novo_plano with
  | None => (KeyError, mkEstado s (linha e))
  | Some (transacoes, orcamentos) =>
      let s := set_limite_orcamentos orcamentos (set_limite_transacoes transacoes s) in
      (Retorna, mkEstado s s)
  end.

(** [UserProfile.objects.get_or_create(user=user, defaults={'plano': 'free',
    'limite_transacoes': 50, 'limite_orcamentos': 3})] over the table of
    profiles, which holds one row per user at most; the other columns of a
    new row take the defaults of the model. *)
Definition novo_perfil (u : Z) : t := mk u "free" 50 3 0 1 2025 "" "" true "pt-BR".




End UserProfile.

(** A transaction is moved: its old account gives the old signed amount
    back and another account receives the new one. *)
Definition movido (d d' : DB) : Prop :=
  exists id t t' velha nova,
    transacoes d !! id = Some t
    /\ Transacao.conta t' <> Transacao.conta t
    /\ contas d !! Transacao.conta t = Some velha
    /\ contas d !! Transacao.conta t' = Some nova
    /\ d' = mkDB (<[Transacao.conta t'
                    := Conta.set_saldo (Conta.saldo nova + valor_assinado t') nova]>
                    (<[Transacao.conta t
                       := Conta.set_saldo (Conta.saldo velha - valor_assinado t) velha]>
                       (contas d)))
              (categorias d) (<[id := t']> (transacoes d)) (orcamentos d) (transacao_seq d).

(** ** Accounts and budgets: the other form handlers of [budget/views.py]
    and the budget viewset of [budget/api/views.py] *)

Definition set_orcamentos (f : gmap Z Orcamento.t -> gmap Z Orcamento.t) (d : DB) : DB :=
  mkDB (contas d) (categorias d) (transacoes d) (f (orcamentos d)) (transacao_seq d).

(** [obj.campo = valor] on a [Conta] instance. *)
Definition atribuir (l : nat) (f : Conta.t -> Conta.t) : M unit :=
  fun w => (Ok tt, mkWorld (db w)
                     (alter (fun o => mkContaObj (pk o) (f (campos o))) l (heap w))
                     (escritas_ate_falha w)).

Definition Conta_set_nome (v : string) (c : Conta.t) : Conta.t :=
  Conta.mk (Conta.usuario c) v (Conta.tipo c) (Conta.saldo c) (Conta.banco c) (Conta.cor c)
    (Conta.ativo c).
Definition Conta_set_tipo (v : string) (c : Conta.t) : Conta.t :=
  Conta.mk (Conta.usuario c) (Conta.nome c) v (Conta.saldo c) (Conta.banco c) (Conta.cor c)
    (Conta.ativo c).
Definition Conta_set_banco (v : string) (c : Conta.t) : Conta.t :=
  Conta.mk (Conta.usuario c) (Conta.nome c) (Conta.tipo c) (Conta.saldo c) v (Conta.cor c)
    (Conta.ativo c).
Definition Conta_set_cor (v : string) (c : Conta.t) : Conta.t :=
  Conta.mk (Conta.usuario c) (Conta.nome c) (Conta.tipo c) (Conta.saldo c) (Conta.banco c) v
    (Conta.ativo c).

(** [Conta.objects.create(...)]; [novo_id] is the primary key the database
    hands out for the new row. *)
Definition Conta_objects_create (novo_id : Z) (c : Conta.t) : M unit :=
  orm_write (set_contas (insert novo_id c)).

(** [unique_together = ['usuario', 'categoria', 'mes', 'ano']]: is there a
    row other than [exceto] with the four values of [o]? *)
Definition orcamento_duplicado (o : Orcamento.t) (exceto : option Z)
    (m : gmap Z Orcamento.t) : bool :=
  existsb
    (fun r : Z * Orcamento.t =>
       negb (bool_decide (Some r.1 = exceto))
       && (Orcamento.usuario r.2 =? Orcamento.usuario o)
       && (Orcamento.categoria r.2 =? Orcamento.categoria o)
       && (Orcamento.mes r.2 =? Orcamento.mes o)
       && (Orcamento.ano r.2 =? Orcamento.ano o))
    (linhas m).

(** [Orcamento.objects.create(...)]: the database refuses a second row with
    the same user, category, month and year ([IntegrityError], a
    [DatabaseError]). *)
Definition Orcamento_objects_create (novo_id : Z) (o : Orcamento.t) : M unit :=
  d ← read_db;
  if orcamento_duplicado o None (orcamentos d) then raise DatabaseError
  else orm_write (set_orcamentos (insert novo_id o)).

(** [orcamento.save()] on an existing instance. *)
Definition Orcamento_save (id : Z) (o : Orcamento.t) : M unit :=
  d ← read_db;
  if orcamento_duplicado o (Some id) (orcamentos d) then raise DatabaseError
  else orm_write (set_orcamentos (insert id o)).

(** [orcamento.delete()] *)
Definition Orcamento_delete (id : Z) : M unit :=
  orm_write (set_orcamentos (delete id)).

(** [Orcamento.objects.get(id=id, usuario=user)] *)
Definition Orcamento_objects_get (id user : Z) : M Orcamento.t :=
  d ← read_db;
  match orcamentos d !! id with
  | Some o => if Orcamento.usuario o =? user then ret o else raise DoesNotExist
  | None => raise DoesNotExist
  end.

Module Cadastros.

(** [request.POST] of the account form as [conta_criar] reads it: [saldo],
    [banco] and [cor] have defaults; [Some None] is a [saldo] that is not a
    decimal literal. *)
Record ContaNova := mkContaNova {
  n_nome : string;
  n_tipo : string;
  n_saldo : option (option Z);
  n_banco : option string;
  n_cor : option string
}.

(** The same form as [conta_editar] reads it: [saldo] has no default;
    [None] is a text that is not a decimal literal. *)
Record ContaEdicao := mkContaEdicao {
  e_nome : string;
  e_tipo : string;
  e_saldo : option Z;
  e_banco : option string;
  e_cor : option string
}.

(** [conta_criar] *)
Definition conta_criar (novo_id user : Z) (request : Views.Request ContaNova)
    : M Views.Resultado :=
  match request with
  | Views.POST f =>
      try_except
        (saldo ← Decimal (default (Some 0) (n_saldo f));
         Conta_objects_create novo_id
           (Conta.mk user (n_nome f) (n_tipo f) saldo (default "" (n_banco f))
              (default "#007AFF" (n_cor f)) true);;
         mret (Views.Redirect "contas", [Views.Success "Conta criada com sucesso!"]))
        (fun e => mret (Views.Render "budget/conta_form.html",
                        [Views.Error "Erro ao criar conta" e]))
  | Views.GET => mret (Views.Render "budget/conta_form.html", [])
  end.

(** [conta_editar]: the account is looked up before the [try] block; the
    attributes are assigned one by one, the balance after name and kind. *)
Definition conta_editar (user id : Z) (request : Views.Request ContaEdicao)
    : M Views.Resultado :=
  conta ← Conta_objects_get id user;
  match request with
  | Views.POST f =>
      try_except
        (atribuir conta (Conta_set_nome (e_nome f));;
         atribuir conta (Conta_set_tipo (e_tipo f));;
         saldo ← Decimal (e_saldo f);
         atribuir_saldo conta saldo;;
         atribuir conta (Conta_set_banco (default "" (e_banco f)));;
         atribuir conta (Conta_set_cor (default "#007AFF" (e_cor f)));;
         Conta_save conta;;
         mret (Views.Redirect "contas", [Views.Success "Conta atualizada com sucesso!"]))
        (fun e => mret (Views.Render "budget/conta_form.html",
                        [Views.Error "Erro ao editar conta" e]))
  | Views.GET => mret (Views.Render "budget/conta_form.html", [])
  end.

(** [request.POST] of the budget form; [mes] and [ano] are texts that [int]
    accepts, [None] is a [limite] that is not a decimal literal. *)
Record OrcamentoForm := mkOrcamentoForm {
  o_categoria : Z;
  o_limite : option Z;
  o_mes : Z;
  o_ano : Z
}.

(** [orcamento_criar] *)
Definition orcamento_criar (novo_id user : Z) (request : Views.Request OrcamentoForm)
    : M Views.Resultado :=
  match request with
  | Views.POST f =>
      try_except
        (categoria ← Categoria_objects_get (o_categoria f) user;
         limite ← Decimal (o_limite f);
         Orcamento_objects_create novo_id
           (Orcamento.mk user categoria limite (o_mes f) (o_ano f));;
         mret (Views.Redirect "orcamentos", [Views.Success "Orcamento criado com sucesso!"]))
        (fun e => mret (Views.Render "budget/orcamento_form.html",
                        [Views.Error "Erro ao criar orcamento" e]))
  | Views.GET => mret (Views.Render "budget/orcamento_form.html", [])
  end.

(** [orcamento_editar] *)
Definition orcamento_editar (user id : Z) (request : Views.Request OrcamentoForm)
    : M Views.Resultado :=
  orcamento ← Orcamento_objects_get id user;
  match request with
  | Views.POST f =>
      try_except
        (categoria ← Categoria_objects_get (o_categoria f) user;
         limite ← Decimal (o_limite f);
         Orcamento_save id
           (Orcamento.mk (Orcamento.usuario orcamento) categoria limite (o_mes f) (o_ano f));;
         mret (Views.Redirect "orcamentos",
               [Views.Success "Orcamento atualizado com sucesso!"]))
        (fun e => mret (Views.Render "budget/orcamento_form.html",
                        [Views.Error "Erro ao editar orcamento" e]))
  | Views.GET => mret (Views.Render "budget/orcamento_form.html", [])
  end.

(** [orcamento_deletar] *)
Definition orcamento_deletar (user id : Z) (request : Views.Request unit)
    : M Views.Resultado :=
  match request with
  | Views.POST _ =>
      try_except
        (_ ← Orcamento_objects_get id user;
         Orcamento_delete id;;
         mret (Views.Redirect "orcamentos",
               [Views.Success "Orcamento deletado com sucesso!"]))
        (fun e => mret (Views.Redirect "orcamentos",
                        [Views.Error "Erro ao deletar orcamento" e]))
  | Views.GET => mret (Views.Redirect "orcamentos", [])
  end.

End Cadastros.

(** [OrcamentoViewSet] *)
Module ApiOrcamento.

(** [serializer.validated_data] of a budget request; an absent field is
    [None]. *)
Record Dados := mkDados {
  v_categoria : option Api.CategoriaObj;
  v_limite : option Z;
  v_mes : option Z;
  v_ano : option Z
}.

(** [OrcamentoViewSet.perform_create], for validated data that holds the
    four required fields; [IsOwnerQuerysetMixin.perform_create] saves with
    [usuario=self.request.user]. *)
Definition perform_create (novo_id user : Z) (categoria : Api.CategoriaObj)
    (limite mes ano : Z) : M unit :=
  if negb (Categoria.usuario categoria.2 =? user) then raise PermissionDenied
  else Orcamento_objects_create novo_id (Orcamento.mk user categoria.1 limite mes ano).

(** [OrcamentoViewSet.perform_update]; the serializer's save assigns the
    validated fields to the instance and saves it. *)
Definition perform_update (user : Z) (instance : Z * Orcamento.t) (v : Dados) : M unit :=
  let salvar :=
    Orcamento_save instance.1
      (Orcamento.mk (Orcamento.usuario instance.2)
         (default (Orcamento.categoria instance.2) (fst <$> v_categoria v))
         (default (Orcamento.limite instance.2) (v_limite v))
         (default (Orcamento.mes instance.2) (v_mes v))
         (default (Orcamento.ano instance.2) (v_ano v))) in
  match v_categoria v with
  | Some categoria =>
      if negb (Categoria.usuario categoria.2 =? user) then raise PermissionDenied
      else salvar
  | None => salvar
  end.

(** The request body, with values the serializer's fields accept; an absent
    field is [None]. *)
Record Payload := mkPayload {
  p_categoria : option Z;
  p_limite : option Z;
  p_mes : option Z;
  p_ano : option Z
}.

(** The primary-key field looks the category up among all rows. *)
Definition validar_categoria (p : option Z) : M (option Api.CategoriaObj) :=
  match p with
  | Some id =>
      d ← read_db;
      match categorias d !! id with
      | Some cat => mret (Some (id, cat))
      | None => raise ValidationError
      end
  | None => mret None
  end.

(** POST /orcamentos/ *)
Definition create (novo_id user : Z) (p : Payload) : M unit :=
  categoria ← validar_categoria (p_categoria p);
  categoria ← Api.exigir categoria;
  limite ← Api.exigir (p_limite p);
  mes ← Api.exigir (p_mes p);
  ano ← Api.exigir (p_ano p);
  perform_create novo_id user categoria limite mes ano.

(** PATCH /orcamentos/id/, and PUT when the body holds the four fields: the
    instance comes from [get_queryset], which holds the requester's rows. *)
Definition update (user id : Z) (p : Payload) : M unit :=
  instance ← Orcamento_objects_get id user;
  categoria ← validar_categoria (p_categoria p);
  perform_update user (id, instance) (mkDados categoria (p_limite p) (p_mes p) (p_ano p)).

End ApiOrcamento.

(** Every budget's category belongs to the budget's user. *)
Definition orcamentos_do_dono (d : DB) : Prop :=
  forall k o, orcamentos d !! k = Some o ->
    exists cat, categorias d !! Orcamento.categoria o = Some cat
                /\ Categoria.usuario cat = Orcamento.usuario o.

(** No two budgets share user, category, month and year. *)
Definition orcamentos_unicos (d : DB) : Prop :=
  forall k k' o o',
    orcamentos d !! k = Some o -> orcamentos d !! k' = Some o' ->
    Orcamento.usuario o = Orcamento.usuario o' ->
    Orcamento.categoria o = Orcamento.categoria o' ->
    Orcamento.mes o = Orcamento.mes o' ->
    Orcamento.ano o = Orcamento.ano o' ->
    k = k'.

(** The requests that write to the table of budgets. *)
Inductive PedidoOrcamento :=
  | FormCriar (novo_id user : Z) (f : Cadastros.OrcamentoForm)
  | FormEditar (user id : Z) (f : Cadastros.OrcamentoForm)
  | FormDeletar (user id : Z)
  | ApiCriarOrcamento (novo_id user : Z) (p : ApiOrcamento.Payload)
  | ApiAtualizarOrcamento (user id : Z) (p : ApiOrcamento.Payload).

Definition servir (p : PedidoOrcamento) : M unit :=
  match p with
  | FormCriar novo_id user f =>
      Cadastros.orcamento_criar novo_id user (Views.POST f);; mret tt
  | FormEditar user id f => Cadastros.orcamento_editar user id (Views.POST f);; mret tt
  | FormDeletar user id => Cadastros.orcamento_deletar user id (Views.POST tt);; mret tt
  | ApiCriarOrcamento novo_id user p => ApiOrcamento.create novo_id user p
  | ApiAtualizarOrcamento user id p => ApiOrcamento.update user id p
  end.

(** The key a create request is given is not in use. *)
Definition chave_nova (d : DB) (p : PedidoOrcamento) : Prop :=
  match p with
  | FormCriar novo_id _ _ | ApiCriarOrcamento novo_id _ _ => orcamentos d !! novo_id = None
  | _ => True
  end.

(** The two ways in which a request changes the table of budgets: a row is
    written that the database accepts and whose category belongs to the
    row's user, or a row is removed. *)
Definition orcamento_gravado (d d' : DB) : Prop :=
  exists k o cat exceto,
    d' = set_orcamentos (insert k o) d
    /\ categorias d !! Orcamento.categoria o = Some cat
    /\ Categoria.usuario cat = Orcamento.usuario o
    /\ orcamento_duplicado o exceto (orcamentos d) = false
    /\ (exceto = Some k \/ (exceto = None /\ orcamentos d !! k = None)).

Definition orcamento_removido (d d' : DB) : Prop :=
  exists k, d' = set_orcamentos (delete k) d.

(** * Properties *)

(** ** Running the monad *)

Lemma bind_ok {A B} (m : M A) (k : A -> M B) w a w' :
  m w = (Ok a, w') -> (m ≫= k) w = k a w'.
Proof. intros H. unfold mbind, M_bind, bind. by rewrite H. Qed.

Lemma bind_raise {A B} (m : M A) (k : A -> M B) w e w' :
  m w = (Raise e, w') -> (m ≫= k) w = (Raise e, w').
Proof. intros H. unfold mbind, M_bind, bind. by rewrite H. Qed.

Lemma try_except_ok {A} (m : M A) h w a w' :
  m w = (Ok a, w') -> try_except m h w = (Ok a, w').
Proof. intros H. unfold try_except. by rewrite H. Qed.

Lemma try_except_raise {A} (m : M A) h w e w' :
  m w = (Raise e, w') -> try_except m h w = h e w'.
Proof. intros H. unfold try_except. by rewrite H. Qed.

(** An exception that leaves an atomic block leaves the database as the block
    found it. *)
Lemma atomic_raise {A} (m : M A) w e :
  (atomic m w).1 = Raise e -> db (atomic m w).2 = db w.
Proof.
  unfold atomic. destruct (m w) as [[a|e'] w']; simpl; [discriminate | done].
Qed.

Lemma atomic_ok {A} (m : M A) w a :
  (atomic m w).1 = Ok a -> atomic m w = m w.
Proof.
  unfold atomic. destruct (m w) as [[a'|e'] w']; simpl; [done | discriminate].
Qed.

Import Exemplo.

(** ** The ORM, step by step *)

Lemma read_db_run d h n : read_db (mkWorld d h n) = (Ok d, mkWorld d h n).
Proof. done. Qed.

Lemma novo_objeto_run o d h n :
  novo_objeto o (mkWorld d h n) = (Ok (length h), mkWorld d (h ++ [o]) n).
Proof. done. Qed.

Lemma Conta_objects_get_ok d h n id user c :
  contas d !! id = Some c -> Conta.usuario c = user ->
  Conta_objects_get id user (mkWorld d h n)
  = (Ok (length h), mkWorld d (h ++ [mkContaObj id c]) n).
Proof.
  intros Hc Hu. unfold Conta_objects_get.
  erewrite bind_ok by apply read_db_run.
  rewrite Hc, Hu, Z.eqb_refl. done.
Qed.

Lemma Conta_objects_get_alheia d h n id user c :
  contas d !! id = Some c -> Conta.usuario c ≠ user ->
  Conta_objects_get id user (mkWorld d h n) = (Raise DoesNotExist, mkWorld d h n).
Proof.
  intros Hc Hu. unfold Conta_objects_get.
  erewrite bind_ok by apply read_db_run.
  rewrite Hc. apply Z.eqb_neq in Hu. by rewrite Hu.
Qed.

Lemma Conta_objects_get_pk_ok d h n id c :
  contas d !! id = Some c ->
  Conta_objects_get_pk id (mkWorld d h n)
  = (Ok (length h), mkWorld d (h ++ [mkContaObj id c]) n).
Proof.
  intros Hc. unfold Conta_objects_get_pk.
  erewrite bind_ok by apply read_db_run. by rewrite Hc.
Qed.

Lemma Categoria_objects_get_ok d h n id user c :
  categorias d !! id = Some c -> Categoria.usuario c = user ->
  Categoria_objects_get id user (mkWorld d h n) = (Ok id, mkWorld d h n).
Proof.
  intros Hc Hu. unfold Categoria_objects_get.
  erewrite bind_ok by apply read_db_run.
  rewrite Hc, Hu, Z.eqb_refl. done.
Qed.

Lemma Categoria_objects_get_alheia d h n id user c :
  categorias d !! id = Some c -> Categoria.usuario c ≠ user ->
  Categoria_objects_get id user (mkWorld d h n) = (Raise DoesNotExist, mkWorld d h n).
Proof.
  intros Hc Hu. unfold Categoria_objects_get.
  erewrite bind_ok by apply read_db_run.
  rewrite Hc. apply Z.eqb_neq in Hu. by rewrite Hu.
Qed.

Lemma Transacao_objects_get_ok d h n id user t :
  transacoes d !! id = Some t -> Transacao.usuario t = user ->
  Transacao_objects_get id user (mkWorld d h n) = (Ok t, mkWorld d h n).
Proof.
  intros Ht Hu. unfold Transacao_objects_get.
  erewrite bind_ok by apply read_db_run.
  rewrite Ht, Hu, Z.eqb_refl. done.
Qed.

Lemma orm_write_run f d h :
  orm_write f (mkWorld d h None) = (Ok tt, mkWorld (f d) h None).
Proof. done. Qed.

Ltac avancar :=
  repeat first
    [ erewrite bind_ok by (first [ apply read_db_run | apply novo_objeto_run
                                 | apply orm_write_run
                                 | eapply Conta_objects_get_ok; eassumption
                                 | eapply Conta_objects_get_pk_ok; eassumption
                                 | eapply Categoria_objects_get_ok; eassumption
                                 | eapply Transacao_objects_get_ok; eassumption
                                 | reflexivity ]) ].

Lemma ler_objeto_run d h n l o :
  h !! l = Some o -> ler_objeto l (mkWorld d h n) = (Ok o, mkWorld d h n).
Proof. intros H. unfold ler_objeto. cbn [heap]. by rewrite H. Qed.

Lemma atribuir_saldo_run d h n l o s :
  h !! l = Some o ->
  atribuir_saldo l s (mkWorld d h n)
  = (Ok tt, mkWorld d (<[l := mkContaObj (pk o) (Conta.set_saldo s (campos o))]> h) n).
Proof.
  intros Hl. unfold atribuir_saldo. cbn [heap db escritas_ate_falha]. do 2 f_equal.
  apply list_eq. intros j. destruct (decide (l = j)) as [<-|Hne].
  - rewrite list_lookup_alter_eq, list_lookup_insert_eq, Hl; [done|].
    by eapply lookup_lt_Some.
  - by rewrite list_lookup_alter_ne, list_lookup_insert_ne.
Qed.

Lemma Conta_save_saldo_run d h l o c :
  h !! l = Some o ->
  contas d !! pk o = Some c ->
  Conta_save_saldo l (mkWorld d h None)
  = (Ok tt,
     mkWorld (set_contas (<[pk o := Conta.set_saldo (Conta.saldo (campos o)) c]>) d) h None).
Proof.
  intros Hl Hc. unfold Conta_save_saldo.
  erewrite bind_ok by (by apply ler_objeto_run).
  erewrite bind_ok by apply read_db_run.
  rewrite Hc, orm_write_run. do 2 f_equal. unfold set_contas. f_equal.
  apply map_eq. intros j. destruct (decide (pk o = j)) as [<-|Hne].
  - by rewrite lookup_alter_eq, lookup_insert_eq, Hc.
  - by rewrite lookup_alter_ne, lookup_insert_ne.
Qed.

(** ** Sums over a table *)

Lemma ou_zero_Sum l : ou_zero (Sum l) = total l.
Proof. by destruct l. Qed.

Lemma soma_filtrada_cons {A} (p : A -> bool) (f : A -> Z) x l :
  soma_filtrada p f (x :: l) = (if p x then f x else 0) + soma_filtrada p f l.
Proof. unfold soma_filtrada. simpl. by destruct (p x). Qed.

Lemma soma_filtrada_perm {A} (p : A -> bool) (f : A -> Z) l l' :
  l ≡ₚ l' -> soma_filtrada p f l = soma_filtrada p f l'.
Proof.
  induction 1 as [|x l l' _ IH|x y l|l l' l'' _ IH1 _ IH2].
  - done.
  - rewrite !soma_filtrada_cons. lia.
  - rewrite !soma_filtrada_cons. lia.
  - congruence.
Qed.

(** Replacing one row of a table changes a filtered sum by that row's share. *)
Lemma soma_filtrada_insert {A} (p : Z * A -> bool) (f : Z * A -> Z)
    (m : gmap Z A) i x x' :
  m !! i = Some x ->
  soma_filtrada p f (linhas (<[i := x']> m))
  = soma_filtrada p f (linhas m)
    - (if p (i, x) then f (i, x) else 0) + (if p (i, x') then f (i, x') else 0).
Proof.
  intros Hi. unfold linhas.
  rewrite <- (soma_filtrada_perm p f _ _ (map_to_list_delete m i x Hi)).
  rewrite <- (insert_delete_eq m).
  rewrite (soma_filtrada_perm p f _ _
             (map_to_list_insert (delete i m) i x' (lookup_delete_eq m i))).
  rewrite !soma_filtrada_cons. lia.
Qed.

Lemma soma_filtrada_insert_novo {A} (p : Z * A -> bool) (f : Z * A -> Z)
    (m : gmap Z A) i x :
  m !! i = None ->
  soma_filtrada p f (linhas (<[i := x]> m))
  = soma_filtrada p f (linhas m) + (if p (i, x) then f (i, x) else 0).
Proof.
  intros Hi. unfold linhas.
  rewrite (soma_filtrada_perm p f _ _ (map_to_list_insert m i x Hi)).
  rewrite soma_filtrada_cons. lia.
Qed.

Lemma soma_filtrada_delete {A} (p : Z * A -> bool) (f : Z * A -> Z)
    (m : gmap Z A) i x :
  m !! i = Some x ->
  soma_filtrada p f (linhas (delete i m))
  = soma_filtrada p f (linhas m) - (if p (i, x) then f (i, x) else 0).
Proof.
  intros Hi. unfold linhas.
  rewrite <- (soma_filtrada_perm p f _ _ (map_to_list_delete m i x Hi)).
  rewrite soma_filtrada_cons. lia.
Qed.

(** ** The ledger *)

(** What [_aplicar_saldo] does to the object and to its row: the amount is
    added for a forward receita and for a reversed non-receita, subtracted
    otherwise. *)
Lemma aplicar_saldo_efeito (d : DB) (h : list ContaObj) (l : nat) (o : ContaObj)
    (c : Conta.t) (valor : Z) (tipo : string) (reverter : bool) :
  h !! l = Some o ->
  contas d !! pk o = Some c ->
  let delta := if String.eqb tipo "receita"
               then (if reverter then - valor else valor)
               else (if reverter then valor else - valor) in
  let s := Conta.saldo (campos o) + delta in
  Api._aplicar_saldo l valor tipo reverter (mkWorld d h None)
  = (Ok tt,
     mkWorld (set_contas (<[pk o := Conta.set_saldo s c]>) d)
       (<[l := mkContaObj (pk o) (Conta.set_saldo s (campos o))]> h) None).
Proof.
  intros Hl Hc delta s. subst delta s. unfold Api._aplicar_saldo.
  assert (Hlt : (l < length h)%nat) by (by eapply lookup_lt_Some).
  erewrite bind_ok by (by apply ler_objeto_run).
  destruct (String.eqb tipo "receita"), reverter;
    (erewrite bind_ok by (by apply atribuir_saldo_run));
    (erewrite Conta_save_saldo_run;
       [ | by apply list_lookup_insert_eq | exact Hc ]);
    cbn [pk campos Conta.saldo Conta.set_saldo];
    repeat f_equal; lia.
Qed.

(** *** Create and delete *)

(** [transacao_criar] with a valid form writes the row and moves the balance
    of the form's account by the signed amount: balance and signed sum of the
    account move together. *)
Lemma transacao_criar_efeito (d : DB) (user : Z) (f : Views.TransacaoForm)
    (c : Conta.t) (cat : Categoria.t) (valor : Z) (data : Data) :
  contas d !! Views.f_conta f = Some c ->
  Conta.usuario c = user ->
  categorias d !! Views.f_categoria f = Some cat ->
  Categoria.usuario cat = user ->
  Views.f_valor f = Some valor ->
  Views.f_data f = Some data ->
  transacoes d !! (transacao_seq d + 1) = None ->
  let d' := efeito (Views.transacao_criar user (Views.POST f)) (mundo d) in
  let aplicado := if String.eqb (Views.f_tipo f) "receita" then valor else - valor in
  saldo_de d' (Views.f_conta f) = Some (Conta.saldo c + aplicado)
  /\ soma_assinada d' (Views.f_conta f) = soma_assinada d (Views.f_conta f) + aplicado
  /\ (forall j, j <> Views.f_conta f ->
        contas d' !! j = contas d !! j /\ soma_assinada d' j = soma_assinada d j).
Proof.
  intros Hc Hcu Hcat Hcatu Hv Hd Hnovo d' aplicado.
  set (t := Transacao.mk user (Views.f_conta f) (Some (Views.f_categoria f))
              (Views.f_descricao f) valor (Views.f_tipo f) data (Views.f_observacoes f)
              (Views.f_recorrente f)).
  assert (Hrun : d' = mkDB (<[Views.f_conta f := Conta.set_saldo (Conta.saldo c + aplicado) c]>
                               (contas d))
                        (categorias d) (<[transacao_seq d + 1 := t]> (transacoes d))
                        (orcamentos d) (transacao_seq d + 1)).
  { subst d' aplicado t. unfold efeito, Views.transacao_criar, mundo, try_except.
    rewrite Hv, Hd. unfold Transacao_objects_create.
    destruct (String.eqb (Views.f_tipo f) "receita"); avancar; cbn; reflexivity. }
  assert (Hsoma : forall j, soma_assinada d' j
            = soma_assinada d j + (if Views.f_conta f =? j then aplicado else 0)).
  { intros j. rewrite Hrun. unfold soma_assinada. cbn [transacoes].
    fold (soma_filtrada (fun r : Z * Transacao.t => Transacao.conta r.2 =? j)
            (fun r => valor_assinado r.2) (linhas (<[transacao_seq d + 1 := t]> (transacoes d)))).
    rewrite (soma_filtrada_insert_novo _ _ _ _ _ Hnovo). unfold soma_filtrada.
    subst t aplicado. unfold valor_assinado. cbn [snd Transacao.conta Transacao.tipo Transacao.valor].
    reflexivity. }
  split; [|split].
  - rewrite Hrun. unfold saldo_de. cbn [contas]. by rewrite lookup_insert_eq.
  - by rewrite Hsoma, Z.eqb_refl.
  - intros j Hj. split.
    + rewrite Hrun. cbn [contas]. by rewrite lookup_insert_ne.
    + rewrite Hsoma. apply not_eq_sym, Z.eqb_neq in Hj. rewrite Hj. lia.
Qed.

(** [transacao_deletar] removes the row and takes its signed amount back from
    the balance of its account. *)
Lemma transacao_deletar_efeito (d : DB) (user id : Z) (t : Transacao.t) (c : Conta.t) :
  transacoes d !! id = Some t ->
  Transacao.usuario t = user ->
  contas d !! Transacao.conta t = Some c ->
  let d' := efeito (Views.transacao_deletar user id (Views.POST tt)) (mundo d) in
  transacoes d' !! id = None
  /\ saldo_de d' (Transacao.conta t) = Some (Conta.saldo c - valor_assinado t)
  /\ soma_assinada d' (Transacao.conta t)
     = soma_assinada d (Transacao.conta t) - valor_assinado t
  /\ (forall j, j <> Transacao.conta t ->
        contas d' !! j = contas d !! j /\ soma_assinada d' j = soma_assinada d j).
Proof.
  intros Ht Hu Hc d'.
  assert (Hrun : d' = mkDB (<[Transacao.conta t
                               := Conta.set_saldo (Conta.saldo c - valor_assinado t) c]>
                               (contas d))
                        (categorias d) (delete id (transacoes d))
                        (orcamentos d) (transacao_seq d)).
  { subst d'. unfold efeito, Views.transacao_deletar, mundo, try_except, valor_assinado.
    avancar.
    destruct (String.eqb (Transacao.tipo t) "receita"); avancar; cbn;
      unfold set_transacoes, set_contas; cbn; repeat f_equal; lia. }
  assert (Hsoma : forall j, soma_assinada d' j
            = soma_assinada d j - (if Transacao.conta t =? j then valor_assinado t else 0)).
  { intros j. rewrite Hrun. unfold soma_assinada. cbn [transacoes].
    fold (soma_filtrada (fun r : Z * Transacao.t => Transacao.conta r.2 =? j)
            (fun r => valor_assinado r.2) (linhas (delete id (transacoes d)))).
    rewrite (soma_filtrada_delete _ _ _ _ _ Ht). reflexivity. }
  split; [|split; [|split]].
  - rewrite Hrun. cbn [transacoes]. apply lookup_delete_eq.
  - rewrite Hrun. unfold saldo_de. cbn [contas]. by rewrite lookup_insert_eq.
  - by rewrite Hsoma, Z.eqb_refl.
  - intros j Hj. split.
    + rewrite Hrun. cbn [contas]. by rewrite lookup_insert_ne.
    + rewrite Hsoma. apply not_eq_sym, Z.eqb_neq in Hj. rewrite Hj. lia.
Qed.

(** *** Edit, and the claims on the ledger *)

(** C4 (the code departs from the claim).  What [transacao_editar] writes for
    a valid form: the account named by the form gets the balance stored in the
    database plus the new signed amount.  The reversal of the original amount
    is computed on an object that is never saved: if the transaction moves to
    another account, the original account keeps its row; if account, amount
    and kind are unchanged, the balance grows by the transaction's signed
    amount once more instead of staying put. *)
Theorem C4_web_edit_never_saves_reversal (d : DB) (user id : Z) (t : Transacao.t)
    (velha nova : Conta.t) (cat : Categoria.t) (f : Views.TransacaoForm)
    (valor : Z) (data : Data) :
  transacoes d !! id = Some t ->
  Transacao.usuario t = user ->
  contas d !! Transacao.conta t = Some velha ->
  contas d !! Views.f_conta f = Some nova ->
  Conta.usuario nova = user ->
  categorias d !! Views.f_categoria f = Some cat ->
  Categoria.usuario cat = user ->
  Views.f_valor f = Some valor ->
  Views.f_data f = Some data ->
  let pedido := Views.transacao_editar user id (Views.POST f) in
  let d' := efeito pedido (mundo d) in
  let aplicado := if String.eqb (Views.f_tipo f) "receita" then valor else - valor in
  retorno pedido (mundo d)
  = Ok (Views.Redirect "transacoes", [Views.Success "Transacao atualizada com sucesso!"])
  /\ contas d'
     = <[Views.f_conta f := Conta.set_saldo (Conta.saldo nova + aplicado) nova]> (contas d)
  /\ (Views.f_conta f <> Transacao.conta t ->
      contas d' !! Transacao.conta t = Some velha)
  /\ (Views.f_conta f = Transacao.conta t ->
      valor = Transacao.valor t ->
      Views.f_tipo f = Transacao.tipo t ->
      saldo_de d' (Transacao.conta t) = Some (Conta.saldo velha + valor_assinado t)).
Proof.
  intros Ht Hu Hvelha Hnova Hnu Hcat Hcu Hv Hd pedido d' aplicado.
  assert (Hrun : pedido (mundo d)
    = (Ok (Views.Redirect "transacoes", [Views.Success "Transacao atualizada com sucesso!"]),
       mkWorld
         (set_contas (<[Views.f_conta f := Conta.set_saldo (Conta.saldo nova + aplicado) nova]>)
            (set_transacoes
               (<[id := Transacao.mk (Transacao.usuario t) (Views.f_conta f)
                          (Some (Views.f_categoria f)) (Views.f_descricao f) valor
                          (Views.f_tipo f) data (Views.f_observacoes f)
                          (Views.f_recorrente f)]>) d))
         [ mkContaObj (Transacao.conta t)
             (Conta.set_saldo (Conta.saldo velha - valor_assinado t) velha);
           mkContaObj (Views.f_conta f)
             (Conta.set_saldo (Conta.saldo nova + aplicado) nova) ]
         None)).
  { subst pedido aplicado. unfold Views.transacao_editar, mundo, valor_assinado.
    avancar. unfold try_except. rewrite Hv, Hd.
    destruct (String.eqb (Transacao.tipo t) "receita");
      destruct (String.eqb (Views.f_tipo f) "receita");
      avancar; cbn; repeat f_equal; lia. }
  subst d'. unfold efeito, retorno. rewrite Hrun. cbn [fst snd db contas set_contas].
  split; [done|]. split; [done|]. split.
  - intros Hne. by rewrite lookup_insert_ne.
  - intros Heq -> Htipo. unfold saldo_de. cbn [contas set_contas].
    subst aplicado. rewrite Htipo, Heq, lookup_insert_eq. cbn.
    rewrite Heq, Hvelha in Hnova. by injection Hnova as ->.
Qed.

(** The claim's no-op edit on the example data: the balance goes from 150.00
    to 200.00. *)
Lemma C4_web_edit_never_saves_reversal_witness :
  saldo_de apos_criar 1 = Some 15000
  /\ saldo_de apos_editar_igual 1 = Some (15000 + 5000).
Proof.
  split; [vm_compute; reflexivity|].
  refine (proj2 (proj2 (proj2
    (C4_web_edit_never_saves_reversal apos_criar 1 1
       (Transacao.mk 1 1 (Some 1) "salario" 5000 "receita" dia15 "" false)
       (Conta.set_saldo 15000 conta_a) (Conta.set_saldo 15000 conta_a) salario
       receita_50 5000 dia15 _ _ _ _ _ _ _ _ _))) eq_refl eq_refl eq_refl);
    vm_compute; reflexivity.
Defined.

(** *** The API's update *)

Lemma atomic_run_ok {A} (m : M A) w a w' :
  m w = (Ok a, w') -> atomic m w = (Ok a, w').
Proof. intros H. unfold atomic. by rewrite H. Qed.

Lemma get_object_ok d h n user id t c :
  transacoes d !! id = Some t ->
  Transacao.usuario t = user ->
  contas d !! Transacao.conta t = Some c ->
  Api.get_object user id (mkWorld d h n)
  = (Ok (Api.mkInstancia id t (length h)
           (cid ← Transacao.categoria t; cat ← categorias d !! cid; Some (cid, cat))),
     mkWorld d (h ++ [mkContaObj (Transacao.conta t) c]) n).
Proof.
  intros Ht Hu Hc. unfold Api.get_object.
  erewrite bind_ok by apply read_db_run.
  rewrite Ht, Hu, Z.eqb_refl.
  erewrite bind_ok by (by apply Conta_objects_get_pk_ok). done.
Qed.

Lemma validar_conta_ok d h n id c :
  contas d !! id = Some c ->
  Api.validar_conta (Some id) (mkWorld d h n)
  = (Ok (Some (length h)), mkWorld d (h ++ [mkContaObj id c]) n).
Proof.
  intros Hc. unfold Api.validar_conta. apply try_except_ok.
  erewrite bind_ok by (by apply Conta_objects_get_pk_ok). done.
Qed.

Lemma validate_related_objects_ok d h n user conta o categoria :
  h !! conta = Some o ->
  Conta.usuario (campos o) = user ->
  (forall cat, categoria = Some cat -> Categoria.usuario cat.2 = user) ->
  Api._validate_related_objects user conta categoria (mkWorld d h n)
  = (Ok tt, mkWorld d h n).
Proof.
  intros Ho Hu Hcat. unfold Api._validate_related_objects.
  erewrite bind_ok by (by apply ler_objeto_run). rewrite Hu, Z.eqb_refl. cbn [negb].
  destruct categoria as [cat|]; [|done]. by rewrite (Hcat cat eq_refl), Z.eqb_refl.
Qed.

(** [update] for a request that changes amount and kind.  Without [conta] in
    the request the balance ends at the stored balance minus the old signed
    amount plus the new one.  With the transaction's own [conta] in the
    request, the serializer's account object still holds the balance read
    before the reversal, and the balance ends at the stored balance plus the
    new signed amount. *)
Lemma api_update_efeito (d : DB) (user id : Z) (t : Transacao.t) (c : Conta.t)
    (valor : Z) (tipo : string) (com_conta : bool) :
  transacoes d !! id = Some t ->
  Transacao.usuario t = user ->
  contas d !! Transacao.conta t = Some c ->
  Conta.usuario c = user ->
  (forall k cat, Transacao.categoria t = Some k -> categorias d !! k = Some cat ->
                 Categoria.usuario cat = user) ->
  let p := Api.mkPayload (if com_conta then Some (Transacao.conta t) else None) None None
             (Some (Some valor)) (Some tipo) None None None in
  let d' := efeito (Api.update user id p) (mundo d) in
  let novo := if String.eqb tipo "receita" then valor else - valor in
  retorno (Api.update user id p) (mundo d) = Ok tt
  /\ saldo_de d' (Transacao.conta t)
     = Some (if com_conta then Conta.saldo c + novo
             else Conta.saldo c - valor_assinado t + novo).
Proof.
  intros Ht Hu Hc Hcu Hcat p d' novo.
  subst d' p novo. unfold retorno, efeito, Api.update, mundo.
  erewrite bind_ok by (by eapply get_object_ok).
  set (categoria := cid ← Transacao.categoria t; cat ← categorias d !! cid; Some (cid, cat)).
  assert (Hdono : forall cat, categoria = Some cat -> Categoria.usuario cat.2 = user).
  { intros [k cat]. subst categoria. destruct (Transacao.categoria t) as [k'|] eqn:Hk; [|done].
    cbn. destruct (categorias d !! k') as [cat'|] eqn:Hk'; [|done].
    cbn. intros [= <- <-]. by eapply Hcat. }
  cbn [app length].
  cbn [Api.p_conta Api.p_categoria Api.p_descricao Api.p_valor Api.p_tipo Api.p_data
       Api.p_observacoes Api.p_recorrente].
  unfold Api.validar_categoria, Api.validar_valor.
  destruct com_conta.
  - erewrite bind_ok by (by apply validar_conta_ok). avancar.
    unfold Api.perform_update, Api.serializer_save_update, Transacao_save.
    cbn [Api.u_conta Api.u_categoria Api.u_descricao Api.u_valor Api.u_tipo Api.u_data
         Api.u_observacoes Api.u_recorrente Api.inst_conta Api.inst_categoria
         Api.inst_campos Api.inst_pk default from_option Datatypes.id app length].
    erewrite bind_ok by (by eapply (validate_related_objects_ok _ _ _ _ 1%nat)).
    erewrite atomic_run_ok.
    2:{ erewrite bind_ok by (by eapply (aplicar_saldo_efeito _ _ 0%nat)).
        avancar.
        erewrite (aplicar_saldo_efeito _ _ 1%nat); [reflexivity | reflexivity |].
        cbn. by rewrite lookup_insert_eq. }
    cbn. unfold saldo_de. cbn. rewrite lookup_insert_eq. cbn.
    split; [done|]. by destruct (String.eqb tipo "receita").
  - unfold Api.validar_conta. avancar.
    unfold Api.perform_update, Api.serializer_save_update, Transacao_save.
    cbn [Api.u_conta Api.u_categoria Api.u_descricao Api.u_valor Api.u_tipo Api.u_data
         Api.u_observacoes Api.u_recorrente Api.inst_conta Api.inst_categoria
         Api.inst_campos Api.inst_pk default from_option Datatypes.id app length].
    erewrite bind_ok by (by eapply (validate_related_objects_ok _ _ _ _ 0%nat)).
    erewrite atomic_run_ok.
    2:{ erewrite bind_ok by (by eapply (aplicar_saldo_efeito _ _ 0%nat)).
        avancar.
        erewrite (aplicar_saldo_efeito _ _ 0%nat); [reflexivity | reflexivity |].
        cbn. by rewrite lookup_insert_eq. }
    cbn. unfold saldo_de. cbn. rewrite lookup_insert_eq. cbn.
    split; [done|]. unfold valor_assinado.
    f_equal. destruct (String.eqb tipo "receita"), (String.eqb (Transacao.tipo t) "receita"); lia.
Qed.

(** C1 (the code departs from the claim).  The balance invariant - an
    account's balance is its initial balance plus the signed sum of the
    transactions that reference it - holds after [transacao_criar], and is
    broken by [transacao_editar]: moving the income of 50.00 from account 1 to
    account 3 leaves account 1 at 150.00 with no transaction left on it, and
    an edit that changes no field takes account 1 to 200.00 with a single
    income of 50.00 on it. *)
Theorem C1_web_edit_breaks_balance_invariant :
  invariante_saldo db0 apos_criar 1
  /\ saldo_de apos_mover 1 = Some 15000 /\ soma_assinada apos_mover 1 = 0
  /\ saldo_de apos_mover 3 = Some 35000 /\ soma_assinada apos_mover 3 = 5000
  /\ ~ invariante_saldo db0 apos_mover 1
  /\ saldo_de apos_editar_igual 1 = Some 20000
  /\ soma_assinada apos_editar_igual 1 = 5000
  /\ ~ invariante_saldo db0 apos_editar_igual 1.
Proof.
  unfold invariante_saldo. repeat split; try (vm_compute; reflexivity);
    vm_compute; discriminate.
Qed.

(** C2 (the code departs from the claim).  The scenario through the web
    handlers: the account starts at 100.00, [transacao_criar] of an income of
    50.00 gives 150.00, [transacao_editar] to an expense of 20.00 gives 130.00
    where the claim has 80.00, and [transacao_deletar] gives 150.00 where the
    claim has 100.00. *)
Theorem C2_web_scenario_ends_at_150 :
  saldo_de db0 1 = Some 10000
  /\ saldo_de apos_criar 1 = Some 15000
  /\ saldo_de apos_editar 1 = Some 13000
  /\ saldo_de apos_deletar 1 = Some 15000
  /\ transacoes apos_deletar = ∅.
Proof. repeat split; vm_compute; reflexivity. Qed.

(** The same scenario through the REST API when the edit is a PATCH that
    sends only the amount and the kind: 150.00, 80.00, 100.00. *)
Lemma api_scenario_patch :
  saldo_de api_apos_criar 1 = Some 15000
  /\ saldo_de api_apos_patch 1 = Some 8000
  /\ saldo_de api_apos_destroy 1 = Some 10000.
Proof. repeat split; vm_compute; reflexivity. Qed.

(** A PATCH that moves the transaction to account 3 takes the income back
    from account 1 and gives it to account 3. *)
Lemma api_scenario_move :
  saldo_de api_apos_mover 1 = Some 10000 /\ soma_assinada api_apos_mover 1 = 0
  /\ saldo_de api_apos_mover 3 = Some 35000 /\ soma_assinada api_apos_mover 3 = 5000.
Proof. repeat split; vm_compute; reflexivity. Qed.

(** When the edit is a PUT, which sends the account as well, the serializer
    has read account 1 before the reversal is saved, and the forward
    application starts from the balance read then: 130.00. *)
Lemma api_scenario_put : saldo_de api_apos_put 1 = Some 13000.
Proof. vm_compute; reflexivity. Qed.

(** C3 (the code departs from the claim).  [transacao_criar] with a database
    failure at its second write, the save of the account: the handler reports
    the error, the transaction row stays, and the balance is the old one.
    The API's [create], under the same failure, leaves the database as it
    was. *)
Theorem C3_web_create_keeps_record_without_balance :
  let req := Views.transacao_criar 1 (Views.POST receita_50) in
  retorno req (mundo_com_falha db0 1)
  = Ok (Views.Render "budget/transacao_form.html",
        [Views.Error "Erro ao criar transacao" DatabaseError])
  /\ is_Some (transacoes (efeito req (mundo_com_falha db0 1)) !! 1)
  /\ soma_assinada (efeito req (mundo_com_falha db0 1)) 1 = 5000
  /\ saldo_de (efeito req (mundo_com_falha db0 1)) 1 = Some 10000
  /\ retorno (Api.create 1 api_receita_50) (mundo_com_falha db0 1) = Raise DatabaseError
  /\ efeito (Api.create 1 api_receita_50) (mundo_com_falha db0 1) = db0.
Proof.
  repeat split; try (vm_compute; reflexivity).
  vm_compute. eexists. reflexivity.
Qed.

(** [transacao_criar] with a valid form when the save of the account fails:
    the transaction row is there, every account row is as before. *)
Lemma transacao_criar_falha_ao_salvar (d : DB) (user : Z) (f : Views.TransacaoForm)
    (c : Conta.t) (cat : Categoria.t) (valor : Z) (data : Data) :
  contas d !! Views.f_conta f = Some c ->
  Conta.usuario c = user ->
  categorias d !! Views.f_categoria f = Some cat ->
  Categoria.usuario cat = user ->
  Views.f_valor f = Some valor ->
  Views.f_data f = Some data ->
  let pedido := Views.transacao_criar user (Views.POST f) in
  let d' := efeito pedido (mundo_com_falha d 1) in
  retorno pedido (mundo_com_falha d 1)
  = Ok (Views.Render "budget/transacao_form.html",
        [Views.Error "Erro ao criar transacao" DatabaseError])
  /\ transacoes d' !! (transacao_seq d + 1)
     = Some (Transacao.mk user (Views.f_conta f) (Some (Views.f_categoria f))
               (Views.f_descricao f) valor (Views.f_tipo f) data (Views.f_observacoes f)
               (Views.f_recorrente f))
  /\ contas d' = contas d.
Proof.
  intros Hc Hcu Hcat Hcatu Hv Hd pedido d'.
  subst pedido d'. unfold retorno, efeito, Views.transacao_criar, mundo_com_falha, try_except.
  rewrite Hv, Hd. unfold Transacao_objects_create.
  destruct (String.eqb (Views.f_tipo f) "receita"); avancar;
    (erewrite bind_raise by reflexivity); cbn; by rewrite lookup_insert_eq.
Qed.

(** The API hooks are atomic: when one raises, the database is the one it
    found. *)
Lemma validate_related_objects_mundo user conta categoria w :
  (Api._validate_related_objects user conta categoria w).2 = w.
Proof.
  unfold Api._validate_related_objects, mbind, M_bind, bind, ler_objeto, raise, mret, M_ret, ret.
  destruct (heap w !! conta); [|done].
  destruct (negb _); [done|].
  destruct categoria; [|done]. by destruct (negb _).
Qed.

Lemma seq_atomic_raise {A} (v : M unit) (m : M A) w e :
  (forall w, (v w).2 = w) ->
  ((v;; atomic m) w).1 = Raise e -> db ((v;; atomic m) w).2 = db w.
Proof.
  intros Hv. unfold mbind, M_bind, bind. specialize (Hv w).
  destruct (v w) as [[[]|e'] w']; simpl in *; subst w'; [|done].
  apply atomic_raise.
Qed.

Lemma perform_create_atomic user v w e :
  (Api.perform_create user v w).1 = Raise e ->
  db (Api.perform_create user v w).2 = db w.
Proof. apply seq_atomic_raise, validate_related_objects_mundo. Qed.

Lemma perform_update_atomic user inst v w e :
  (Api.perform_update user inst v w).1 = Raise e ->
  db (Api.perform_update user inst v w).2 = db w.
Proof. apply seq_atomic_raise, validate_related_objects_mundo. Qed.

Lemma perform_destroy_atomic inst w e :
  (Api.perform_destroy inst w).1 = Raise e ->
  db (Api.perform_destroy inst w).2 = db w.
Proof. apply atomic_raise. Qed.

(** ** Ownership checks *)

Lemma Conta_objects_get_ausente d h n id user :
  contas d !! id = None ->
  Conta_objects_get id user (mkWorld d h n) = (Raise DoesNotExist, mkWorld d h n).
Proof.
  intros Hc. unfold Conta_objects_get.
  erewrite bind_ok by apply read_db_run. by rewrite Hc.
Qed.

Lemma transacao_criar_rejeita d h n user f :
  referencia_alheia d user (Views.f_conta f) (Views.f_categoria f) ->
  exists h',
    Views.transacao_criar user (Views.POST f) (mkWorld d h n)
    = (Ok (Views.Render "budget/transacao_form.html",
           [Views.Error "Erro ao criar transacao" DoesNotExist]),
       mkWorld d h' n).
Proof.
  intros Halheia. unfold Views.transacao_criar, try_except.
  destruct (contas d !! Views.f_conta f) as [c|] eqn:Hc.
  - destruct (decide (Conta.usuario c = user)) as [Hu|Hu].
    + destruct Halheia as [(c' & Hc' & Hne)|(k & Hk & Hne)]; [congruence|].
      avancar. erewrite bind_raise by (eapply Categoria_objects_get_alheia; eassumption).
      by eexists.
    + erewrite bind_raise by (eapply Conta_objects_get_alheia; eassumption).
      by eexists.
  - destruct Halheia as [(c' & Hc' & Hne)|(k & Hk & Hne)]; [congruence|].
    erewrite bind_raise by (eapply Conta_objects_get_ausente; eassumption).
    by eexists.
Qed.

Lemma transacao_editar_rejeita d h n user id t velha f :
  transacoes d !! id = Some t ->
  Transacao.usuario t = user ->
  contas d !! Transacao.conta t = Some velha ->
  referencia_alheia d user (Views.f_conta f) (Views.f_categoria f) ->
  exists h',
    Views.transacao_editar user id (Views.POST f) (mkWorld d h n)
    = (Ok (Views.Render "budget/transacao_form.html",
           [Views.Error "Erro ao editar transacao" DoesNotExist]),
       mkWorld d h' n).
Proof.
  intros Ht Hu Hvelha Halheia. unfold Views.transacao_editar.
  avancar. unfold try_except. avancar.
  assert (Hrev : forall k : unit -> M Views.Resultado,
    ((if String.eqb (Transacao.tipo t) "receita"
      then atribuir_saldo (length h) (Conta.saldo velha - Transacao.valor t)
      else atribuir_saldo (length h) (Conta.saldo velha + Transacao.valor t)) ≫= k)
      (mkWorld d (h ++ [mkContaObj (Transacao.conta t) velha]) n)
    = k tt (mkWorld d (h ++ [mkContaObj (Transacao.conta t)
                               (Conta.set_saldo (Conta.saldo velha - valor_assinado t) velha)]) n)).
  { intros k. unfold valor_assinado.
    destruct (String.eqb (Transacao.tipo t) "receita");
      (erewrite bind_ok by (apply atribuir_saldo_run, list_lookup_middle; reflexivity));
      rewrite insert_app_r_alt, Nat.sub_diag by lia; cbn [pk campos insert list_insert];
      repeat f_equal; lia. }
  erewrite bind_ok by (apply ler_objeto_run, list_lookup_middle; reflexivity).
  cbn [campos]. rewrite Hrev.
  destruct (contas d !! Views.f_conta f) as [c|] eqn:Hc.
  - destruct (decide (Conta.usuario c = user)) as [Hcu|Hcu].
    + destruct Halheia as [(c' & Hc' & Hne)|(k & Hk & Hne)]; [congruence|].
      avancar. erewrite bind_raise by (eapply Categoria_objects_get_alheia; eassumption).
      by eexists.
    + erewrite bind_raise by (eapply Conta_objects_get_alheia; eassumption).
      by eexists.
  - destruct Halheia as [(c' & Hc' & Hne)|(k & Hk & Hne)]; [congruence|].
    erewrite bind_raise by (eapply Conta_objects_get_ausente; eassumption).
    by eexists.
Qed.

Lemma validate_related_objects_rejeita d h n user conta o categoria :
  h !! conta = Some o ->
  objeto_alheio user o categoria ->
  Api._validate_related_objects user conta categoria (mkWorld d h n)
  = (Raise PermissionDenied, mkWorld d h n).
Proof.
  intros Ho Halheio. unfold Api._validate_related_objects.
  erewrite bind_ok by (by apply ler_objeto_run).
  destruct Halheio as [Hne|(cat & -> & Hne)].
  - apply Z.eqb_neq in Hne. by rewrite Hne.
  - apply Z.eqb_neq in Hne. rewrite Hne. by destruct (negb _).
Qed.

(** C5 (amended).  A create or an update that names an account or a category
    of another user is rejected before anything is written: the world after
    the request has the database it had, and no write was attempted.  The API
    hooks raise [PermissionDenied]; the web handlers find no such row among
    the user's own and report [DoesNotExist] as an error message on the form. *)
Theorem C5_foreign_reference_rejected_without_effect :
  (forall d h n user f,
     referencia_alheia d user (Views.f_conta f) (Views.f_categoria f) ->
     exists h',
       Views.transacao_criar user (Views.POST f) (mkWorld d h n)
       = (Ok (Views.Render "budget/transacao_form.html",
              [Views.Error "Erro ao criar transacao" DoesNotExist]),
          mkWorld d h' n))
  /\ (forall d h n user id t velha f,
        transacoes d !! id = Some t ->
        Transacao.usuario t = user ->
        contas d !! Transacao.conta t = Some velha ->
        referencia_alheia d user (Views.f_conta f) (Views.f_categoria f) ->
        exists h',
          Views.transacao_editar user id (Views.POST f) (mkWorld d h n)
          = (Ok (Views.Render "budget/transacao_form.html",
                 [Views.Error "Erro ao editar transacao" DoesNotExist]),
             mkWorld d h' n))
  /\ (forall d h n user v o,
        h !! Api.c_conta v = Some o ->
        objeto_alheio user o (Api.c_categoria v) ->
        Api.perform_create user v (mkWorld d h n)
        = (Raise PermissionDenied, mkWorld d h n))
  /\ (forall d h n user inst v o,
        h !! default (Api.inst_conta inst) (Api.u_conta v) = Some o ->
        objeto_alheio user o
          (match Api.u_categoria v with
           | Some (Some cat) => Some cat
           | _ => Api.inst_categoria inst
           end) ->
        Api.perform_update user inst v (mkWorld d h n)
        = (Raise PermissionDenied, mkWorld d h n)).
Proof.
  split; [|split; [|split]].
  - apply transacao_criar_rejeita.
  - apply transacao_editar_rejeita.
  - intros * Ho Halheio. unfold Api.perform_create.
    erewrite bind_raise; [done|]. by eapply validate_related_objects_rejeita.
  - intros * Ho Halheio. unfold Api.perform_update.
    erewrite bind_raise; [done|]. by eapply validate_related_objects_rejeita.
Qed.

(** User 1 names user 2's account: the web form answers with the error
    message, the API with [PermissionDenied]; the database stays [db0]. *)
Lemma C5_foreign_reference_rejected_without_effect_witness :
  (exists h',
     Views.transacao_criar 1 (Views.POST conta_alheia) (mundo db0)
     = (Ok (Views.Render "budget/transacao_form.html",
            [Views.Error "Erro ao criar transacao" DoesNotExist]),
        mkWorld db0 h' None))
  /\ Api.perform_create 1
       (Api.mkDadosCriacao 0%nat (Some (1, salario)) "salario" 5000 "receita" dia15 "" false)
       (mkWorld db0 [mkContaObj 2 conta_b] None)
     = (Raise PermissionDenied, mkWorld db0 [mkContaObj 2 conta_b] None).
Proof.
  split.
  - apply (proj1 C5_foreign_reference_rejected_without_effect db0 [] None 1 conta_alheia).
    left. exists conta_b. split; [vm_compute; reflexivity | vm_compute; discriminate].
  - apply (proj1 (proj2 (proj2 C5_foreign_reference_rejected_without_effect))
             db0 [mkContaObj 2 conta_b] None 1 _ (mkContaObj 2 conta_b)).
    + reflexivity.
    + left. vm_compute. discriminate.
Defined.

(** C5 as stated fails on the web form: user 1 posts a transaction on user
    2's account and the handler's error is [DoesNotExist], the failed lookup
    among the user's own accounts, not an authorization error. *)
Lemma C5_web_create_reports_does_not_exist :
  retorno (Views.transacao_criar 1 (Views.POST conta_alheia)) (mundo db0)
  = Ok (Views.Render "budget/transacao_form.html",
        [Views.Error "Erro ao criar transacao" DoesNotExist])
  /\ ~ erro_de_autorizacao
         (retorno (Views.transacao_criar 1 (Views.POST conta_alheia)) (mundo db0)).
Proof.
  split; [vm_compute; reflexivity|].
  intros [H|(resp & texto & H)]; vm_compute in H; discriminate.
Qed.

(** The whole API request of user 1 on user 2's account. *)
Lemma api_create_conta_alheia :
  retorno (Api.create 1 api_conta_alheia) (mundo db0) = Raise PermissionDenied
  /\ efeito (Api.create 1 api_conta_alheia) (mundo db0) = db0.
Proof. split; vm_compute; reflexivity. Qed.

(** ** Failures before the first write *)

Lemma Conta_objects_get_casos d h n id user :
  (exists c, contas d !! id = Some c /\ Conta.usuario c = user)
  \/ Conta_objects_get id user (mkWorld d h n) = (Raise DoesNotExist, mkWorld d h n).
Proof.
  destruct (contas d !! id) as [c|] eqn:Hc.
  - destruct (decide (Conta.usuario c = user)) as [Hu|Hu]; [left; eauto|].
    right. by eapply Conta_objects_get_alheia.
  - right. by apply Conta_objects_get_ausente.
Qed.

Lemma Categoria_objects_get_casos d h n id user :
  (exists c, categorias d !! id = Some c /\ Categoria.usuario c = user)
  \/ Categoria_objects_get id user (mkWorld d h n) = (Raise DoesNotExist, mkWorld d h n).
Proof.
  destruct (categorias d !! id) as [c|] eqn:Hc.
  - destruct (decide (Categoria.usuario c = user)) as [Hu|Hu]; [left; eauto|].
    right. by eapply Categoria_objects_get_alheia.
  - right. unfold Categoria_objects_get.
    erewrite bind_ok by apply read_db_run. by rewrite Hc.
Qed.

(** Without a database failure, [transacao_criar] either redirects with both
    writes done or reports an error with nothing written: an account or a
    category that is not the user's, a malformed amount and a malformed date
    all fail before the first write. *)
Lemma transacao_criar_sem_falha (d : DB) (user : Z) (f : Views.TransacaoForm) :
  let pedido := Views.transacao_criar user (Views.POST f) in
  (exists m, retorno pedido (mundo d) = Ok (Views.Redirect "transacoes", m))
  \/ ((exists m, retorno pedido (mundo d) = Ok (Views.Render "budget/transacao_form.html", m))
      /\ efeito pedido (mundo d) = d).
Proof.
  intros pedido. subst pedido. unfold retorno, efeito, Views.transacao_criar, mundo, try_except.
  destruct (Conta_objects_get_casos d [] None (Views.f_conta f) user)
    as [(c & Hc & Hu)|Hfalha].
  2:{ erewrite bind_raise by exact Hfalha. right. split; [by eexists|done]. }
  avancar.
  destruct (Categoria_objects_get_casos d ([] ++ [mkContaObj (Views.f_conta f) c]) None
              (Views.f_categoria f) user) as [(cat & Hcat & Hcu)|Hfalha].
  2:{ erewrite bind_raise by exact Hfalha. right. split; [by eexists|done]. }
  avancar.
  destruct (Views.f_valor f) as [valor|]; [|right; split; [by eexists|done]].
  destruct (Views.f_data f) as [data|]; [|right; split; [by eexists|done]].
  unfold Transacao_objects_create.
  left. destruct (String.eqb (Views.f_tipo f) "receita"); avancar; by eexists.
Qed.

(** The same for [transacao_editar]: the reversal made before the lookups
    lives in memory only, so an error leaves the database as it was. *)
Lemma transacao_editar_sem_falha (d : DB) (user id : Z) (t : Transacao.t) (velha : Conta.t)
    (f : Views.TransacaoForm) :
  transacoes d !! id = Some t ->
  Transacao.usuario t = user ->
  contas d !! Transacao.conta t = Some velha ->
  let pedido := Views.transacao_editar user id (Views.POST f) in
  (exists m, retorno pedido (mundo d) = Ok (Views.Redirect "transacoes", m))
  \/ ((exists m, retorno pedido (mundo d) = Ok (Views.Render "budget/transacao_form.html", m))
      /\ efeito pedido (mundo d) = d).
Proof.
  intros Ht Hu Hvelha pedido. subst pedido.
  unfold retorno, efeito, Views.transacao_editar, mundo.
  avancar. unfold try_except. avancar.
  set (h1 := [mkContaObj (Transacao.conta t)
                (Conta.set_saldo (Conta.saldo velha - valor_assinado t) velha)]).
  assert (Hrev : forall k : unit -> M Views.Resultado,
    ((if String.eqb (Transacao.tipo t) "receita"
      then atribuir_saldo (length (@nil ContaObj)) (Conta.saldo velha - Transacao.valor t)
      else atribuir_saldo (length (@nil ContaObj)) (Conta.saldo velha + Transacao.valor t)) ≫= k)
      (mkWorld d ([] ++ [mkContaObj (Transacao.conta t) velha]) None)
    = k tt (mkWorld d h1 None)).
  { intros k. subst h1. unfold valor_assinado.
    destruct (String.eqb (Transacao.tipo t) "receita"); avancar; cbn;
      repeat f_equal; lia. }
  cbn [campos]. rewrite Hrev.
  destruct (Conta_objects_get_casos d h1 None (Views.f_conta f) user)
    as [(c & Hc & Hcu)|Hfalha].
  2:{ erewrite bind_raise by exact Hfalha. right. split; [by eexists|done]. }
  avancar.
  destruct (Categoria_objects_get_casos d (h1 ++ [mkContaObj (Views.f_conta f) c]) None
              (Views.f_categoria f) user) as [(cat & Hcat & Hcatu)|Hfalha].
  2:{ erewrite bind_raise by exact Hfalha. right. split; [by eexists|done]. }
  avancar.
  destruct (Views.f_valor f) as [valor|]; [|right; split; [by eexists|done]].
  destruct (Views.f_data f) as [data|]; [|right; split; [by eexists|done]].
  left. unfold Transacao_save.
  destruct (String.eqb (Views.f_tipo f) "receita"); avancar; by eexists.
Qed.

(** ** Soft delete of an account *)

Lemma saldo_total_soma user d :
  Views.saldo_total user d
  = soma_filtrada (Views.conta_ativa_de user) (fun r => Conta.saldo r.2) (linhas (contas d)).
Proof. unfold Views.saldo_total. by rewrite ou_zero_Sum. Qed.

(** C10.  [conta_deletar] on an account of the requesting user answers with
    the success message and writes one thing: the row's [ativo] becomes
    [False].  The row stays, with its name, balance and other columns; other
    accounts, every transaction, category and budget are untouched; the
    dashboard's total balance drops by the account's balance if it was
    active. *)
Theorem C10_conta_deletar_only_clears_ativo (d : DB) (user id : Z) (c : Conta.t) :
  contas d !! id = Some c ->
  Conta.usuario c = user ->
  let pedido := Views.conta_deletar user id (Views.POST tt) in
  let d' := efeito pedido (mundo d) in
  retorno pedido (mundo d)
  = Ok (Views.Redirect "contas", [Views.Success "Conta desativada com sucesso!"])
  /\ contas d' !! id
     = Some (Conta.mk (Conta.usuario c) (Conta.nome c) (Conta.tipo c) (Conta.saldo c)
               (Conta.banco c) (Conta.cor c) false)
  /\ (forall j, j <> id -> contas d' !! j = contas d !! j)
  /\ transacoes d' = transacoes d
  /\ categorias d' = categorias d
  /\ orcamentos d' = orcamentos d
  /\ Views.saldo_total user d'
     = Views.saldo_total user d - (if Conta.ativo c then Conta.saldo c else 0).
Proof.
  intros Hc Hu pedido d'.
  assert (Hrun : pedido (mundo d)
    = (Ok (Views.Redirect "contas", [Views.Success "Conta desativada com sucesso!"]),
       mkWorld (set_contas (<[id := Conta.set_ativo false c]>) d)
         [mkContaObj id (Conta.set_ativo false c)] None)).
  { subst pedido. unfold Views.conta_deletar, mundo, try_except. by avancar. }
  subst d'. unfold efeito, retorno. rewrite Hrun.
  cbn [fst snd db contas transacoes categorias orcamentos set_contas].
  repeat split.
  - by rewrite lookup_insert_eq.
  - intros j Hj. by rewrite lookup_insert_ne.
  - rewrite !saldo_total_soma. unfold set_contas. cbn [contas].
    rewrite (soma_filtrada_insert _ _ _ _ _ _ Hc). unfold Views.conta_ativa_de.
    cbn [snd Conta.usuario Conta.ativo Conta.set_ativo Conta.saldo].
    rewrite Hu, Z.eqb_refl, andb_false_r. cbn [andb]. destruct (Conta.ativo c); lia.
Qed.

(** Deactivating account 3 of the example: the total balance of user 1 goes
    from 400.00 to 100.00. *)
Lemma C10_conta_deletar_only_clears_ativo_witness :
  Views.saldo_total 1 db0 = 40000
  /\ Views.saldo_total 1 (efeito (Views.conta_deletar 1 3 (Views.POST tt)) (mundo db0))
     = Views.saldo_total 1 db0 - 30000.
Proof.
  split; [vm_compute; reflexivity|].
  refine (proj2 (proj2 (proj2 (proj2 (proj2 (proj2
    (C10_conta_deletar_only_clears_ativo db0 1 3 conta_c _ _))))))); vm_compute; reflexivity.
Defined.

(** ** Period summary *)

Lemma dec_div_max x (n : Z) :
  dec_div x (inject_Z (Z.max n 1)) = Ok (x / inject_Z (Z.max n 1))%Q.
Proof.
  unfold dec_div. destruct (Qeq_bool (inject_Z (Z.max n 1)) 0) eqn:E; [|done].
  apply Qeq_bool_eq in E. unfold Qeq, inject_Z in E. simpl in E. lia.
Qed.

(** C9.  [resumo_geral] always returns: both averages divide by
    [max(count, 1)], which is never zero.  The averages are the totals over
    those divisors, a kind with no transaction in the window has average 0,
    and the net balance is the income total minus the expense total. *)
Theorem C9_resumo_geral_never_divides_by_zero (F : PyFloat)
    (self : Analytics.FinancialAnalytics) (d : DB) :
  let receitas := Analytics.transacoes_do_periodo self "receita" d in
  let despesas := Analytics.transacoes_do_periodo self "despesa" d in
  let total_receitas := total (Analytics.valores receitas) in
  let total_despesas := total (Analytics.valores despesas) in
  exists r,
    Analytics.resumo_geral self d = Ok r
    /\ Analytics.receitas_quantidade r = Count receitas
    /\ Analytics.despesas_quantidade r = Count despesas
    /\ Analytics.media_receita r
       = float_of_decimal (centavos total_receitas / inject_Z (Z.max (Count receitas) 1))%Q
    /\ Analytics.media_despesa r
       = float_of_decimal (centavos total_despesas / inject_Z (Z.max (Count despesas) 1))%Q
    /\ (Count receitas = 0 -> Analytics.media_receita r = float_of_decimal (centavos 0))
    /\ (Count despesas = 0 -> Analytics.media_despesa r = float_of_decimal (centavos 0))
    /\ Analytics.balanco r = float_of_decimal (centavos (total_receitas - total_despesas)).
Proof.
  intros receitas despesas total_receitas total_despesas.
  unfold Analytics.resumo_geral.
  fold receitas despesas. rewrite !dec_div_max, !ou_zero_Sum.
  fold total_receitas total_despesas.
  eexists. split; [reflexivity|]. cbn.
  repeat split.
  - intros H0. subst total_receitas. unfold Count in H0.
    destruct receitas; [reflexivity | simpl in H0; lia].
  - intros H0. subst total_despesas. unfold Count in H0.
    destruct despesas; [reflexivity | simpl in H0; lia].
Qed.

(** ** Loops that collect results *)

Lemma for_each_Forall2 {A B} (f : A -> Res (option B)) (l : list A) :
  (forall x, x ∈ l -> exists o, f x = Ok o) ->
  exists os, Forall2 (fun x o => f x = Ok o) l os /\ for_each f l = Ok (omap id os).
Proof.
  induction l as [|x l IH]; intros Hall.
  - exists []. split; [constructor | reflexivity].
  - destruct (Hall x) as [o Ho]; [by left|].
    destruct IH as (os & HF & Hos); [intros y Hy; apply Hall; by right|].
    exists (o :: os). split; [by constructor|].
    simpl. rewrite Ho, Hos. by destruct o.
Qed.

Lemma Forall2_omap_Some {A B} (f : A -> Res (option B)) (P : A -> B -> Prop)
    (l : list A) (os : list (option B)) :
  Forall2 (fun x o => f x = Ok o) l os ->
  (forall x o, x ∈ l -> f x = Ok o -> exists b, o = Some b /\ P x b) ->
  Forall2 P l (omap id os).
Proof.
  induction 1 as [|x o l os Hxo _ IH]; intros HP; [constructor|].
  destruct (HP x o) as (b & -> & Hb); [by left | done |].
  cbn. constructor; [done|]. apply IH. intros y o' Hy. apply HP. by right.
Qed.

(** ** Budget performance *)

Lemma percentual_usado_ok (F : PyFloat) (L : PyFloatLaws F) (gasto limite : Z) :
  Analytics.percentual_usado gasto limite
  = Ok (if 0 <? limite
        then fmul (fdiv (float_of_decimal (centavos gasto)) (float_of_decimal (centavos limite)))
               (float_of_int 100)
        else float_of_int 0).
Proof.
  unfold Analytics.percentual_usado, truediv.
  destruct (0 <? limite) eqn:E; [|done].
  apply Z.ltb_lt in E. by rewrite (float_of_centavos_pos F L limite E).
Qed.

(** C6 (amended).  For every budget of the user in the current month and
    year, [orcamento_performance] returns - without a division error - an
    entry whose [gasto] is the total of the user's expense transactions of the
    budget's category dated in the budget's month and year, whose
    [disponivel] is the limit minus that total, whose [percentual] is
    [round(p, 2)] for p = gasto / limite * 100 (p = 0 when the limit is not
    positive), and whose [status] follows the thresholds 70, 90 and 100
    applied to p itself, before rounding. *)
Theorem C6_budget_performance_rounds_percent_after_status (F : PyFloat) (L : PyFloatLaws F)
    (self : Analytics.FinancialAnalytics) (hoje : Data) (d : DB) :
  (forall r, r ∈ Analytics.orcamentos_do_mes (Analytics.usuario self) hoje d ->
             is_Some (categorias d !! Orcamento.categoria r.2)) ->
  exists resultado,
    Analytics.orcamento_performance self hoje d = Ok resultado
    /\ Forall2
         (fun (r : Z * Orcamento.t) (e : Analytics.Desempenho) =>
            let orc := r.2 in
            let gasto :=
              soma_filtrada
                (fun t : Z * Transacao.t =>
                   (Transacao.usuario t.2 =? Analytics.usuario self)
                   && bool_decide (Transacao.categoria t.2 = Some (Orcamento.categoria orc))
                   && String.eqb (Transacao.tipo t.2) "despesa"
                   && (mes (Transacao.data t.2) =? Orcamento.mes orc)
                   && (ano (Transacao.data t.2) =? Orcamento.ano orc))
                (fun t => Transacao.valor t.2)
                (linhas (transacoes d)) in
            let p :=
              if 0 <? Orcamento.limite orc
              then fmul (fdiv (float_of_decimal (centavos gasto))
                           (float_of_decimal (centavos (Orcamento.limite orc))))
                     (float_of_int 100)
              else float_of_int 0 in
            Orcamento.mes orc = mes hoje /\ Orcamento.ano orc = ano hoje
            /\ Analytics.limite e = float_of_decimal (centavos (Orcamento.limite orc))
            /\ Analytics.gasto e = float_of_decimal (centavos gasto)
            /\ Analytics.disponivel e
               = float_of_decimal (centavos (Orcamento.limite orc - gasto))
            /\ Analytics.percentual e = round2 p
            /\ (Orcamento.limite orc <= 0 ->
                Analytics.percentual e = round2 (float_of_int 0)
                /\ Analytics.status e = "normal")
            /\ (flt p (float_of_int 70) = true -> Analytics.status e = "normal")
            /\ (flt p (float_of_int 70) = false -> flt p (float_of_int 90) = true ->
                Analytics.status e = "atencao")
            /\ (flt p (float_of_int 90) = false -> flt p (float_of_int 100) = true ->
                flt p (float_of_int 70) = false -> Analytics.status e = "critico")
            /\ (flt p (float_of_int 100) = false -> flt p (float_of_int 90) = false ->
                flt p (float_of_int 70) = false -> Analytics.status e = "excedido"))
         (Analytics.orcamentos_do_mes (Analytics.usuario self) hoje d) resultado.
Proof.
  intros Hint. unfold Analytics.orcamento_performance.
  destruct (for_each_Forall2
              (fun r : Z * Orcamento.t => Analytics.desempenho_de self d r.2)
              (Analytics.orcamentos_do_mes (Analytics.usuario self) hoje d))
    as (os & HF & Hos).
  { intros r Hr. destruct (Hint r Hr) as [cat Hcat].
    unfold Analytics.desempenho_de. rewrite (percentual_usado_ok F L). cbn.
    rewrite Hcat. by eexists. }
  rewrite Hos. eexists. split; [reflexivity|].
  eapply Forall2_omap_Some; [exact HF|].
  intros r o Hr Hro. destruct (Hint r Hr) as [cat Hcat].
  unfold Analytics.desempenho_de in Hro. rewrite (percentual_usado_ok F L) in Hro.
  cbn in Hro. rewrite Hcat in Hro. injection Hro as <-.
  eexists. split; [reflexivity|].
  apply list_elem_of_In, filter_In in Hr as [_ Hr].
  apply andb_prop in Hr as [Hr Hano]. apply andb_prop in Hr as [_ Hmes].
  apply Z.eqb_eq in Hano, Hmes.
  unfold Analytics.gasto_do_orcamento, Analytics.valores. rewrite ou_zero_Sum.
  unfold soma_filtrada.
  cbn [Analytics.limite Analytics.gasto Analytics.disponivel Analytics.percentual
       Analytics.status].
  unfold Analytics._status_orcamento.
  do 6 (split; [done|]). split.
  { intros Hle. apply Z.ltb_ge in Hle. rewrite Hle.
    split; [done|]. by rewrite (flt_0_70 F L). }
  repeat split.
  - by intros ->.
  - by intros -> ->.
  - by intros -> -> ->.
  - by intros -> -> ->.
Qed.

(** ** Budget alerts *)

Lemma percentual_do_orcamento_ok (gasto limite : Z) :
  Notifications.percentual_do_orcamento gasto limite
  = Ok (if 0 <? limite then (centavos gasto / centavos limite * 100)%Q else 0%Q).
Proof.
  unfold Notifications.percentual_do_orcamento, dec_div.
  destruct (0 <? limite) eqn:E; [|done]. apply Z.ltb_lt in E.
  destruct (Qeq_bool (centavos limite) 0) eqn:E0; [|done].
  apply Qeq_bool_eq in E0. unfold Qeq, centavos in E0. simpl in E0. lia.
Qed.

Lemma percentual_cem (limite : Z) :
  0 < limite -> (centavos limite / centavos limite * 100 == 100)%Q.
Proof.
  intros H. unfold Qdiv. rewrite Qmult_inv_r; [ring|].
  unfold Qeq, centavos. simpl. lia.
Qed.

Lemma criar_alerta_casos (d : DB) (id : Z) (orc : Orcamento.t) (gasto : Z) (p : Q)
    (cat : Categoria.t) :
  categorias d !! Orcamento.categoria orc = Some cat ->
  let nome := Categoria.nome cat in
  Notifications._criar_alerta d id orc gasto p
  = Ok (if Qle_bool 100 p
        then Some (Notifications.mkAlerta "danger" "critico"
                     ("Orcamento Excedido: " +:+ nome) id nome p)
        else if Qle_bool 90 p
        then Some (Notifications.mkAlerta "warning" "alto"
                     ("Orcamento Critico: " +:+ nome) id nome p)
        else if Qle_bool 75 p
        then Some (Notifications.mkAlerta "info" "medio" ("Atencao: " +:+ nome) id nome p)
        else None).
Proof.
  intros Hcat nome. unfold Notifications._criar_alerta, Notifications.nome_da_categoria.
  rewrite Hcat. by repeat destruct (Qle_bool _ p).
Qed.

Lemma Qle_bool_false (x y : Q) : (y < x)%Q -> Qle_bool x y = false.
Proof.
  intros H. destruct (Qle_bool x y) eqn:E; [|done].
  apply Qle_bool_iff in E. exfalso. by eapply Qlt_not_le.
Qed.

Lemma Qle_bool_true (x y : Q) : (x <= y)%Q -> Qle_bool x y = true.
Proof. apply Qle_bool_iff. Qed.

Lemma contar_nivel_length n l :
  Notifications.contar_nivel n l
  = Z.of_nat (length (List.filter (fun a => String.eqb (Notifications.nivel a) n) l)).
Proof.
  unfold Notifications.contar_nivel.
  induction (List.filter _ l) as [|a l' IH]; [done|].
  cbn [map total foldr length] in *. unfold total in IH. lia.
Qed.

Lemma contagem_tres_niveis (l : list Notifications.Alerta) :
  Forall (fun a => Notifications.nivel a = "critico" \/ Notifications.nivel a = "alto"
                   \/ Notifications.nivel a = "medio") l ->
  Z.of_nat (length l)
  = Notifications.contar_nivel "critico" l + Notifications.contar_nivel "alto" l
    + Notifications.contar_nivel "medio" l.
Proof.
  rewrite !contar_nivel_length.
  induction 1 as [|a l Ha _ IH]; [done|].
  cbn [List.filter length].
  destruct Ha as [->|[->| ->]]; cbn [String.eqb Ascii.eqb Bool.eqb andb length]; lia.
Qed.

Lemma Forall2_impl_in {A B} (P Q : A -> B -> Prop) (l : list A) (k : list B) :
  Forall2 P l k -> (forall x y, x ∈ l -> P x y -> Q x y) -> Forall2 Q l k.
Proof.
  induction 1 as [|x y l k Hxy _ IH]; intros HPQ; [constructor|].
  constructor; [apply HPQ; [by left | done]|].
  apply IH. intros x' y' Hx'. apply HPQ. by right.
Qed.

Lemma Forall_omap_id {A B} (P : A -> option B -> Prop) (R : B -> Prop)
    (l : list A) (os : list (option B)) :
  Forall2 P l os -> (forall x b, P x (Some b) -> R b) -> Forall R (omap id os).
Proof.
  induction 1 as [|x o l os Hxo _ IH]; intros HR; [constructor|].
  destruct o as [b|]; cbn; [constructor; eauto | eauto].
Qed.

(** What the body of the loop of [get_alertas] yields for one budget. *)
Lemma alerta_de_casos (self : Notifications.BudgetNotificationSystem) (d : DB)
    (r : Z * Orcamento.t) (cat : Categoria.t) :
  categorias d !! Orcamento.categoria r.2 = Some cat ->
  let nome := Categoria.nome cat in
  let gasto := Notifications._calcular_gasto self r.2 d in
  let p := if 0 <? Orcamento.limite r.2
           then (centavos gasto / centavos (Orcamento.limite r.2) * 100)%Q else 0%Q in
  Notifications.alerta_de self d r
  = Ok (if Qle_bool 100 p
        then Some (Notifications.mkAlerta "danger" "critico"
                     ("Orcamento Excedido: " +:+ nome) r.1 nome p)
        else if Qle_bool 90 p
        then Some (Notifications.mkAlerta "warning" "alto"
                     ("Orcamento Critico: " +:+ nome) r.1 nome p)
        else if Qle_bool 75 p
        then Some (Notifications.mkAlerta "info" "medio" ("Atencao: " +:+ nome) r.1 nome p)
        else None).
Proof.
  intros Hcat nome gasto p. unfold Notifications.alerta_de.
  rewrite percentual_do_orcamento_ok. cbn [mbind Res_bind].
  by apply criar_alerta_casos.
Qed.

(** C7.  For every budget of the user in the current month, [get_alertas]
    decides on p = gasto / limite * 100 (0 when the limit is not positive):
    p >= 100 gives an alert of level critico, 90 <= p < 100 alto,
    75 <= p < 90 medio, p < 75 no alert; a budget spent exactly to its limit
    is critico.  [contar_alertas] returns the number of alerts and the number
    at each of the three levels, which add up to the total. *)
Theorem C7_alert_levels_and_counts (self : Notifications.BudgetNotificationSystem) (d : DB) :
  (forall r, r ∈ Notifications.orcamentos_de_hoje self d ->
             is_Some (categorias d !! Orcamento.categoria r.2)) ->
  exists os : list (option Notifications.Alerta),
    Forall2
      (fun (r : Z * Orcamento.t) (o : option Notifications.Alerta) =>
         let gasto := Notifications._calcular_gasto self r.2 d in
         let limite := Orcamento.limite r.2 in
         let p := if 0 <? limite then (centavos gasto / centavos limite * 100)%Q else 0%Q in
         let alerta_de_nivel n :=
           exists a, o = Some a /\ Notifications.nivel a = n
                     /\ Notifications.orcamento_id a = r.1
                     /\ Notifications.percentual a = p in
         ((100 <= p)%Q -> alerta_de_nivel "critico")
         /\ ((90 <= p)%Q -> (p < 100)%Q -> alerta_de_nivel "alto")
         /\ ((75 <= p)%Q -> (p < 90)%Q -> alerta_de_nivel "medio")
         /\ ((p < 75)%Q -> o = None)
         /\ (0 < limite -> gasto = limite -> alerta_de_nivel "critico"))
      (Notifications.orcamentos_de_hoje self d) os
    /\ Notifications.get_alertas self d = Ok (omap id os)
    /\ Notifications.contar_alertas self d
       = Ok (Notifications.mkContagem
               (Z.of_nat (length (omap id os)))
               (Z.of_nat (length (List.filter
                  (fun a => String.eqb (Notifications.nivel a) "critico") (omap id os))))
               (Z.of_nat (length (List.filter
                  (fun a => String.eqb (Notifications.nivel a) "alto") (omap id os))))
               (Z.of_nat (length (List.filter
                  (fun a => String.eqb (Notifications.nivel a) "medio") (omap id os)))))
    /\ Z.of_nat (length (omap id os))
       = Notifications.contar_nivel "critico" (omap id os)
         + Notifications.contar_nivel "alto" (omap id os)
         + Notifications.contar_nivel "medio" (omap id os).
Proof.
  intros Hint.
  destruct (for_each_Forall2 (Notifications.alerta_de self d)
              (Notifications.orcamentos_de_hoje self d)) as (os & HF & Hos).
  { intros r Hr. destruct (Hint r Hr) as [cat Hcat].
    rewrite (alerta_de_casos self d r cat Hcat). by eexists. }
  exists os.
  assert (HF' : Forall2
    (fun (r : Z * Orcamento.t) (o : option Notifications.Alerta) =>
       exists cat, categorias d !! Orcamento.categoria r.2 = Some cat
         /\ Notifications.alerta_de self d r = Ok o)
    (Notifications.orcamentos_de_hoje self d) os).
  { eapply Forall2_impl_in; [exact HF|]. intros r o Hr Hro.
    destruct (Hint r Hr) as [cat Hcat]. eauto. }
  assert (Hniveis : Forall (fun a => Notifications.nivel a = "critico"
                     \/ Notifications.nivel a = "alto" \/ Notifications.nivel a = "medio")
                     (omap id os)).
  { eapply Forall_omap_id; [exact HF'|]. intros r a (cat & Hcat & Hra).
    rewrite (alerta_de_casos self d r cat Hcat) in Hra. injection Hra as Hra.
    repeat destruct (Qle_bool _ _); try discriminate; injection Hra as <-; cbn; auto. }
  split; [|split; [exact Hos|split]].
  - eapply Forall2_impl; [exact HF'|]. intros r o (cat & Hcat & Hro).
    rewrite (alerta_de_casos self d r cat Hcat) in Hro. injection Hro as <-.
    cbv zeta. set (p := if 0 <? Orcamento.limite r.2 then _ else _).
    assert (Hcrit : (100 <= p)%Q ->
      exists a, (if Qle_bool 100 p
                 then Some (Notifications.mkAlerta "danger" "critico"
                              ("Orcamento Excedido: " +:+ Categoria.nome cat) r.1
                              (Categoria.nome cat) p)
                 else if Qle_bool 90 p
                 then Some (Notifications.mkAlerta "warning" "alto"
                              ("Orcamento Critico: " +:+ Categoria.nome cat) r.1
                              (Categoria.nome cat) p)
                 else if Qle_bool 75 p
                 then Some (Notifications.mkAlerta "info" "medio"
                              ("Atencao: " +:+ Categoria.nome cat) r.1
                              (Categoria.nome cat) p)
                 else None) = Some a
                /\ Notifications.nivel a = "critico"
                /\ Notifications.orcamento_id a = r.1
                /\ Notifications.percentual a = p).
    { intros H100. rewrite (Qle_bool_true _ _ H100). by eexists. }
    repeat split.
    + exact Hcrit.
    + intros H90 H100. rewrite (Qle_bool_false _ _ H100), (Qle_bool_true _ _ H90).
      by eexists.
    + intros H75 H90.
      rewrite (Qle_bool_false 100 p), (Qle_bool_false _ _ H90), (Qle_bool_true _ _ H75).
      * by eexists.
      * eapply Qlt_trans; [exact H90 | reflexivity].
    + intros H75.
      rewrite (Qle_bool_false 100 p), (Qle_bool_false 90 p), (Qle_bool_false _ _ H75).
      * done.
      * eapply Qlt_trans; [exact H75 | reflexivity].
      * eapply Qlt_trans; [exact H75 | reflexivity].
    + intros Hpos Higual. apply Hcrit. subst p.
      apply Z.ltb_lt in Hpos as Hpos'. rewrite Hpos', Higual.
      rewrite (percentual_cem _ Hpos). apply Qle_refl.
  - unfold Notifications.contar_alertas, Notifications.get_alertas. rewrite Hos.
    cbn [mbind Res_bind]. by rewrite !contar_nivel_length.
  - by apply contagem_tres_niveis.
Qed.

(** ** Spending trend *)

Lemma truediv_pos (F : PyFloat) (L : PyFloatLaws F) (x : float) (n : nat) :
  (0 < n)%nat -> truediv x (float_of_int (Z.of_nat n)) = Ok (fdiv x (float_of_int (Z.of_nat n))).
Proof.
  intros Hn. unfold truediv. rewrite (float_of_int_pos F L); [done | lia].
Qed.

Lemma variacao_das_metades_ok (F : PyFloat) (L : PyFloatLaws F) (valores : list float) :
  let meio := (length valores / 2)%nat in
  let m1 := fdiv (fsum (take meio valores)) (float_of_int (Z.of_nat meio)) in
  let m2 := fdiv (fsum (drop meio valores))
              (float_of_int (Z.of_nat (length (drop meio valores)))) in
  Analytics.variacao_das_metades valores
  = Ok (if (0 <? meio)%nat && flt (float_of_int 0) m1
        then fmul (fdiv (fsub m2 m1) m1) (float_of_int 100)
        else float_of_int 0).
Proof.
  intros meio m1 m2. unfold Analytics.variacao_das_metades. fold meio.
  destruct (0 <? meio)%nat eqn:E; [|reflexivity]. apply Nat.ltb_lt in E.
  rewrite (truediv_pos F L _ meio E). cbn [mbind Res_bind].
  rewrite (truediv_pos F L).
  2:{ rewrite length_drop. subst meio.
      pose proof (Nat.div_lt (length valores) 2).
      assert (0 < length valores)%nat by (destruct valores; simpl in *; [lia|lia]).
      lia. }
  cbn [mbind Res_bind andb]. fold m1 m2.
  destruct (flt (float_of_int 0) m1) eqn:Em; [|reflexivity].
  unfold truediv. by rewrite (flt_zero_pos F L m1 Em).
Qed.

(** C8.  [tendencia_gastos] works on the daily expense totals of the window,
    oldest first.  With no data point it returns mean 0, "estavel" and
    variation 0.  Otherwise it returns - without a division error - the
    rounded mean, the number of days, and the variation between the mean of
    the first [len // 2] values and the mean of the rest, relative to the
    former, in percent: the trend is "crescente" when the variation is above
    5, "decrescente" when it is below -5, and "estavel" otherwise, which
    includes a single data point and a first half whose mean is not positive,
    where the variation is 0. *)
Theorem C8_spend_trend_compares_halves (F : PyFloat) (L : PyFloatLaws F) :
  (forall self hoje dias d,
     Analytics.tendencia_gastos self hoje dias d
     = Analytics.tendencia_dos_valores
         (map (fun g : Data * Z => float_of_decimal (centavos g.2))
            (Analytics.gastos_diarios (Analytics.usuario self) (timedelta_sub hoje dias) d)))
  /\ Analytics.tendencia_dos_valores []
     = Ok (Analytics.SemDados (float_of_int 0) "estavel" (float_of_int 0))
  /\ (forall valores : list float,
        valores <> [] ->
        let n := length valores in
        let meio := (n / 2)%nat in
        let media := fdiv (fsum valores) (float_of_int (Z.of_nat n)) in
        let m1 := fdiv (fsum (take meio valores)) (float_of_int (Z.of_nat meio)) in
        let m2 := fdiv (fsum (drop meio valores))
                    (float_of_int (Z.of_nat (length (drop meio valores)))) in
        let variacao :=
          if (0 <? meio)%nat && flt (float_of_int 0) m1
          then fmul (fdiv (fsub m2 m1) m1) (float_of_int 100)
          else float_of_int 0 in
        exists tendencia,
          Analytics.tendencia_dos_valores valores
          = Ok (Analytics.ComDados (round2 media) tendencia (round2 variacao) n)
          /\ (flt (float_of_int 5) variacao = true -> tendencia = "crescente")
          /\ (flt (float_of_int 5) variacao = false ->
              flt variacao (float_of_int (-5)) = true -> tendencia = "decrescente")
          /\ (flt (float_of_int 5) variacao = false ->
              flt variacao (float_of_int (-5)) = false -> tendencia = "estavel")
          /\ (meio = 0%nat \/ flt (float_of_int 0) m1 = false -> tendencia = "estavel")).
Proof.
  split; [reflexivity|]. split; [reflexivity|].
  intros valores Hne n meio media m1 m2 variacao.
  assert (Hrun : Analytics.tendencia_dos_valores valores
    = Ok (Analytics.ComDados (round2 media) (Analytics.classificar_tendencia variacao)
            (round2 variacao) n)).
  { unfold Analytics.tendencia_dos_valores. destruct valores as [|v valores]; [done|].
    rewrite (truediv_pos F L) by (simpl; lia). cbn [mbind Res_bind].
    by rewrite (variacao_das_metades_ok F L). }
  rewrite Hrun. eexists. split; [reflexivity|].
  unfold Analytics.classificar_tendencia. repeat split.
  - by intros ->.
  - by intros -> ->.
  - by intros -> ->.
  - intros Hzero.
    assert (variacao = float_of_int 0) as ->.
    { subst variacao. destruct Hzero as [-> | ->]; [done|]. by rewrite andb_false_r. }
    by rewrite (flt_5_0 F L), (flt_0_neg5 F L).
Qed.

(** ** Exact arithmetic as a model of the float interface *)

Lemma QFloat_laws : PyFloatLaws QFloat.
Proof.
  split; cbn.
  - intros n Hn. destruct (Qeq_bool (inject_Z n) 0) eqn:E; [|done].
    apply Qeq_bool_eq in E. unfold Qeq, inject_Z in E. simpl in E. lia.
  - intros c Hc. destruct (Qeq_bool (centavos c) 0) eqn:E; [|done].
    apply Qeq_bool_eq in E. unfold Qeq, centavos in E. simpl in E. lia.
  - intros x Hx. unfold Qltb in Hx. destruct (Qeq_bool x 0) eqn:E; [|done].
    apply Qeq_bool_eq in E. apply negb_true_iff in Hx.
    assert (Hle : Qle_bool x (inject_Z 0) = true); [|congruence].
    apply Qle_bool_iff. rewrite E. apply Qle_refl.
  - reflexivity.
  - reflexivity.
  - reflexivity.
Qed.

(** Daily totals of 100.00 and 110.00: the second half is 10% above the
    first. *)
Lemma C8_spend_trend_compares_halves_witness :
  Analytics.tendencia_dos_valores (F := QFloat) [centavos 10000; centavos 11000]
  = Ok (Analytics.ComDados (F := QFloat) (Qmake 10500 100) "crescente" (Qmake 1000 100) 2).
Proof.
  destruct (proj2 (proj2 (C8_spend_trend_compares_halves QFloat QFloat_laws))
              [centavos 10000; centavos 11000] ltac:(discriminate))
    as (tendencia & Hrun & Hcresc & _).
  rewrite Hrun. rewrite (Hcresc eq_refl). vm_compute. reflexivity.
Defined.

(** C8 as stated fails when the mean of the first half is not positive.  An
    amount is not validated to be positive: with daily totals of -10.00 and
    -20.00 the second mean lies 100 percent away from the first, which the
    thresholds would call "crescente", yet the variation returned is 0 and
    the trend "estavel". *)
Lemma C8_negative_first_half_reported_stable :
  let m1 := centavos (-1000) in
  let m2 := centavos (-2000) in
  let relativa := ((m2 - m1) / m1 * 100)%Q in
  (relativa == 100)%Q
  /\ Analytics.classificar_tendencia (F := QFloat) relativa = "crescente"
  /\ exists media variacao,
       Analytics.tendencia_gastos (F := QFloat) analise hoje 30 db_estornos
       = Ok (Analytics.ComDados (F := QFloat) media "estavel" variacao 2)
       /\ (media == -15)%Q
       /\ (variacao == 0)%Q.
Proof.
  intros m1 m2 relativa. split; [vm_compute; reflexivity|].
  split; [vm_compute; reflexivity|].
  eexists _, _. split; [vm_compute; reflexivity|].
  split; vm_compute; reflexivity.
Qed.

(** The window of the example: three days of expenses, 100.00, 60.00 and
    50.00; the mean of the last two is 45% below the first. *)
Example tendencia_gastos_exemplo :
  Analytics.tendencia_gastos (F := QFloat) analise hoje 30 db_alimentacao
  = Ok (Analytics.ComDados (F := QFloat) (Qmake 7000 100) "decrescente" (Qmake (-4500) 100) 3).
Proof. vm_compute. reflexivity. Qed.

(** The budget of 200.00 with 210.00 spent: spent 210.00, available -10.00,
    105 percent, "excedido". *)
Example orcamento_performance_exemplo :
  Analytics.orcamento_performance (F := QFloat) analise hoje db_alimentacao
  = Ok [Analytics.mkDesempenho (F := QFloat) "Mercado" "" (Qmake 20000 100) (Qmake 21000 100)
          (Qmake (-1000) 100) (Qmake 10500 100) "excedido"].
Proof. vm_compute. reflexivity. Qed.

(** A limit of zero: no division, percent 0. *)
Example orcamento_performance_limite_zero :
  Analytics.orcamento_performance (F := QFloat) analise hoje (db_orcamento 0 69996)
  = Ok [Analytics.mkDesempenho (F := QFloat) "Mercado" "" (Qmake 0 100) (Qmake 69996 100)
          (Qmake (-69996) 100) (Qmake 0 100) "normal"].
Proof. vm_compute. reflexivity. Qed.

Lemma C6_budget_performance_rounds_percent_after_status_witness :
  exists e,
    Analytics.orcamento_performance (F := QFloat) analise hoje db_alimentacao = Ok [e]
    /\ Analytics.percentual e = Qround2 (centavos 21000 / centavos 20000 * 100)
    /\ Analytics.status e = "excedido".
Proof.
  destruct (C6_budget_performance_rounds_percent_after_status QFloat QFloat_laws
              analise hoje db_alimentacao) as (resultado & Hrun & HF).
  { intros r Hr. vm_compute in Hr. apply list_elem_of_In in Hr as [<-|[]].
    vm_compute. by eexists. }
  change (Analytics.orcamentos_do_mes (Analytics.usuario analise) hoje db_alimentacao)
    with [(1, Orcamento.mk 1 3 20000 1 2025)] in HF.
  apply Forall2_cons_inv_l in HF as (e & resto & He & Hresto & ->).
  apply Forall2_nil_inv_l in Hresto as ->.
  exists e. split; [exact Hrun|].
  destruct He as (_ & _ & _ & _ & _ & Hp & _ & _ & _ & _ & Hstatus).
  split.
  - rewrite Hp. vm_compute. reflexivity.
  - apply Hstatus; vm_compute; reflexivity.
Defined.

(** C6 as stated fails on the returned entry: with 699.96 spent of 1000.00
    the entry carries [percentual] 70.00 and [status] "normal", although the
    thresholds give "atencao" for 70. *)
Lemma C6_returned_percent_70_with_status_normal :
  exists e,
    Analytics.orcamento_performance (F := QFloat) analise hoje (db_orcamento 100000 69996)
    = Ok [e]
    /\ Analytics.percentual e = Qmake 7000 100
    /\ Analytics.status e = "normal"
    /\ Analytics._status_orcamento (F := QFloat) (Analytics.percentual e) = "atencao"
    /\ Analytics.status e <> Analytics._status_orcamento (F := QFloat) (Analytics.percentual e).
Proof.
  eexists. split; [vm_compute; reflexivity|].
  repeat split; try (vm_compute; reflexivity).
  vm_compute. discriminate.
Qed.

(** A budget spent exactly to its limit of 200.00. *)
Lemma C7_alert_levels_and_counts_witness :
  exists a,
    Notifications.get_alertas avisos (db_orcamento 20000 20000) = Ok [a]
    /\ Notifications.nivel a = "critico"
    /\ Notifications.contar_alertas avisos (db_orcamento 20000 20000)
       = Ok (Notifications.mkContagem 1 1 0 0).
Proof.
  destruct (C7_alert_levels_and_counts avisos (db_orcamento 20000 20000))
    as (os & HF & Hrun & Hcont & _).
  { intros r Hr. vm_compute in Hr. apply list_elem_of_In in Hr as [<-|[]].
    vm_compute. by eexists. }
  change (Notifications.orcamentos_de_hoje avisos (db_orcamento 20000 20000))
    with [(1, Orcamento.mk 1 3 20000 1 2025)] in HF.
  apply Forall2_cons_inv_l in HF as (o & resto & Ho & Hresto & ->).
  apply Forall2_nil_inv_l in Hresto as ->.
  destruct Ho as (_ & _ & _ & _ & Hcem).
  destruct Hcem as (a & -> & Hnivel & _); [vm_compute; reflexivity .. |].
  exists a. split; [exact Hrun|]. split; [exact Hnivel|].
  rewrite Hcont. cbn [omap list_omap id List.filter length].
  rewrite Hnivel. reflexivity.
Defined.

Example contar_alertas_exemplo :
  Notifications.contar_alertas avisos (db_orcamento 20000 18000)
  = Ok (Notifications.mkContagem 1 0 1 0)
  /\ Notifications.contar_alertas avisos (db_orcamento 20000 15000)
     = Ok (Notifications.mkContagem 1 0 0 1)
  /\ Notifications.contar_alertas avisos (db_orcamento 20000 14999)
     = Ok (Notifications.mkContagem 0 0 0 0).
Proof. repeat split; vm_compute; reflexivity. Qed.

Example resumo_geral_exemplo :
  Analytics.resumo_geral (F := QFloat) analise db0
  = Ok (Analytics.mkResumo (F := QFloat) (mkData 2024 1 21, hoje) (Qmake 0 100) 0 (Qmake 0 100) 0
          (Qmake 40000 100) (Qmake 0 100) (Qmake 0 100) (Qmake 0 100)).
Proof. vm_compute. reflexivity. Qed.
(** ** The ledger under sequences of requests *)

Lemma soma_assinada_soma d j :
  soma_assinada d j
  = soma_filtrada (fun r : Z * Transacao.t => Transacao.conta r.2 =? j)
      (fun r => valor_assinado r.2) (linhas (transacoes d)).
Proof. reflexivity. Qed.

Lemma razao_em_dia_refl d : razao_em_dia d d.
Proof.
  intros j. destruct (saldo_de d j) as [s|]; cbn; [f_equal; lia | done].
Qed.

Lemma razao_em_dia_passo (d0 d d' : DB) (k : Z) (c : Conta.t) (delta : Z) :
  razao_em_dia d0 d ->
  contas d !! k = Some c ->
  contas d' = <[k := Conta.set_saldo (Conta.saldo c + delta) c]> (contas d) ->
  (forall j, soma_assinada d' j = soma_assinada d j + (if k =? j then delta else 0)) ->
  razao_em_dia d0 d'.
Proof.
  intros Hinv Hc Hcontas Hsoma j. specialize (Hinv j). unfold saldo_de in *.
  rewrite Hcontas, Hsoma. destruct (decide (k = j)) as [<-|Hne].
  - rewrite lookup_insert_eq, Z.eqb_refl. rewrite Hc in Hinv. cbn in *.
    destruct (contas d0 !! k) as [c0|]; cbn in *; [|done].
    injection Hinv as Hinv. f_equal. lia.
  - rewrite lookup_insert_ne by done. apply Z.eqb_neq in Hne as ->.
    rewrite Hinv. destruct (contas d0 !! j); cbn; [f_equal; lia | done].
Qed.

Lemma lancado_em_dia d0 d d' :
  chaves_emitidas d -> razao_em_dia d0 d -> lancado d d' ->
  chaves_emitidas d' /\ razao_em_dia d0 d'.
Proof.
  intros Hch Hinv (t & c & Hc & ->).
  assert (Hnovo : transacoes d !! (transacao_seq d + 1) = None).
  { destruct (transacoes d !! (transacao_seq d + 1)) eqn:E; [|done].
    specialize (Hch (transacao_seq d + 1)). rewrite E in Hch.
    specialize (Hch (ltac:(eauto))). lia. }
  split.
  - intros id. cbn [transacoes transacao_seq].
    destruct (decide (id = transacao_seq d + 1)) as [->|Hne]; [lia|].
    rewrite lookup_insert_ne by done. intros H. specialize (Hch id H). lia.
  - eapply razao_em_dia_passo; [exact Hinv | exact Hc | reflexivity |].
    intros j. rewrite !soma_assinada_soma. cbn [transacoes].
    rewrite (soma_filtrada_insert_novo _ _ _ _ _ Hnovo). reflexivity.
Qed.

Lemma estornado_em_dia d0 d d' :
  chaves_emitidas d -> razao_em_dia d0 d -> estornado d d' ->
  chaves_emitidas d' /\ razao_em_dia d0 d'.
Proof.
  intros Hch Hinv (id & t & c & Ht & Hc & ->). split.
  - intros j. cbn [transacoes transacao_seq]. intros [x Hx].
    apply lookup_delete_Some in Hx as [_ Hx]. apply Hch. eauto.
  - eapply (razao_em_dia_passo _ _ _ _ _ (- valor_assinado t)); [exact Hinv | exact Hc | |].
    + reflexivity.
    + intros j. rewrite !soma_assinada_soma. cbn [transacoes].
      rewrite (soma_filtrada_delete _ _ _ _ _ Ht). cbn [snd].
      destruct (Transacao.conta t =? j); lia.
Qed.

Lemma substituido_em_dia d0 d d' :
  chaves_emitidas d -> razao_em_dia d0 d -> substituido d d' ->
  chaves_emitidas d' /\ razao_em_dia d0 d'.
Proof.
  intros Hch Hinv (id & t & t' & c & Ht & Hconta & Hc & ->). split.
  - intros j. cbn [transacoes transacao_seq]. intros [x Hx].
    apply lookup_insert_Some in Hx as [[<- _]|[_ Hx]]; apply Hch; eauto.
  - eapply (razao_em_dia_passo _ _ _ _ _ (- valor_assinado t + valor_assinado t'));
      [exact Hinv | exact Hc | |].
    + cbn [contas]. do 2 f_equal. lia.
    + intros j. rewrite !soma_assinada_soma. cbn [transacoes].
      rewrite (soma_filtrada_insert _ _ _ _ _ _ Ht). cbn [snd]. rewrite Hconta.
      destruct (Transacao.conta t =? j); lia.
Qed.

(** *** What each request does to the ledger *)

Lemma Transacao_objects_get_casos d h n id user :
  (exists t, transacoes d !! id = Some t /\ Transacao.usuario t = user)
  \/ Transacao_objects_get id user (mkWorld d h n) = (Raise DoesNotExist, mkWorld d h n).
Proof.
  unfold Transacao_objects_get.
  destruct (transacoes d !! id) as [t|] eqn:Ht.
  - destruct (decide (Transacao.usuario t = user)) as [Hu|Hu]; [left; eauto|].
    right. erewrite bind_ok by apply read_db_run. rewrite Ht.
    apply Z.eqb_neq in Hu. by rewrite Hu.
  - right. erewrite bind_ok by apply read_db_run. by rewrite Ht.
Qed.

Lemma Conta_objects_get_pk_ausente d h n id :
  contas d !! id = None ->
  Conta_objects_get_pk id (mkWorld d h n) = (Raise DoesNotExist, mkWorld d h n).
Proof.
  intros Hc. unfold Conta_objects_get_pk.
  erewrite bind_ok by apply read_db_run. by rewrite Hc.
Qed.

Lemma transacao_criar_casos d user f :
  let d' := efeito (Views.transacao_criar user (Views.POST f)) (mundo d) in
  d' = d \/ lancado d d'.
Proof.
  intros d'. subst d'. unfold efeito, Views.transacao_criar, mundo, try_except.
  destruct (Conta_objects_get_casos d [] None (Views.f_conta f) user)
    as [(c & Hc & Hu)|Hfalha].
  2:{ erewrite bind_raise by exact Hfalha. by left. }
  avancar.
  destruct (Categoria_objects_get_casos d ([] ++ [mkContaObj (Views.f_conta f) c]) None
              (Views.f_categoria f) user) as [(cat & Hcat & Hcu)|Hfalha].
  2:{ erewrite bind_raise by exact Hfalha. by left. }
  avancar.
  destruct (Views.f_valor f) as [valor|]; [|by left].
  destruct (Views.f_data f) as [data|]; [|by left].
  unfold Transacao_objects_create. right.
  exists (Transacao.mk user (Views.f_conta f) (Some (Views.f_categoria f))
            (Views.f_descricao f) valor (Views.f_tipo f) data (Views.f_observacoes f)
            (Views.f_recorrente f)), c.
  split; [exact Hc|]. unfold valor_assinado.
  cbn [Transacao.conta Transacao.tipo Transacao.valor].
  destruct (String.eqb (Views.f_tipo f) "receita"); avancar; cbn; reflexivity.
Qed.

Lemma transacao_deletar_casos d user id :
  let d' := efeito (Views.transacao_deletar user id (Views.POST tt)) (mundo d) in
  d' = d \/ estornado d d'.
Proof.
  intros d'. subst d'. unfold efeito, Views.transacao_deletar, mundo, try_except.
  destruct (Transacao_objects_get_casos d [] None id user) as [(t & Ht & Hu)|Hfalha].
  2:{ erewrite bind_raise by exact Hfalha. by left. }
  avancar.
  destruct (contas d !! Transacao.conta t) as [c|] eqn:Hc.
  2:{ erewrite bind_raise by (by apply Conta_objects_get_pk_ausente). by left. }
  right. exists id, t, c. split; [exact Ht|]. split; [exact Hc|].
  unfold valor_assinado.
  destruct (String.eqb (Transacao.tipo t) "receita"); avancar; cbn;
    unfold set_transacoes, set_contas; cbn; repeat f_equal; lia.
Qed.

Lemma validate_related_objects_casos d h n user conta o categoria :
  h !! conta = Some o ->
  (Conta.usuario (campos o) = user
   /\ (forall cat, categoria = Some cat -> Categoria.usuario cat.2 = user)
   /\ Api._validate_related_objects user conta categoria (mkWorld d h n) = (Ok tt, mkWorld d h n))
  \/ Api._validate_related_objects user conta categoria (mkWorld d h n)
     = (Raise PermissionDenied, mkWorld d h n).
Proof.
  intros Ho.
  destruct (decide (Conta.usuario (campos o) = user)) as [Hu|Hu].
  2:{ right. eapply validate_related_objects_rejeita; [exact Ho | by left]. }
  destruct categoria as [cat|].
  - destruct (decide (Categoria.usuario cat.2 = user)) as [Hc|Hc].
    + left. split; [done|]. split; [by intros ? [= <-]|].
      eapply validate_related_objects_ok; [exact Ho | done | by intros ? [= <-]].
    + right. eapply validate_related_objects_rejeita; [exact Ho | right; eauto].
  - left. split; [done|]. split; [done|].
    eapply validate_related_objects_ok; [exact Ho | done | done].
Qed.

Lemma validar_conta_ausente d h n id :
  contas d !! id = None ->
  Api.validar_conta (Some id) (mkWorld d h n) = (Raise ValidationError, mkWorld d h n).
Proof.
  intros Hc. unfold Api.validar_conta. erewrite try_except_raise; [reflexivity|].
  erewrite bind_raise; [reflexivity|]. by apply Conta_objects_get_pk_ausente.
Qed.

Lemma bind_puro {A B} (m : M A) (k : A -> M B) w :
  (m w).2 = w ->
  (exists a, m w = (Ok a, w) /\ (m ≫= k) w = k a w)
  \/ (exists e, (m ≫= k) w = (Raise e, w)).
Proof.
  intros H. unfold mbind, M_bind, bind. destruct (m w) as [[a|e] w']; cbn in H; subst w'.
  - left. by exists a.
  - right. by exists e.
Qed.

Lemma validar_categoria_puro p w : (Api.validar_categoria p w).2 = w.
Proof.
  unfold Api.validar_categoria. destruct p as [[id|]|]; [|done..].
  unfold mbind, M_bind, bind, read_db. by destruct (categorias (db w) !! id).
Qed.

Lemma validar_valor_puro p w : (Api.validar_valor p w).2 = w.
Proof. by destruct p as [[z|]|]. Qed.

Lemma exigir_puro {A} (o : option A) w : (Api.exigir o w).2 = w.
Proof. by destruct o. Qed.

Ltac passo_puro H :=
  match goal with
  | |- context [(?m ≫= ?k) ?w] =>
      destruct (bind_puro m k w ltac:(first [ apply validar_categoria_puro
                                               | apply validar_valor_puro
                                               | apply exigir_puro ]))
        as [(? & H & ->)|(? & ->)]; [|by left]
  end.

Lemma api_create_casos d user p :
  let d' := efeito (Api.create user p) (mundo d) in
  d' = d \/ lancado d d'.
Proof.
  intros d'. subst d'. unfold efeito, Api.create, mundo.
  destruct p as [conta categoria descricao valor tipo data observacoes recorrente].
  cbn [Api.p_conta Api.p_categoria Api.p_descricao Api.p_valor Api.p_tipo Api.p_data
       Api.p_observacoes Api.p_recorrente].
  destruct conta as [conta|]; [|by left].
  destruct (contas d !! conta) as [c|] eqn:Hc.
  2:{ left. erewrite bind_raise by (by apply validar_conta_ausente). done. }
  erewrite bind_ok by (by apply validar_conta_ok). avancar.
  passo_puro Hcat. passo_puro Hvalor. passo_puro Hvalor'. passo_puro Hdesc.
  passo_puro Htipo. passo_puro Hdata.
  clear Hcat Hvalor Hvalor' Hdesc Htipo Hdata.
  rename x into cat, x1 into v, x2 into desc, x3 into tp, x4 into dt.
  unfold Api.perform_create.
  cbn [Api.c_conta Api.c_categoria Api.c_descricao Api.c_valor Api.c_tipo Api.c_data
       Api.c_observacoes Api.c_recorrente app length].
  destruct (validate_related_objects_casos d [mkContaObj conta c] None user 0%nat
              (mkContaObj conta c) (default None cat) eq_refl) as [(Hu & Hcatu & Hok)|Hrej].
  2:{ erewrite bind_raise by exact Hrej. by left. }
  erewrite bind_ok by exact Hok.
  right.
  set (t := Transacao.mk user conta (fst <$> default None cat) desc v tp dt
              (default "" observacoes) (default false recorrente)).
  exists t, c. split; [exact Hc|].
  assert (Hsave : Api.serializer_save_create user
            (Api.mkDadosCriacao 0%nat (default None cat) desc v tp dt
               (default "" observacoes) (default false recorrente))
            (mkWorld d [mkContaObj conta c] None)
          = (Ok (Api.mkInstancia (transacao_seq d + 1) t 0%nat (default None cat)),
             mkWorld (mkDB (contas d) (categorias d)
                        (<[transacao_seq d + 1 := t]> (transacoes d))
                        (orcamentos d) (transacao_seq d + 1))
               [mkContaObj conta c] None)).
  { unfold Api.serializer_save_create, Transacao_objects_create.
    cbn [Api.c_conta Api.c_categoria Api.c_descricao Api.c_valor Api.c_tipo Api.c_data
         Api.c_observacoes Api.c_recorrente].
    erewrite bind_ok by (by apply ler_objeto_run).
    avancar. reflexivity. }
  erewrite atomic_run_ok; cycle 1.
  { erewrite bind_ok by exact Hsave. cbn [Api.inst_campos].
    eapply (aplicar_saldo_efeito _ _ 0%nat (mkContaObj conta c) c); [reflexivity | exact Hc]. }
  unfold valor_assinado, set_contas. subst t. cbn.
  by destruct (String.eqb tp "receita").
Qed.

Lemma get_object_casos d h n user id :
  (exists t c, transacoes d !! id = Some t /\ Transacao.usuario t = user
               /\ contas d !! Transacao.conta t = Some c)
  \/ Api.get_object user id (mkWorld d h n) = (Raise DoesNotExist, mkWorld d h n).
Proof.
  unfold Api.get_object.
  destruct (transacoes d !! id) as [t|] eqn:Ht.
  2:{ right. erewrite bind_ok by apply read_db_run. by rewrite Ht. }
  destruct (decide (Transacao.usuario t = user)) as [Hu|Hu].
  2:{ right. erewrite bind_ok by apply read_db_run. rewrite Ht.
      apply Z.eqb_neq in Hu. by rewrite Hu. }
  destruct (contas d !! Transacao.conta t) as [c|] eqn:Hc; [left; eauto|].
  right. erewrite bind_ok by apply read_db_run. rewrite Ht, Hu, Z.eqb_refl.
  erewrite bind_raise by (by apply Conta_objects_get_pk_ausente). done.
Qed.

Lemma api_destroy_casos d user id :
  let d' := efeito (Api.destroy user id) (mundo d) in
  d' = d \/ estornado d d'.
Proof.
  intros d'. subst d'. unfold efeito, Api.destroy, mundo.
  destruct (get_object_casos d [] None user id) as [(t & c & Ht & Hu & Hc)|Hfalha].
  2:{ erewrite bind_raise by exact Hfalha. by left. }
  erewrite bind_ok by (by eapply get_object_ok).
  right. exists id, t, c. split; [exact Ht|]. split; [exact Hc|].
  unfold Api.perform_destroy. cbn [Api.inst_conta Api.inst_campos Api.inst_pk app length].
  erewrite atomic_run_ok; cycle 1.
  { erewrite bind_ok
      by (eapply (aplicar_saldo_efeito _ _ 0%nat (mkContaObj (Transacao.conta t) c) c);
          [reflexivity | exact Hc]).
    unfold Transacao_delete. apply orm_write_run. }
  unfold valor_assinado, set_contas, set_transacoes. cbn.
  destruct (String.eqb (Transacao.tipo t) "receita"); cbn; repeat f_equal; lia.
Qed.

Lemma api_update_casos d user id p :
  Api.p_conta p = None ->
  let d' := efeito (Api.update user id p) (mundo d) in
  d' = d \/ substituido d d'.
Proof.
  intros Hconta d'. subst d'. unfold efeito, Api.update, mundo.
  destruct (get_object_casos d [] None user id) as [(t & c & Ht & Hu & Hc)|Hfalha].
  2:{ erewrite bind_raise by exact Hfalha. by left. }
  erewrite bind_ok by (by eapply get_object_ok).
  rewrite Hconta. unfold Api.validar_conta. avancar.
  cbn [app length].
  passo_puro Hcat. passo_puro Hvalor. clear Hcat Hvalor.
  rename x into cat, x0 into v.
  set (categoria := cid ← Transacao.categoria t; k ← categorias d !! cid; Some (cid, k)).
  unfold Api.perform_update.
  cbn [Api.u_conta Api.u_categoria Api.u_descricao Api.u_valor Api.u_tipo Api.u_data
       Api.u_observacoes Api.u_recorrente Api.inst_conta Api.inst_categoria
       Api.inst_campos Api.inst_pk default from_option Datatypes.id].
  match goal with
  | |- context [Api._validate_related_objects user 0%nat ?k] =>
      destruct (validate_related_objects_casos d [mkContaObj (Transacao.conta t) c] None
                  user 0%nat (mkContaObj (Transacao.conta t) c) k eq_refl)
        as [(Hcu & Hcatu & Hok)|Hrej]
  end.
  2:{ erewrite bind_raise by exact Hrej. by left. }
  erewrite bind_ok by exact Hok.
  right.
  set (t' := Transacao.mk (Transacao.usuario t) (Transacao.conta t)
               (fst <$> default categoria cat)
               (default (Transacao.descricao t) (Api.p_descricao p))
               (default (Transacao.valor t) v)
               (default (Transacao.tipo t) (Api.p_tipo p))
               (default (Transacao.data t) (Api.p_data p))
               (default (Transacao.observacoes t) (Api.p_observacoes p))
               (default (Transacao.recorrente t) (Api.p_recorrente p))).
  exists id, t, t', c. split; [exact Ht|]. split; [reflexivity|]. split; [exact Hc|].
  set (s1 := Conta.saldo c - valor_assinado t).
  set (d1 := set_contas (<[Transacao.conta t := Conta.set_saldo s1 c]>) d).
  set (o1 := mkContaObj (Transacao.conta t) (Conta.set_saldo s1 c)).
  assert (Hrev : Api._aplicar_saldo 0 (Transacao.valor t) (Transacao.tipo t) true
                   (mkWorld d [mkContaObj (Transacao.conta t) c] None)
                 = (Ok tt, mkWorld d1 [o1] None)).
  { erewrite (aplicar_saldo_efeito _ _ 0%nat (mkContaObj (Transacao.conta t) c) c);
      [|reflexivity|exact Hc].
    subst d1 o1 s1. unfold valor_assinado. cbn.
    destruct (String.eqb (Transacao.tipo t) "receita"); repeat f_equal; lia. }
  assert (Hsave : Api.serializer_save_update
            (Api.mkInstancia id t 0%nat categoria)
            (Api.mkDadosAtualizacao None cat (Api.p_descricao p) v (Api.p_tipo p)
               (Api.p_data p) (Api.p_observacoes p) (Api.p_recorrente p))
            (mkWorld d1 [o1] None)
          = (Ok (Api.mkInstancia id t' 0%nat (default categoria cat)),
             mkWorld (set_transacoes (<[id := t']>) d1) [o1] None)).
  { unfold Api.serializer_save_update, Transacao_save.
    cbn [Api.u_conta Api.u_categoria Api.u_descricao Api.u_valor Api.u_tipo Api.u_data
         Api.u_observacoes Api.u_recorrente Api.inst_conta Api.inst_categoria
         Api.inst_campos Api.inst_pk default from_option Datatypes.id].
    erewrite bind_ok by (by apply ler_objeto_run).
    avancar. reflexivity. }
  erewrite atomic_run_ok; cycle 1.
  { erewrite bind_ok by exact Hrev. erewrite bind_ok by exact Hsave.
    cbn [Api.inst_conta Api.inst_campos].
    eapply (aplicar_saldo_efeito _ _ 0%nat o1 (Conta.set_saldo s1 c)); [reflexivity|].
    subst d1 o1. cbn. by rewrite lookup_insert_eq. }
  subst d1 o1 s1. unfold valor_assinado, set_contas, set_transacoes. cbn.
  rewrite insert_insert_eq.
  destruct (String.eqb (Transacao.tipo t') "receita"); repeat f_equal.
Qed.

(** *** Create, then delete *)

Lemma set_saldo_mesmo (c : Conta.t) : Conta.set_saldo (Conta.saldo c) c = c.
Proof. by destruct c. Qed.

Lemma set_saldo_set_saldo (s s' : Z) (c : Conta.t) :
  Conta.set_saldo s (Conta.set_saldo s' c) = Conta.set_saldo s c.
Proof. by destruct c. Qed.

(** Entering a transaction under a fresh key and taking it back restores
    accounts and transactions. *)
Lemma lancar_estornar (d : DB) (t : Transacao.t) (c : Conta.t) :
  contas d !! Transacao.conta t = Some c ->
  transacoes d !! (transacao_seq d + 1) = None ->
  let c1 := Conta.set_saldo (Conta.saldo c + valor_assinado t) c in
  mkDB (<[Transacao.conta t := Conta.set_saldo (Conta.saldo c1 - valor_assinado t) c1]>
          (<[Transacao.conta t := c1]> (contas d)))
    (categorias d) (delete (transacao_seq d + 1) (<[transacao_seq d + 1 := t]> (transacoes d)))
    (orcamentos d) (transacao_seq d + 1)
  = mkDB (contas d) (categorias d) (transacoes d) (orcamentos d) (transacao_seq d + 1).
Proof.
  intros Hc Hnovo c1. subst c1. f_equal.
  - rewrite insert_insert_eq, set_saldo_set_saldo. cbn [Conta.saldo Conta.set_saldo].
    replace (Conta.saldo c + valor_assinado t - valor_assinado t) with (Conta.saldo c) by lia.
    rewrite set_saldo_mesmo. by apply insert_id.
  - rewrite delete_insert_eq. by apply delete_id.
Qed.





Lemma validar_categoria_ok d h n (p : option (option Z)) user :
  (forall k, p = Some (Some k) ->
     exists cat, categorias d !! k = Some cat /\ Categoria.usuario cat = user) ->
  exists r : option (option Api.CategoriaObj),
    Api.validar_categoria p (mkWorld d h n) = (Ok r, mkWorld d h n)
    /\ fst <$> default None r = default None p
    /\ (forall cat, default None r = Some cat -> Categoria.usuario cat.2 = user).
Proof.
  intros Hp. destruct p as [[k|]|].
  - destruct (Hp k eq_refl) as (cat & Hcat & Hu).
    exists (Some (Some (k, cat))). split; [|split; [done|]].
    + unfold Api.validar_categoria. erewrite bind_ok by apply read_db_run. by rewrite Hcat.
    + by intros ? [= <-].
  - exists (Some None). by repeat split.
  - exists None. by repeat split.
Qed.

Lemma api_create_ok (d : DB) (user : Z) (p : Api.Payload) (conta : Z) (c : Conta.t)
    (valor : Z) (descricao tipo : string) (data : Data) :
  Api.p_conta p = Some conta ->
  contas d !! conta = Some c ->
  Conta.usuario c = user ->
  (forall k, Api.p_categoria p = Some (Some k) ->
     exists cat, categorias d !! k = Some cat /\ Categoria.usuario cat = user) ->
  Api.p_valor p = Some (Some valor) ->
  Api.p_descricao p = Some descricao ->
  Api.p_tipo p = Some tipo ->
  Api.p_data p = Some data ->
  let t := Transacao.mk user conta (default None (Api.p_categoria p)) descricao valor tipo data
             (default "" (Api.p_observacoes p)) (default false (Api.p_recorrente p)) in
  let c1 := Conta.set_saldo (Conta.saldo c + valor_assinado t) c in
  Api.create user p (mundo d)
  = (Ok tt,
     mkWorld (mkDB (<[conta := c1]> (contas d)) (categorias d)
                (<[transacao_seq d + 1 := t]> (transacoes d)) (orcamentos d)
                (transacao_seq d + 1))
       [mkContaObj conta c1] None).
Proof.
  intros Hconta Hc Hcu Hcat Hv Hdesc Htipo Hdata t c1.
  unfold Api.create, mundo. rewrite Hconta, Hv, Hdesc, Htipo, Hdata.
  erewrite bind_ok by (by apply validar_conta_ok). avancar.
  destruct (validar_categoria_ok d ([] ++ [mkContaObj conta c]) None (Api.p_categoria p) user Hcat)
    as (cat & Hval & Hfst & Hdono).
  erewrite bind_ok by exact Hval. avancar.
  unfold Api.perform_create.
  cbn [Api.c_conta Api.c_categoria Api.c_descricao Api.c_valor Api.c_tipo Api.c_data
       Api.c_observacoes Api.c_recorrente app length].
  erewrite bind_ok
    by (by eapply (validate_related_objects_ok _ _ _ _ 0%nat (mkContaObj conta c))).
  apply atomic_run_ok.
  assert (Hsave : Api.serializer_save_create user
            (Api.mkDadosCriacao 0%nat (default None cat) descricao valor tipo data
               (default "" (Api.p_observacoes p)) (default false (Api.p_recorrente p)))
            (mkWorld d [mkContaObj conta c] None)
          = (Ok (Api.mkInstancia (transacao_seq d + 1) t 0%nat (default None cat)),
             mkWorld (mkDB (contas d) (categorias d)
                        (<[transacao_seq d + 1 := t]> (transacoes d))
                        (orcamentos d) (transacao_seq d + 1))
               [mkContaObj conta c] None)).
  { unfold Api.serializer_save_create, Transacao_objects_create.
    cbn [Api.c_conta Api.c_categoria Api.c_descricao Api.c_valor Api.c_tipo Api.c_data
         Api.c_observacoes Api.c_recorrente].
    erewrite bind_ok by (by apply ler_objeto_run).
    avancar. subst t. cbn [pk]. by rewrite Hfst. }
  erewrite bind_ok by exact Hsave. cbn [Api.inst_campos].
  erewrite (aplicar_saldo_efeito _ _ 0%nat (mkContaObj conta c) c); [|reflexivity|exact Hc].
  subst c1. unfold valor_assinado, set_contas. subst t. cbn.
  by destruct (String.eqb tipo "receita").
Qed.

Lemma api_destroy_ok (d : DB) (user id : Z) (t : Transacao.t) (c : Conta.t) :
  transacoes d !! id = Some t ->
  Transacao.usuario t = user ->
  contas d !! Transacao.conta t = Some c ->
  let c1 := Conta.set_saldo (Conta.saldo c - valor_assinado t) c in
  Api.destroy user id (mundo d)
  = (Ok tt,
     mkWorld (mkDB (<[Transacao.conta t := c1]> (contas d)) (categorias d)
                (delete id (transacoes d)) (orcamentos d) (transacao_seq d))
       [mkContaObj (Transacao.conta t) c1] None).
Proof.
  intros Ht Hu Hc c1. subst c1. unfold Api.destroy, mundo.
  erewrite bind_ok by (by eapply get_object_ok).
  unfold Api.perform_destroy. cbn [Api.inst_conta Api.inst_campos Api.inst_pk app length].
  apply atomic_run_ok.
  erewrite bind_ok
    by (eapply (aplicar_saldo_efeito _ _ 0%nat (mkContaObj (Transacao.conta t) c) c);
        [reflexivity | exact Hc]).
  unfold Transacao_delete. rewrite orm_write_run.
  unfold valor_assinado, set_contas, set_transacoes. cbn.
  destruct (String.eqb (Transacao.tipo t) "receita"); cbn; repeat f_equal; lia.
Qed.

(** X3.  The same through the REST API: a POST that passes validation
    followed by a DELETE of the new transaction.  Both succeed, and the
    database is back where it was, the used-up key apart. *)
Theorem api_create_destroy_restaura (d : DB) (user : Z) (p : Api.Payload) (conta : Z)
    (c : Conta.t) (valor : Z) (descricao tipo : string) (data : Data) :
  Api.p_conta p = Some conta ->
  contas d !! conta = Some c ->
  Conta.usuario c = user ->
  (forall k, Api.p_categoria p = Some (Some k) ->
     exists cat, categorias d !! k = Some cat /\ Categoria.usuario cat = user) ->
  Api.p_valor p = Some (Some valor) ->
  Api.p_descricao p = Some descricao ->
  Api.p_tipo p = Some tipo ->
  Api.p_data p = Some data ->
  transacoes d !! (transacao_seq d + 1) = None ->
  let novo := transacao_seq d + 1 in
  let d1 := efeito (Api.create user p) (mundo d) in
  retorno (Api.create user p) (mundo d) = Ok tt
  /\ transacoes d1 !! novo
     = Some (Transacao.mk user conta (default None (Api.p_categoria p)) descricao valor tipo
               data (default "" (Api.p_observacoes p)) (default false (Api.p_recorrente p)))
  /\ saldo_de d1 conta
     = Some (Conta.saldo c + (if String.eqb tipo "receita" then valor else - valor))
  /\ retorno (Api.destroy user novo) (mundo d1) = Ok tt
  /\ efeito (Api.destroy user novo) (mundo d1)
     = mkDB (contas d) (categorias d) (transacoes d) (orcamentos d) novo.
Proof.
  intros Hconta Hc Hcu Hcat Hv Hdesc Htipo Hdata Hnovo novo d1.
  subst d1 novo. unfold retorno, efeito.
  rewrite (api_create_ok d user p conta c valor descricao tipo data
             Hconta Hc Hcu Hcat Hv Hdesc Htipo Hdata).
  cbn [fst snd db].
  set (t := Transacao.mk user conta (default None (Api.p_categoria p)) descricao valor tipo
              data (default "" (Api.p_observacoes p)) (default false (Api.p_recorrente p))).
  set (c1 := Conta.set_saldo (Conta.saldo c + valor_assinado t) c).
  split; [done|]. split; [cbn [transacoes]; by rewrite lookup_insert_eq|].
  split; [unfold saldo_de; cbn [contas]; by rewrite lookup_insert_eq|].
  erewrite (api_destroy_ok _ user _ t c1).
  - cbn [fst snd db contas categorias transacoes orcamentos transacao_seq].
    split; [done|]. by apply (lancar_estornar d t c).
  - cbn [transacoes]. by rewrite lookup_insert_eq.
  - reflexivity.
  - cbn [contas]. by rewrite lookup_insert_eq.
Qed.

Lemma api_create_destroy_restaura_witness :
  efeito (Api.destroy 1 1) (mundo api_apos_criar)
  = mkDB (contas db0) (categorias db0) (transacoes db0) (orcamentos db0) 1.
Proof.
  refine (proj2 (proj2 (proj2 (proj2
    (api_create_destroy_restaura db0 1 api_receita_50 1 conta_a 5000 "salario" "receita"
       dia15 _ _ _ _ _ _ _ _ _))))); try (vm_compute; reflexivity).
  intros k [= <-]. exists salario. split; vm_compute; reflexivity.
Defined.

(** *** Reversal *)

Lemma set_contas_id (d : DB) (k : Z) (c : Conta.t) :
  contas d !! k = Some c -> set_contas (<[k := c]>) d = d.
Proof. intros H. destruct d. unfold set_contas. cbn in *. f_equal. by apply insert_id. Qed.

(** X4.  [_aplicar_saldo] with [reverter=True] is the inverse of
    [_aplicar_saldo] without it, in either order, whatever the kind and the
    amount: after the two calls the object holds the balance it held before,
    and its row holds that balance too.  When the object was in step with its
    row, the database is the one before the two calls. *)
Theorem aplicar_saldo_reverter_desfaz (d : DB) (h : list ContaObj) (l : nat) (o : ContaObj)
    (c : Conta.t) (valor : Z) (tipo : string) (primeiro : bool) :
  h !! l = Some o ->
  contas d !! pk o = Some c ->
  let ida_e_volta :=
    Api._aplicar_saldo l valor tipo primeiro;;
    Api._aplicar_saldo l valor tipo (negb primeiro) in
  ida_e_volta (mkWorld d h None)
  = (Ok tt,
     mkWorld (set_contas (<[pk o := Conta.set_saldo (Conta.saldo (campos o)) c]>) d) h None)
  /\ (Conta.saldo (campos o) = Conta.saldo c ->
      ida_e_volta (mkWorld d h None) = (Ok tt, mkWorld d h None)).
Proof.
  intros Hl Hc ida_e_volta.
  assert (Hrun : ida_e_volta (mkWorld d h None)
    = (Ok tt,
       mkWorld (set_contas (<[pk o := Conta.set_saldo (Conta.saldo (campos o)) c]>) d) h None)).
  { subst ida_e_volta.
    erewrite bind_ok by (by eapply aplicar_saldo_efeito).
    erewrite aplicar_saldo_efeito;
      [ | apply list_lookup_insert_eq; by eapply lookup_lt_Some
        | cbn [pk contas set_contas]; by rewrite lookup_insert_eq ].
    unfold set_contas.
    cbn [pk campos Conta.saldo Conta.set_saldo contas categorias transacoes
         orcamentos transacao_seq].
    rewrite list_insert_insert_eq, insert_insert_eq, !set_saldo_set_saldo.
    match goal with
    | |- context [Conta.set_saldo ?s c] =>
        replace s with (Conta.saldo (campos o))
          by (destruct (String.eqb tipo "receita"), primeiro; cbn [negb]; lia)
    end.
    rewrite set_saldo_mesmo.
    rewrite (list_insert_id h l); [done|]. by destruct o. }
  split; [exact Hrun|].
  intros Hfresco. rewrite Hrun, Hfresco, set_saldo_mesmo. by rewrite set_contas_id.
Qed.

Lemma aplicar_saldo_reverter_desfaz_witness :
  (Api._aplicar_saldo 0 5000 "receita" false;; Api._aplicar_saldo 0 5000 "receita" true)
    (mkWorld db0 [mkContaObj 1 conta_a] None)
  = (Ok tt, mkWorld db0 [mkContaObj 1 conta_a] None).
Proof.
  refine (proj2 (aplicar_saldo_reverter_desfaz db0 [mkContaObj 1 conta_a] 0 (mkContaObj 1 conta_a)
                   conta_a 5000 "receita" false _ _) _); reflexivity.
Defined.

(** *** Transactions of other users *)

Lemma Transacao_objects_get_alheia d h n id user :
  (forall t, transacoes d !! id = Some t -> Transacao.usuario t <> user) ->
  Transacao_objects_get id user (mkWorld d h n) = (Raise DoesNotExist, mkWorld d h n).
Proof.
  intros Halheia.
  destruct (Transacao_objects_get_casos d h n id user) as [(t & Ht & Hu)|H]; [|done].
  by destruct (Halheia t Ht).
Qed.

(** X6.  The web handlers on a transaction id that does not exist or belongs
    to another user.  [transacao_editar] looks the transaction up before its
    [try] block: the lookup's [DoesNotExist] leaves the handler, for a GET as
    for a POST.  [transacao_deletar] looks it up inside: the error becomes a
    message and the user is redirected.  Neither writes anything. *)
Theorem transacao_alheia_web (d : DB) (h : list ContaObj) (n : option nat) (user id : Z) :
  (forall t, transacoes d !! id = Some t -> Transacao.usuario t <> user) ->
  (forall request,
     Views.transacao_editar user id request (mkWorld d h n)
     = (Raise DoesNotExist, mkWorld d h n))
  /\ Views.transacao_deletar user id (Views.POST tt) (mkWorld d h n)
     = (Ok (Views.Redirect "transacoes", [Views.Error "Erro ao deletar transacao" DoesNotExist]),
        mkWorld d h n)
  /\ Views.transacao_deletar user id Views.GET (mkWorld d h n)
     = (Ok (Views.Redirect "transacoes", []), mkWorld d h n).
Proof.
  intros Halheia. split; [|split].
  - intros request. unfold Views.transacao_editar.
    erewrite bind_raise; [reflexivity|]. by apply Transacao_objects_get_alheia.
  - unfold Views.transacao_deletar. erewrite try_except_raise; [reflexivity|].
    erewrite bind_raise; [reflexivity|]. by apply Transacao_objects_get_alheia.
  - reflexivity.
Qed.

Lemma transacao_alheia_web_witness :
  Views.transacao_editar 2 1 (Views.POST despesa_20) (mundo apos_criar)
  = (Raise DoesNotExist, mundo apos_criar)
  /\ efeito (Views.transacao_deletar 2 1 (Views.POST tt)) (mundo apos_criar) = apos_criar.
Proof.
  assert (H : forall t, transacoes apos_criar !! 1 = Some t -> Transacao.usuario t <> 2).
  { intros t Ht. vm_compute in Ht. injection Ht as <-. vm_compute. discriminate. }
  split.
  - apply (proj1 (transacao_alheia_web apos_criar [] None 2 1 H)).
  - unfold efeito, mundo.
    by rewrite (proj1 (proj2 (transacao_alheia_web apos_criar [] None 2 1 H))).
Defined.

(** X7.  The REST API on a transaction id that does not exist or belongs to
    another user: the viewset's queryset holds the requester's rows only, so
    update and delete end in [DoesNotExist] (a 404) before any hook runs, and
    nothing is written. *)
Theorem transacao_alheia_api (d : DB) (h : list ContaObj) (n : option nat) (user id : Z) :
  (forall t, transacoes d !! id = Some t -> Transacao.usuario t <> user) ->
  (forall p, Api.update user id p (mkWorld d h n) = (Raise DoesNotExist, mkWorld d h n))
  /\ Api.destroy user id (mkWorld d h n) = (Raise DoesNotExist, mkWorld d h n).
Proof.
  intros Halheia.
  assert (Hget : Api.get_object user id (mkWorld d h n) = (Raise DoesNotExist, mkWorld d h n)).
  { destruct (get_object_casos d h n user id) as [(t & c & Ht & Hu & _)|H]; [|done].
    by destruct (Halheia t Ht). }
  split.
  - intros p. unfold Api.update. by erewrite bind_raise.
  - unfold Api.destroy. by erewrite bind_raise.
Qed.

Lemma transacao_alheia_api_witness :
  Api.update 2 1 api_patch_despesa_20 (mundo api_apos_criar)
  = (Raise DoesNotExist, mundo api_apos_criar)
  /\ Api.destroy 2 1 (mundo api_apos_criar) = (Raise DoesNotExist, mundo api_apos_criar).
Proof.
  assert (H : forall t, transacoes api_apos_criar !! 1 = Some t -> Transacao.usuario t <> 2).
  { intros t Ht. vm_compute in Ht. injection Ht as <-. vm_compute. discriminate. }
  split.
  - apply (proj1 (transacao_alheia_api api_apos_criar [] None 2 1 H)).
  - apply (proj2 (transacao_alheia_api api_apos_criar [] None 2 1 H)).
Defined.

(** ** Critical alerts *)

Lemma percentual_cem_sse (gasto limite : Z) :
  0 < limite ->
  Qle_bool 100 (centavos gasto / centavos limite * 100) = true <-> limite <= gasto.
Proof.
  intros Hl. rewrite Qle_bool_iff.
  destruct limite as [|p|p]; [lia| |lia].
  unfold centavos, Qdiv, Qmult, Qinv, Qle. cbn. lia.
Qed.

Lemma existsb_contar (n : string) (l : list Notifications.Alerta) :
  existsb (fun a => String.eqb (Notifications.nivel a) n) l = true
  <-> 0 < Notifications.contar_nivel n l.
Proof.
  rewrite contar_nivel_length. induction l as [|a l IH]; cbn; [split; [done|lia]|].
  destruct (String.eqb (Notifications.nivel a) n); cbn; [split; [lia|done]|exact IH].
Qed.

(** The alert of one budget is critical exactly when the limit is positive
    and reached. *)
Lemma alerta_critico_sse (self : Notifications.BudgetNotificationSystem) (d : DB)
    (r : Z * Orcamento.t) (o : option Notifications.Alerta) :
  is_Some (categorias d !! Orcamento.categoria r.2) ->
  Notifications.alerta_de self d r = Ok o ->
  (exists a, o = Some a /\ String.eqb (Notifications.nivel a) "critico" = true)
  <-> 0 < Orcamento.limite r.2
      /\ Orcamento.limite r.2 <= Notifications._calcular_gasto self r.2 d.
Proof.
  intros [cat Hcat] Hro. rewrite (alerta_de_casos self d r cat Hcat) in Hro.
  injection Hro as <-.
  destruct (0 <? Orcamento.limite r.2) eqn:Hl.
  - apply Z.ltb_lt in Hl. rewrite <- (percentual_cem_sse _ _ Hl).
    destruct (Qle_bool 100 _) eqn:E100.
    + split; [done|]. intros _. by eexists.
    + split; [|by intros [_ ?]]. intros (a & Ha & Hn).
      repeat destruct (Qle_bool _ _); try discriminate; injection Ha as <-; discriminate.
  - apply Z.ltb_ge in Hl. split; [|lia]. intros (a & Ha & Hn).
    cbn in Ha. discriminate.
Qed.

(** X8.  [tem_alertas_criticos] answers True exactly when some budget of the
    user for the current month has a positive limit that the month's expenses
    of its category have reached, and exactly when [contar_alertas] counts at
    least one critical alert. *)
Theorem tem_alertas_criticos_sse (self : Notifications.BudgetNotificationSystem) (d : DB) :
  (forall r, r ∈ Notifications.orcamentos_de_hoje self d ->
             is_Some (categorias d !! Orcamento.categoria r.2)) ->
  exists (b : bool) (c : Notifications.Contagem),
    Notifications.tem_alertas_criticos self d = Ok b
    /\ Notifications.contar_alertas self d = Ok c
    /\ (b = true <->
        exists r, r ∈ Notifications.orcamentos_de_hoje self d
                  /\ 0 < Orcamento.limite r.2
                  /\ Orcamento.limite r.2 <= Notifications._calcular_gasto self r.2 d)
    /\ (b = true <-> 0 < Notifications.criticos c).
Proof.
  intros Hint.
  destruct (for_each_Forall2 (Notifications.alerta_de self d)
              (Notifications.orcamentos_de_hoje self d)) as (os & HF & Hos).
  { intros r Hr. destruct (Hint r Hr) as [cat Hcat].
    rewrite (alerta_de_casos self d r cat Hcat). by eexists. }
  unfold Notifications.tem_alertas_criticos, Notifications.contar_alertas,
    Notifications.get_alertas.
  rewrite Hos. cbn [mbind Res_bind].
  eexists _, _. split; [reflexivity|]. split; [reflexivity|].
  cbn [Notifications.criticos]. split; [|apply existsb_contar].
  rewrite existsb_exists. split.
  - intros (a & Ha & Hn). apply list_elem_of_In, list_elem_of_omap in Ha as (o & Ho & Hoa).
    cbn in Hoa. subst o.
    apply list_elem_of_lookup in Ho as [i Hi].
    destruct (Forall2_lookup_r _ _ _ _ _ HF Hi) as (r & Hr & Hro).
    exists r. split; [by eapply list_elem_of_lookup_2|].
    apply (alerta_critico_sse self d r (Some a)); [|done|by exists a].
    apply Hint. by eapply list_elem_of_lookup_2.
  - intros (r & Hr & Hl & Hg).
    apply list_elem_of_lookup in Hr as [i Hi].
    destruct (Forall2_lookup_l _ _ _ _ _ HF Hi) as (o & Ho & Hro).
    destruct (proj2 (alerta_critico_sse self d r o
                       (Hint r (list_elem_of_lookup_2 _ _ _ Hi)) Hro)
                (conj Hl Hg)) as (a & -> & Hn).
    exists a. split; [|done]. apply list_elem_of_In, list_elem_of_omap.
    exists (Some a). split; [by eapply list_elem_of_lookup_2|done].
Qed.

Lemma tem_alertas_criticos_sse_witness :
  Notifications.tem_alertas_criticos avisos (db_orcamento 20000 20000) = Ok true
  /\ Notifications.tem_alertas_criticos avisos (db_orcamento 20000 19999) = Ok false.
Proof.
  split; [|vm_compute; reflexivity].
  destruct (tem_alertas_criticos_sse avisos (db_orcamento 20000 20000))
    as (b & c & Hb & _ & Hsse & _).
  { intros r Hr. vm_compute in Hr. apply list_elem_of_In in Hr as [<-|[]].
    vm_compute. by eexists. }
  rewrite Hb. f_equal. apply Hsse.
  exists (1, Orcamento.mk 1 3 20000 1 2025). split; [|split].
  - apply list_elem_of_In. vm_compute. by left.
  - reflexivity.
  - vm_compute. discriminate.
Defined.

(** What [get_alertas] returns: one alert at most per budget of the month,
    each at one of the three levels and carrying the budget's key. *)
Lemma get_alertas_ok (self : Notifications.BudgetNotificationSystem) (d : DB) :
  (forall r, r ∈ Notifications.orcamentos_de_hoje self d ->
             is_Some (categorias d !! Orcamento.categoria r.2)) ->
  exists alertas,
    Notifications.get_alertas self d = Ok alertas
    /\ Forall (fun a => (Notifications.nivel a = "critico" \/ Notifications.nivel a = "alto"
                         \/ Notifications.nivel a = "medio")
                        /\ exists r, r ∈ Notifications.orcamentos_de_hoje self d
                                     /\ Notifications.orcamento_id a = r.1) alertas.
Proof.
  intros Hint.
  destruct (for_each_Forall2 (Notifications.alerta_de self d)
              (Notifications.orcamentos_de_hoje self d)) as (os & HF & Hos).
  { intros r Hr. destruct (Hint r Hr) as [cat Hcat].
    rewrite (alerta_de_casos self d r cat Hcat). by eexists. }
  exists (omap id os). split; [exact Hos|].
  apply Forall_forall. intros a Ha.
  apply list_elem_of_omap in Ha as (o & Ho & Hoa). cbn in Hoa. subst o.
  apply list_elem_of_lookup in Ho as [i Hi].
  destruct (Forall2_lookup_r _ _ _ _ _ HF Hi) as (r & Hr & Hro).
  apply list_elem_of_lookup_2 in Hr.
  destruct (Hint r Hr) as [cat Hcat].
  rewrite (alerta_de_casos self d r cat Hcat) in Hro. injection Hro as Hro.
  repeat destruct (Qle_bool _ _); try discriminate; injection Hro as <-; cbn; eauto 6.
Qed.

(** X9.  [budget_notifications], which runs for every rendered page, always
    returns.  For a visitor who is not logged in it gives no alert and four
    zero counts, whatever the database holds.  For a user it gives the alerts
    of that user's budgets of the current month only, and counts that agree
    with the list: the total is its length and the sum of the three levels. *)
Theorem budget_notifications_sempre_responde (hoje : Data) (user : option Z) (d : DB) :
  (forall u r, user = Some u ->
     r ∈ Notifications.orcamentos_de_hoje (Notifications.mkSistema u hoje) d ->
     is_Some (categorias d !! Orcamento.categoria r.2)) ->
  exists ctx,
    ContextProcessors.budget_notifications hoje user d = Ok ctx
    /\ (user = None ->
        ctx = ContextProcessors.mkContexto [] (Notifications.mkContagem 0 0 0 0))
    /\ (forall u, user = Some u ->
        Forall (fun a => exists r, orcamentos d !! r.1 = Some r.2
                                   /\ Orcamento.usuario r.2 = u
                                   /\ Orcamento.mes r.2 = mes hoje
                                   /\ Orcamento.ano r.2 = ano hoje
                                   /\ Notifications.orcamento_id a = r.1)
          (ContextProcessors.alertas_orcamento ctx))
    /\ Notifications.total_alertas (ContextProcessors.contagem_alertas ctx)
       = Z.of_nat (length (ContextProcessors.alertas_orcamento ctx))
    /\ Notifications.total_alertas (ContextProcessors.contagem_alertas ctx)
       = Notifications.criticos (ContextProcessors.contagem_alertas ctx)
         + Notifications.altos (ContextProcessors.contagem_alertas ctx)
         + Notifications.medios (ContextProcessors.contagem_alertas ctx).
Proof.
  intros Hint. destruct user as [u|].
  - destruct (get_alertas_ok (Notifications.mkSistema u hoje) d) as (alertas & Hrun & Hall).
    { intros r Hr. by eapply Hint. }
    unfold ContextProcessors.budget_notifications, Notifications.contar_alertas.
    rewrite Hrun. cbn [mbind Res_bind].
    eexists. split; [reflexivity|]. split; [done|].
    cbn [ContextProcessors.alertas_orcamento ContextProcessors.contagem_alertas
         Notifications.total_alertas Notifications.criticos Notifications.altos
         Notifications.medios].
    split; [|split; [done|]].
    + intros ? [= <-]. eapply Forall_impl; [exact Hall|].
      intros a (_ & r & Hr & Hid). exists r.
      apply list_elem_of_In, filter_In in Hr as [Hr Hf].
      apply list_elem_of_In in Hr. unfold linhas in Hr. destruct r as [k orc].
      apply elem_of_map_to_list in Hr.
      apply andb_prop in Hf as [Hf Hano]. apply andb_prop in Hf as [Hu Hmes].
      apply Z.eqb_eq in Hu, Hmes, Hano. done.
    + apply contagem_tres_niveis. eapply Forall_impl; [exact Hall|]. by intros a [? _].
  - eexists. split; [reflexivity|]. by repeat split.
Qed.

Lemma budget_notifications_sempre_responde_witness :
  exists ctx,
    ContextProcessors.budget_notifications hoje (Some 1) (db_orcamento 20000 18000) = Ok ctx
    /\ Notifications.total_alertas (ContextProcessors.contagem_alertas ctx)
       = Z.of_nat (length (ContextProcessors.alertas_orcamento ctx)).
Proof.
  destruct (budget_notifications_sempre_responde hoje (Some 1) (db_orcamento 20000 18000))
    as (ctx & Hrun & _ & _ & Htotal & _).
  { intros u r [= <-] Hr. vm_compute in Hr. apply list_elem_of_In in Hr as [<-|[]].
    vm_compute. by eexists. }
  by exists ctx.
Defined.

(** ** Rounding *)

Lemma Qround2_meio_par (x : Q) : Qround2 x = Qmake (meio_par (x * 100)) 100.
Proof. reflexivity. Qed.

Lemma Qltb_lt (x y : Q) : Qltb x y = true <-> (x < y)%Q.
Proof.
  unfold Qltb. rewrite negb_true_iff. split.
  - intros H. apply Qnot_le_lt. intros Hle. apply Qle_bool_iff in Hle. congruence.
  - intros H. destruct (Qle_bool y x) eqn:E; [|done].
    apply Qle_bool_iff in E. exfalso. by eapply Qlt_not_le.
Qed.

Lemma Qltb_ge (x y : Q) : Qltb x y = false <-> (y <= x)%Q.
Proof.
  unfold Qltb. rewrite negb_false_iff. apply Qle_bool_iff.
Qed.

(** [meio_par y] is the floor of [y] or the next integer, and within a half
    of [y]. *)
Lemma meio_par_casos (y : Q) :
  let f := Qfloor y in
  (meio_par y = f /\ (y - inject_Z f <= 1 # 2)%Q)
  \/ (meio_par y = f + 1 /\ (1 # 2 <= y - inject_Z f)%Q).
Proof.
  intros f. unfold meio_par. fold f.
  destruct (Qltb (y - inject_Z f) (1 # 2)) eqn:E1.
  { left. split; [done|]. apply Qltb_lt in E1. by apply Qlt_le_weak. }
  apply Qltb_ge in E1.
  destruct (Qltb (1 # 2) (y - inject_Z f)) eqn:E2.
  { right. by split. }
  apply Qltb_ge in E2.
  destruct (Z.even f); [left|right]; by split.
Qed.

Lemma meio_par_mono (x y : Q) : (x <= y)%Q -> meio_par x <= meio_par y.
Proof.
  intros Hxy.
  pose proof (Qfloor_resp_le _ _ Hxy) as Hf.
  destruct (Z.eq_dec (Qfloor x) (Qfloor y)) as [Heq|Hne].
  - unfold meio_par. rewrite <- Heq.
    set (f := Qfloor x) in *.
    assert (Hr : (x - inject_Z f <= y - inject_Z f)%Q).
    { apply Qplus_le_l with (z := inject_Z f). ring_simplify. exact Hxy. }
    destruct (Qltb (x - inject_Z f) (1 # 2)) eqn:Ex1.
    { destruct (Qltb (y - inject_Z f) (1 # 2)); [lia|].
      destruct (Qltb (1 # 2) (y - inject_Z f)); [lia|]. destruct (Z.even f); lia. }
    apply Qltb_ge in Ex1.
    assert (Ey1 : Qltb (y - inject_Z f) (1 # 2) = false).
    { apply Qltb_ge. by eapply Qle_trans. }
    rewrite Ey1.
    destruct (Qltb (1 # 2) (x - inject_Z f)) eqn:Ex2.
    { apply Qltb_lt in Ex2.
      assert (Ey2 : Qltb (1 # 2) (y - inject_Z f) = true).
      { apply Qltb_lt. by eapply Qlt_le_trans. }
      rewrite Ey2. lia. }
    destruct (Qltb (1 # 2) (y - inject_Z f)); [|lia]. destruct (Z.even f); lia.
  - destruct (meio_par_casos x) as [[-> _]|[-> _]], (meio_par_casos y) as [[-> _]|[-> _]]; lia.
Qed.

Lemma meio_par_inteiro (y : Q) (n : Z) : (y == inject_Z n)%Q -> meio_par y = n.
Proof.
  intros Hy. unfold meio_par.
  assert (Hf : Qfloor y = n) by (rewrite Hy; apply Qfloor_Z).
  rewrite Hf.
  assert (Hr : Qltb (y - inject_Z n) (1 # 2) = true).
  { apply Qltb_lt. rewrite Hy. by ring_simplify. }
  by rewrite Hr.
Qed.

(** Rounding to one place and to two places: monotone, and exact on values
    that have no more places. *)
Lemma Qround1_mono (x y : Q) : (x <= y)%Q -> (Qround1 x <= Qround1 y)%Q.
Proof.
  intros H. unfold Qround1, Qle. cbn.
  assert (meio_par (x * 10) <= meio_par (y * 10)); [|lia].
  apply meio_par_mono. apply Qmult_le_compat_r; [exact H | done].
Qed.

Lemma Qround2_mono (x y : Q) : (x <= y)%Q -> (Qround2 x <= Qround2 y)%Q.
Proof.
  intros H. rewrite !Qround2_meio_par. unfold Qle. cbn.
  assert (meio_par (x * 100) <= meio_par (y * 100)); [|lia].
  apply meio_par_mono. apply Qmult_le_compat_r; [exact H | done].
Qed.

Lemma Qround1_inteiro (x : Q) (n : Z) : (x == inject_Z n)%Q -> (Qround1 x == inject_Z n)%Q.
Proof.
  intros H. unfold Qround1.
  rewrite (meio_par_inteiro (x * 10) (n * 10)).
  - unfold Qeq, inject_Z. cbn. lia.
  - rewrite H. unfold Qeq, inject_Z, Qmult. cbn. lia.
Qed.

Lemma Qround2_inteiro (x : Q) (n : Z) : (x == inject_Z n)%Q -> (Qround2 x == inject_Z n)%Q.
Proof.
  intros H. rewrite Qround2_meio_par.
  rewrite (meio_par_inteiro (x * 100) (n * 100)).
  - unfold Qeq, inject_Z. cbn. lia.
  - rewrite H. unfold Qeq, inject_Z, Qmult. cbn. lia.
Qed.

(** ** The months of the dashboard chart *)

Lemma meses_para_tras_ok (n : nat) (a m : Z) (acc : list (Z * Z)) :
  1 <= m <= 12 ->
  exists l,
    Dashboard.meses_para_tras n a m acc = (acc ++ l)%list
    /\ length l = n
    /\ forall (j : nat) a' m',
         l !! j = Some (a', m') ->
         1 <= m' <= 12 /\ 12 * a' + (m' - 1) = 12 * a + (m - 1) - Z.of_nat j.
Proof.
  revert a m acc. induction n as [|n IH]; intros a m acc Hm.
  - exists []. split; [by rewrite app_nil_r|]. split; [done|]. intros j a' m' H. done.
  - cbn [Dashboard.meses_para_tras].
    destruct (m - 1 =? 0) eqn:E.
    + apply Z.eqb_eq in E.
      destruct (IH (a - 1) 12 (acc ++ [(a, m)])%list ltac:(lia)) as (l & Hl & Hlen & Hidx).
      exists ((a, m) :: l). split; [by rewrite Hl, <- app_assoc|]. split; [cbn; lia|].
      intros [|j] a' m' Hj.
      * cbn in Hj. injection Hj as <- <-. lia.
      * cbn in Hj. destruct (Hidx j a' m' Hj). lia.
    + apply Z.eqb_neq in E.
      destruct (IH a (m - 1) (acc ++ [(a, m)])%list ltac:(lia)) as (l & Hl & Hlen & Hidx).
      exists ((a, m) :: l). split; [by rewrite Hl, <- app_assoc|]. split; [cbn; lia|].
      intros [|j] a' m' Hj.
      * cbn in Hj. injection Hj as <- <-. lia.
      * cbn in Hj. destruct (Hidx j a' m' Hj). lia.
Qed.

(** X10.  [gerar_sequencia_meses] returns [quantidade] consecutive calendar
    months, oldest first, ending with the month of the reference date: every
    entry is a (year, month) pair with a month from 1 to 12, and the entry at
    position i lies [quantidade - 1 - i] months before the reference month,
    the year changing between December and January. *)
Theorem gerar_sequencia_meses_consecutivos (referencia : Data) (quantidade : nat) :
  1 <= mes referencia <= 12 ->
  let meses := Dashboard.gerar_sequencia_meses referencia quantidade in
  length meses = quantidade
  /\ (forall (i : nat) a m,
        meses !! i = Some (a, m) ->
        1 <= m <= 12
        /\ 12 * a + (m - 1)
           = 12 * ano referencia + (mes referencia - 1)
             - (Z.of_nat quantidade - 1 - Z.of_nat i))
  /\ ((0 < quantidade)%nat -> last meses = Some (ano referencia, mes referencia)).
Proof.
  intros Hm meses. subst meses. unfold Dashboard.gerar_sequencia_meses.
  destruct (meses_para_tras_ok quantidade (ano referencia) (mes referencia) [] Hm)
    as (l & Hl & Hlen & Hidx).
  rewrite Hl, app_nil_l. split; [by rewrite length_reverse|]. split.
  - intros i a m Hi.
    assert (Hlt : (i < length l)%nat).
    { apply lookup_lt_Some in Hi. by rewrite length_reverse in Hi. }
    rewrite reverse_lookup in Hi by done.
    destruct (Hidx _ _ _ Hi) as [H1 H2]. split; [done|]. lia.
  - intros Hq. rewrite last_reverse. destruct l as [|[a m] l]; [cbn in Hlen; lia|].
    cbn. destruct (Hidx 0%nat a m eq_refl) as [H1 H2].
    f_equal. f_equal; lia.
Qed.

Lemma gerar_sequencia_meses_consecutivos_witness :
  Dashboard.gerar_sequencia_meses (mkData 2025 3 17) 6
  = [(2024, 10); (2024, 11); (2024, 12); (2025, 1); (2025, 2); (2025, 3)]
  /\ last (Dashboard.gerar_sequencia_meses (mkData 2025 3 17) 6) = Some (2025, 3).
Proof.
  split; [vm_compute; reflexivity|].
  apply (gerar_sequencia_meses_consecutivos (mkData 2025 3 17) 6); [cbn; lia | lia].
Defined.

(** ** Percentages of a limit or of a target *)

Lemma centavos_le (a b : Z) : a <= b -> (centavos a <= centavos b)%Q.
Proof. intros H. unfold centavos, Qle. cbn. lia. Qed.

Lemma centavos_pos (l : Z) : 0 < l -> (0 < centavos l)%Q.
Proof. intros H. unfold centavos, Qlt. cbn. lia. Qed.

(** The exact percentage [a / l * 100] grows with [a]. *)
Lemma percentual_mono (a b l : Z) :
  0 < l -> a <= b ->
  (centavos a / centavos l * 100 <= centavos b / centavos l * 100)%Q.
Proof.
  intros Hl Hab. apply Qmult_le_compat_r; [|done].
  unfold Qdiv. apply Qmult_le_compat_r; [by apply centavos_le|].
  apply Qinv_le_0_compat, Qlt_le_weak. by apply centavos_pos.
Qed.

Lemma percentual_zero (l : Z) : (centavos 0 / centavos l * 100 == inject_Z 0)%Q.
Proof. unfold centavos, Qdiv, Qmult, Qeq. cbn. lia. Qed.

Lemma dec_div_centavos (a l : Z) :
  0 < l -> dec_div (centavos a) (centavos l) = Ok (centavos a / centavos l)%Q.
Proof.
  intros Hl. unfold dec_div.
  destruct (Qeq_bool (centavos l) 0) eqn:E; [|done].
  apply Qeq_bool_eq in E. unfold Qeq, centavos in E. cbn in E. lia.
Qed.

(** X11.  [Meta.percentual_completo], which the API returns as it is, never
    divides by zero: a target that is not positive gives 0.  Otherwise it is
    the ratio in percent rounded to one place; it lies between 0 and 100
    while the saved amount lies between 0 and the target, it is 100 when the
    target is met exactly, and at least 100 when it is exceeded. *)
Theorem meta_percentual_completo_limites (self : Meta.t) :
  let alvo := Meta.valor_alvo self in
  let atual := Meta.valor_atual self in
  exists p,
    Meta.percentual_completo self = Ok p
    /\ Serializers.get_percentual_completo self = Ok p
    /\ (alvo <= 0 -> p = 0%Q)
    /\ (0 < alvo -> p = Qround1 (centavos atual / centavos alvo * 100))
    /\ (0 < alvo -> 0 <= atual <= alvo -> (0 <= p)%Q /\ (p <= 100)%Q)
    /\ (0 < alvo -> atual = alvo -> (p == 100)%Q)
    /\ (0 < alvo -> alvo <= atual -> (100 <= p)%Q).
Proof.
  intros alvo atual.
  unfold Serializers.get_percentual_completo, Meta.percentual_completo. fold alvo atual.
  destruct (0 <? alvo) eqn:E.
  - apply Z.ltb_lt in E. rewrite (dec_div_centavos _ _ E). cbn [mbind Res_bind].
    eexists. split; [reflexivity|]. split; [reflexivity|].
    assert (H100 : (Qround1 (centavos alvo / centavos alvo * 100) == 100)%Q).
    { apply (Qround1_inteiro _ 100). by apply percentual_cem. }
    assert (H0 : (Qround1 (centavos 0 / centavos alvo * 100) == 0)%Q).
    { apply (Qround1_inteiro _ 0). apply percentual_zero. }
    split; [lia|]. split; [done|]. split; [|split].
    + intros _ [Hge Hle]. split.
      * eapply Qle_trans; [|apply Qround1_mono, (percentual_mono 0); [done|exact Hge]].
        rewrite H0. apply Qle_refl.
      * eapply Qle_trans; [apply Qround1_mono, (percentual_mono _ alvo); [done|exact Hle]|].
        rewrite H100. apply Qle_refl.
    + intros _ ->. exact H100.
    + intros _ Hle.
      eapply Qle_trans; [|apply Qround1_mono, (percentual_mono alvo); [done|exact Hle]].
      rewrite H100. apply Qle_refl.
  - apply Z.ltb_ge in E. exists 0%Q. repeat split; try done; lia.
Qed.

(** ** The budget serializer *)

Lemma get_valor_gasto_falta (obj : Z * Orcamento.t) (d : DB)
    (context : Serializers.Contexto) :
  default ∅ context !! obj.1 = None ->
  let gasto := total (map (fun t : Z * Transacao.t => Transacao.valor t.2)
                        (Serializers.despesas_do_orcamento obj.2 d)) in
  Serializers.get_valor_gasto obj d context
  = (gasto, Some (<[obj.1 := gasto]> (default ∅ context))).
Proof.
  intros Hmiss gasto. unfold Serializers.get_valor_gasto.
  by rewrite Hmiss, ou_zero_Sum.
Qed.

Lemma get_valor_gasto_acerto (obj : Z * Orcamento.t) (d : DB) (cache : gmap Z Z) (v : Z) :
  cache !! obj.1 = Some v ->
  Serializers.get_valor_gasto obj d (Some cache) = (v, Some cache).
Proof.
  intros Hv. unfold Serializers.get_valor_gasto.
  change (default ∅ (Some cache)) with cache. by rewrite Hv.
Qed.

Lemma OrcamentoSerializer_data_run (obj : Z * Orcamento.t) (d : DB)
    (context : Serializers.Contexto) :
  default ∅ context !! obj.1 = None ->
  let limite := Orcamento.limite obj.2 in
  let gasto := total (map (fun t : Z * Transacao.t => Transacao.valor t.2)
                        (Serializers.despesas_do_orcamento obj.2 d)) in
  Serializers.OrcamentoSerializer_data obj d context
  = (Ok (Serializers.mkOrcamentoData gasto (limite - gasto)
           (if limite <=? 0 then 0%Q
            else Qround2 (centavos gasto / centavos limite * 100))),
     Some (<[obj.1 := gasto]> (default ∅ context))).
Proof.
  intros Hmiss limite gasto.
  unfold Serializers.OrcamentoSerializer_data, Serializers.get_valor_disponivel,
    Serializers.get_percentual_utilizado.
  rewrite (get_valor_gasto_falta obj d context Hmiss). fold gasto.
  rewrite !(get_valor_gasto_acerto obj d _ gasto) by apply lookup_insert_eq.
  fold limite. destruct (limite <=? 0) eqn:E; [reflexivity|].
  apply Z.leb_gt in E. by rewrite (dec_div_centavos _ _ E).
Qed.

(** X12.  [OrcamentoSerializer.get_valor_gasto] computes a budget's spent
    amount once per serializer context.  A miss runs the query and stores its
    total under the budget's key, touching no other entry; from then on every
    call in that context returns the stored amount and leaves the context as
    it is, whatever has happened to the transactions in between. *)
Theorem get_valor_gasto_cache (obj : Z * Orcamento.t) (d d' : DB)
    (context : Serializers.Contexto) :
  let r := Serializers.get_valor_gasto obj d context in
  (forall v, default ∅ context !! obj.1 = Some v -> r.1 = v)
  /\ (default ∅ context !! obj.1 = None ->
      r.1 = total (map (fun t : Z * Transacao.t => Transacao.valor t.2)
                     (Serializers.despesas_do_orcamento obj.2 d)))
  /\ default ∅ r.2 !! obj.1 = Some r.1
  /\ (forall k, k <> obj.1 -> default ∅ r.2 !! k = default ∅ context !! k)
  /\ Serializers.get_valor_gasto obj d' r.2 = r.
Proof.
  intros r. subst r. unfold Serializers.get_valor_gasto.
  set (cache := default ∅ context).
  destruct (cache !! obj.1) as [v|] eqn:E; cbn [fst snd].
  - change (default ∅ (Some cache)) with cache. rewrite E.
    repeat split; try done. by intros ? [= ->].
  - change (default ∅ (Some (<[obj.1 := ?x]> cache))) with (<[obj.1 := x]> cache).
    rewrite ou_zero_Sum, lookup_insert_eq. repeat split; try done.
    intros k Hk. by rewrite lookup_insert_ne.
Qed.

(** X13.  The computed fields of a budget's representation are consistent,
    and computing them never fails: with a context that holds no amount for
    the budget, [valor_gasto] is the total of the owner's expenses in the
    budget's category, month and year, [valor_disponivel] is the limit minus
    it, and [percentual_utilizado] is 0 for a limit that is not positive and
    otherwise the ratio in percent rounded to two places - at least 100 once
    the limit is reached, between 0 and 100 before. *)
Theorem orcamento_serializer_data_ok (obj : Z * Orcamento.t) (d : DB)
    (context : Serializers.Contexto) :
  default ∅ context !! obj.1 = None ->
  let limite := Orcamento.limite obj.2 in
  let gasto := total (map (fun t : Z * Transacao.t => Transacao.valor t.2)
                        (Serializers.despesas_do_orcamento obj.2 d)) in
  exists data,
    Serializers.OrcamentoSerializer_data obj d context
    = (Ok data, Some (<[obj.1 := gasto]> (default ∅ context)))
    /\ Serializers.valor_gasto data = gasto
    /\ Serializers.valor_disponivel data = limite - gasto
    /\ (limite <= 0 -> Serializers.percentual_utilizado data = 0%Q)
    /\ (0 < limite ->
        Serializers.percentual_utilizado data
        = Qround2 (centavos gasto / centavos limite * 100))
    /\ (0 < limite -> limite <= gasto -> (100 <= Serializers.percentual_utilizado data)%Q)
    /\ (0 < limite -> 0 <= gasto <= limite ->
        (0 <= Serializers.percentual_utilizado data)%Q
        /\ (Serializers.percentual_utilizado data <= 100)%Q).
Proof.
  intros Hmiss limite gasto.
  rewrite (OrcamentoSerializer_data_run obj d context Hmiss). fold limite gasto.
  eexists. split; [reflexivity|].
  cbn [Serializers.valor_gasto Serializers.valor_disponivel Serializers.percentual_utilizado].
  split; [done|]. split; [done|].
  destruct (limite <=? 0) eqn:E.
  - apply Z.leb_le in E. repeat split; try done; lia.
  - apply Z.leb_gt in E.
    assert (H100 : (Qround2 (centavos limite / centavos limite * 100) == 100)%Q).
    { apply (Qround2_inteiro _ 100). by apply percentual_cem. }
    assert (H0 : (Qround2 (centavos 0 / centavos limite * 100) == 0)%Q).
    { apply (Qround2_inteiro _ 0). apply percentual_zero. }
    split; [lia|]. split; [done|]. split.
    + intros _ Hle.
      eapply Qle_trans; [|apply Qround2_mono, (percentual_mono limite); [done|exact Hle]].
      rewrite H100. apply Qle_refl.
    + intros _ [Hge Hle]. split.
      * eapply Qle_trans; [|apply Qround2_mono, (percentual_mono 0); [done|exact Hge]].
        rewrite H0. apply Qle_refl.
      * eapply Qle_trans; [apply Qround2_mono, (percentual_mono _ limite); [done|exact Hle]|].
        rewrite H100. apply Qle_refl.
Qed.

Lemma orcamento_serializer_data_ok_witness :
  Serializers.OrcamentoSerializer_data (1, Orcamento.mk 1 3 20000 1 2025) db_alimentacao None
  = (Ok (Serializers.mkOrcamentoData 21000 (-1000) (Qmake 10500 100)), Some {[ 1 := 21000 ]}).
Proof.
  destruct (orcamento_serializer_data_ok (1, Orcamento.mk 1 3 20000 1 2025) db_alimentacao None
              eq_refl) as (data & Hrun & Hg & Hd & _ & Hp & _).
  rewrite Hrun. destruct data as [g disp p]. cbn in Hg, Hd, Hp.
  rewrite Hg, Hd, (Hp eq_refl). vm_compute. reflexivity.
Defined.

(** ** One budget, three displays *)

Lemma orcamentos_de_hoje_elem (self : Notifications.BudgetNotificationSystem) (d : DB)
    (r : Z * Orcamento.t) :
  r ∈ Notifications.orcamentos_de_hoje self d ->
  orcamentos d !! r.1 = Some r.2
  /\ Orcamento.usuario r.2 = Notifications.usuario self
  /\ Orcamento.mes r.2 = mes (Notifications.hoje self)
  /\ Orcamento.ano r.2 = ano (Notifications.hoje self).
Proof.
  intros Hr. apply list_elem_of_In, filter_In in Hr as [Hr Hf].
  apply list_elem_of_In in Hr. unfold linhas in Hr. destruct r as [k orc].
  apply elem_of_map_to_list in Hr.
  apply andb_prop in Hf as [Hf Hano]. apply andb_prop in Hf as [Hu Hmes].
  apply Z.eqb_eq in Hu, Hmes, Hano. done.
Qed.

(** X14.  The alert system, the dashboard and the API's serializer look at a
    budget of the current month through the same spent amount, and their
    percentages are one exact ratio p shown three ways: the alerts decide on
    p itself, the dashboard shows p rounded to one place and the API p
    rounded to two.  Hence a budget that raises a critical alert (p >= 100)
    is never shown below 100 percent, and one at or below the first alert
    level (p <= 75) is never shown above 75. *)
Theorem percentuais_coerentes (self : Notifications.BudgetNotificationSystem) (d : DB)
    (r : Z * Orcamento.t) :
  r ∈ Notifications.orcamentos_de_hoje self d ->
  let gasto := Notifications._calcular_gasto self r.2 d in
  exists (p : Q) (a : Dashboard.OrcamentoAnotado) (data : Serializers.OrcamentoData)
         (ctx : Serializers.Contexto),
    Notifications.percentual_do_orcamento gasto (Orcamento.limite r.2) = Ok p
    /\ Dashboard.anotar (Notifications.usuario self) (Notifications.hoje self) d r = Ok (Some a)
    /\ Serializers.OrcamentoSerializer_data r d None = (Ok data, ctx)
    /\ Dashboard.gasto a = gasto
    /\ Serializers.valor_gasto data = gasto
    /\ Dashboard.disponivel a = Orcamento.limite r.2 - gasto
    /\ Serializers.valor_disponivel data = Orcamento.limite r.2 - gasto
    /\ (Dashboard.percentual a == Qround1 p)%Q
    /\ (Serializers.percentual_utilizado data == Qround2 p)%Q
    /\ ((100 <= p)%Q ->
        (100 <= Dashboard.percentual a)%Q
        /\ (100 <= Serializers.percentual_utilizado data)%Q)
    /\ ((p <= 75)%Q ->
        (Dashboard.percentual a <= 75)%Q
        /\ (Serializers.percentual_utilizado data <= 75)%Q).
Proof.
  intros Hr gasto.
  destruct (orcamentos_de_hoje_elem self d r Hr) as (_ & Hu & Hmes & Hano).
  assert (Hg1 : Dashboard.gasto_no_mes (Notifications.usuario self) (Orcamento.categoria r.2)
                  (Notifications.hoje self) d = gasto).
  { subst gasto. unfold Dashboard.gasto_no_mes, Notifications._calcular_gasto.
    by rewrite Hmes, Hano. }
  assert (Hg2 : total (map (fun t : Z * Transacao.t => Transacao.valor t.2)
                         (Serializers.despesas_do_orcamento r.2 d)) = gasto).
  { subst gasto. unfold Serializers.despesas_do_orcamento, Notifications._calcular_gasto.
    by rewrite ou_zero_Sum, Hu. }
  pose proof (OrcamentoSerializer_data_run r d None eq_refl) as Hdata.
  cbv zeta in Hdata. rewrite Hg2 in Hdata.
  rewrite percentual_do_orcamento_ok.
  unfold Dashboard.anotar. rewrite Hg1.
  assert (Hcem : (Qround1 100 == 100)%Q /\ (Qround2 100 == 100)%Q).
  { split; [by apply (Qround1_inteiro _ 100) | by apply (Qround2_inteiro _ 100)]. }
  assert (H75 : (Qround1 75 == 75)%Q /\ (Qround2 75 == 75)%Q).
  { split; [by apply (Qround1_inteiro _ 75) | by apply (Qround2_inteiro _ 75)]. }
  assert (Hfim : forall p x y : Q,
            (x == Qround1 p)%Q -> (y == Qround2 p)%Q ->
            ((100 <= p)%Q -> (100 <= x)%Q /\ (100 <= y)%Q)
            /\ ((p <= 75)%Q -> (x <= 75)%Q /\ (y <= 75)%Q)).
  { intros p x y Hx Hy. split; intros Hle; rewrite Hx, Hy.
    - split.
      + rewrite <- (proj1 Hcem). by apply Qround1_mono.
      + rewrite <- (proj2 Hcem). by apply Qround2_mono.
    - split.
      + rewrite <- (proj1 H75). by apply Qround1_mono.
      + rewrite <- (proj2 H75). by apply Qround2_mono. }
  destruct (0 <? Orcamento.limite r.2) eqn:E.
  - apply Z.ltb_lt in E. rewrite (dec_div_centavos _ _ E). cbn [mbind Res_bind].
    rewrite (proj2 (Z.leb_gt _ _) E) in Hdata.
    eexists _, _, _, _. split; [reflexivity|]. split; [reflexivity|].
    split; [exact Hdata|].
    cbn [Dashboard.gasto Dashboard.disponivel Dashboard.percentual
         Serializers.valor_gasto Serializers.valor_disponivel
         Serializers.percentual_utilizado].
    split; [done|]. split; [done|]. split; [done|]. split; [done|].
    split; [reflexivity|]. split; [reflexivity|].
    apply Hfim; reflexivity.
  - apply Z.ltb_ge in E. cbn [mbind Res_bind].
    rewrite (proj2 (Z.leb_le _ _) E) in Hdata.
    eexists _, _, _, _. split; [reflexivity|]. split; [reflexivity|].
    split; [exact Hdata|].
    cbn [Dashboard.gasto Dashboard.disponivel Dashboard.percentual
         Serializers.valor_gasto Serializers.valor_disponivel
         Serializers.percentual_utilizado].
    assert (Hz1 : (0 == Qround1 0)%Q) by (symmetry; by apply (Qround1_inteiro _ 0)).
    assert (Hz2 : (0 == Qround2 0)%Q) by (symmetry; by apply (Qround2_inteiro _ 0)).
    split; [done|]. split; [done|]. split; [done|]. split; [done|].
    split; [exact Hz1|]. split; [exact Hz2|].
    by apply Hfim.
Qed.

Lemma percentuais_coerentes_witness :
  exists a data ctx,
    Dashboard.anotar 1 hoje db_alimentacao (1, Orcamento.mk 1 3 20000 1 2025) = Ok (Some a)
    /\ Serializers.OrcamentoSerializer_data (1, Orcamento.mk 1 3 20000 1 2025) db_alimentacao None
       = (Ok data, ctx)
    /\ (100 <= Dashboard.percentual a)%Q
    /\ (100 <= Serializers.percentual_utilizado data)%Q.
Proof.
  destruct (percentuais_coerentes avisos db_alimentacao (1, Orcamento.mk 1 3 20000 1 2025))
    as (p & a & data & ctx & Hp & Ha & Hdata & _ & _ & _ & _ & _ & _ & Hcem & _).
  { apply list_elem_of_In. vm_compute. by left. }
  exists a, data, ctx. split; [exact Ha|]. split; [exact Hdata|].
  apply Hcem. vm_compute in Hp. injection Hp as <-. vm_compute. discriminate.
Defined.

(** ** Subscription plans *)

Lemma incrementar_self (e : UserProfile.Estado) :
  UserProfile.self (UserProfile.incrementar_transacoes e)
  = UserProfile.set_transacoes_mes_atual
      (UserProfile.transacoes_mes_atual (UserProfile.self e) + 1) (UserProfile.self e).
Proof. reflexivity. Qed.

Lemma incrementar_linha (e : UserProfile.Estado) :
  UserProfile.linha (UserProfile.incrementar_transacoes e)
  = UserProfile.set_transacoes_mes_atual
      (UserProfile.transacoes_mes_atual (UserProfile.self e) + 1) (UserProfile.linha e).
Proof. reflexivity. Qed.

Lemma iter_incrementar (e : UserProfile.Estado) (n : nat) :
  UserProfile.self (Nat.iter n UserProfile.incrementar_transacoes e)
  = UserProfile.set_transacoes_mes_atual
      (UserProfile.transacoes_mes_atual (UserProfile.self e) + Z.of_nat n) (UserProfile.self e)
  /\ ((0 < n)%nat ->
      UserProfile.linha (Nat.iter n UserProfile.incrementar_transacoes e)
      = UserProfile.set_transacoes_mes_atual
          (UserProfile.transacoes_mes_atual (UserProfile.self e) + Z.of_nat n)
          (UserProfile.linha e)).
Proof.
  induction n as [|n [IHs IHl]].
  - split; [|lia]. destruct e as [[] ?]. cbn. unfold UserProfile.set_transacoes_mes_atual.
    cbn. f_equal. lia.
  - change (Nat.iter (S n) UserProfile.incrementar_transacoes e)
      with (UserProfile.incrementar_transacoes
              (Nat.iter n UserProfile.incrementar_transacoes e)).
    rewrite incrementar_self, incrementar_linha, IHs. split.
    + unfold UserProfile.set_transacoes_mes_atual. cbn. f_equal. lia.
    + intros _. destruct n as [|n].
      * cbn. unfold UserProfile.set_transacoes_mes_atual. cbn. f_equal. lia.
      * rewrite IHl by lia. unfold UserProfile.set_transacoes_mes_atual. cbn. f_equal. lia.
Qed.

(** X15.  The monthly quota.  For a profile that is not on the enterprise
    plan and whose reference month is the current one, after n calls of
    [incrementar_transacoes] the counter - in memory and in its row - is n
    higher, and [pode_criar_transacao] answers whether the counter is still
    below [limite_transacoes], without changing anything: a profile at 0 with
    the free plan's limit of 50 may create exactly 50 transactions. *)
Theorem cota_mensal_de_transacoes (hoje : Data) (e : UserProfile.Estado) (n : nat) :
  UserProfile.plano (UserProfile.self e) <> "enterprise" ->
  UserProfile.mes_referencia (UserProfile.self e) = mes hoje ->
  UserProfile.ano_referencia (UserProfile.self e) = ano hoje ->
  let contador := UserProfile.transacoes_mes_atual (UserProfile.self e) in
  let e' := Nat.iter n UserProfile.incrementar_transacoes e in
  UserProfile.pode_criar_transacao hoje e'
  = (contador + Z.of_nat n <? UserProfile.limite_transacoes (UserProfile.self e), e')
  /\ UserProfile.transacoes_mes_atual (UserProfile.self e') = contador + Z.of_nat n
  /\ ((0 < n)%nat ->
      UserProfile.linha e'
      = UserProfile.set_transacoes_mes_atual (contador + Z.of_nat n) (UserProfile.linha e)).
Proof.
  intros Hplano Hmes Hano contador e'.
  destruct (iter_incrementar e n) as [Hs Hl]. fold e' contador in Hs, Hl.
  split; [|split; [by rewrite Hs|exact Hl]].
  unfold UserProfile.pode_criar_transacao. rewrite Hs.
  cbn [UserProfile.set_transacoes_mes_atual UserProfile.plano UserProfile.mes_referencia
       UserProfile.ano_referencia UserProfile.transacoes_mes_atual
       UserProfile.limite_transacoes].
  apply String.eqb_neq in Hplano. rewrite Hplano, Hmes, Hano, !Z.eqb_refl. cbn [negb orb].
  rewrite Hs. reflexivity.
Qed.

Lemma cota_mensal_de_transacoes_witness :
  let e := UserProfile.mkEstado (UserProfile.set_ano_referencia 2025 (UserProfile.novo_perfil 1))
             (UserProfile.set_ano_referencia 2025 (UserProfile.novo_perfil 1)) in
  (UserProfile.pode_criar_transacao hoje (Nat.iter 49 UserProfile.incrementar_transacoes e)).1
  = true
  /\ (UserProfile.pode_criar_transacao hoje (Nat.iter 50 UserProfile.incrementar_transacoes e)).1
     = false.
Proof.
  intros e. split.
  - rewrite (proj1 (cota_mensal_de_transacoes hoje e 49 ltac:(discriminate) eq_refl eq_refl)).
    reflexivity.
  - rewrite (proj1 (cota_mensal_de_transacoes hoje e 50 ltac:(discriminate) eq_refl eq_refl)).
    reflexivity.
Defined.

(** X16.  The first [pode_criar_transacao] of a new month, on a profile that
    is not on the enterprise plan: the counter restarts at 0 and the
    reference becomes the current month, in memory and in the row; the row's
    other columns are not written; the answer is whether the limit is
    positive; and a second call changes nothing and answers the same. *)
Theorem virada_do_mes (hoje : Data) (e : UserProfile.Estado) :
  UserProfile.plano (UserProfile.self e) <> "enterprise" ->
  UserProfile.mes_referencia (UserProfile.self e) <> mes hoje
  \/ UserProfile.ano_referencia (UserProfile.self e) <> ano hoje ->
  let r := UserProfile.pode_criar_transacao hoje e in
  r.1 = (0 <? UserProfile.limite_transacoes (UserProfile.self e))
  /\ UserProfile.self r.2
     = UserProfile.set_ano_referencia (ano hoje)
         (UserProfile.set_mes_referencia (mes hoje)
            (UserProfile.set_transacoes_mes_atual 0 (UserProfile.self e)))
  /\ UserProfile.linha r.2
     = UserProfile.set_ano_referencia (ano hoje)
         (UserProfile.set_mes_referencia (mes hoje)
            (UserProfile.set_transacoes_mes_atual 0 (UserProfile.linha e)))
  /\ UserProfile.pode_criar_transacao hoje r.2 = r.
Proof.
  intros Hplano Hvirou r. subst r. unfold UserProfile.pode_criar_transacao.
  apply String.eqb_neq in Hplano. rewrite Hplano.
  assert (Hcond : negb (UserProfile.mes_referencia (UserProfile.self e) =? mes hoje)
                  || negb (UserProfile.ano_referencia (UserProfile.self e) =? ano hoje) = true).
  { destruct Hvirou as [H|H]; apply Z.eqb_neq in H; rewrite H; cbn; [done|].
    by rewrite orb_true_r. }
  rewrite Hcond.
  cbn [fst snd UserProfile.self UserProfile.linha UserProfile.set_ano_referencia
       UserProfile.set_mes_referencia UserProfile.set_transacoes_mes_atual
       UserProfile.plano UserProfile.mes_referencia UserProfile.ano_referencia
       UserProfile.transacoes_mes_atual UserProfile.limite_transacoes].
  rewrite Hplano, !Z.eqb_refl. cbn [negb orb]. done.
Qed.

Lemma virada_do_mes_witness :
  let e := UserProfile.mkEstado
             (UserProfile.set_transacoes_mes_atual 50 (UserProfile.novo_perfil 1))
             (UserProfile.set_transacoes_mes_atual 50 (UserProfile.novo_perfil 1)) in
  (UserProfile.pode_criar_transacao (mkData 2025 2 1) e).1 = true
  /\ UserProfile.transacoes_mes_atual
       (UserProfile.linha (UserProfile.pode_criar_transacao (mkData 2025 2 1) e).2) = 0.
Proof.
  intros e.
  destruct (virada_do_mes (mkData 2025 2 1) e ltac:(discriminate)
              ltac:(left; discriminate)) as (Hr & _ & Hl & _).
  split; [by rewrite Hr | by rewrite Hl].
Defined.

Lemma limites_validos (plano : string) :
  plano ∈ ["free"; "pro"; "enterprise"] <-> is_Some (UserProfile.limites plano).
Proof.
  unfold UserProfile.limites. split.
  - intros H. apply elem_of_cons in H as [H|H]; [subst; cbn; by eexists|].
    apply elem_of_cons in H as [H|H]; [subst; cbn; by eexists|].
    apply elem_of_cons in H as [H|H]; [subst; cbn; by eexists|].
    by apply elem_of_nil in H.
  - intros H.
    destruct (String.eqb_spec plano "free") as [E|_]; [subst; set_solver|].
    destruct (String.eqb_spec plano "pro") as [E|_]; [subst; set_solver|].
    destruct (String.eqb_spec plano "enterprise") as [E|_]; [subst; set_solver|].
    by destruct H.
Qed.

(** X17.  [upgrade_plano].  For one of the three plans it sets the plan and
    the plan's two limits - 50 and 3, 1000 and 20, or -1 and -1 - and saves:
    the row then equals the object.  For any other name it raises [KeyError]
    after the name has been assigned: the object carries the unknown plan,
    the row is untouched.  On the enterprise plan the limits of -1 are never
    compared: both checks answer True, whatever the counters, and change
    nothing. *)
Theorem upgrade_plano_limites (novo_plano : string) (e : UserProfile.Estado) :
  let r := UserProfile.upgrade_plano novo_plano e in
  (forall t o, UserProfile.limites novo_plano = Some (t, o) ->
     r.1 = UserProfile.Retorna
     /\ UserProfile.self r.2
        = UserProfile.set_limite_orcamentos o
            (UserProfile.set_limite_transacoes t
               (UserProfile.set_plano novo_plano (UserProfile.self e)))
     /\ UserProfile.linha r.2 = UserProfile.self r.2)
  /\ (novo_plano ∉ ["free"; "pro"; "enterprise"] ->
      r.1 = UserProfile.KeyError
      /\ UserProfile.self r.2 = UserProfile.set_plano novo_plano (UserProfile.self e)
      /\ UserProfile.linha r.2 = UserProfile.linha e)
  /\ (novo_plano = "enterprise" ->
      UserProfile.limite_transacoes (UserProfile.self r.2) = -1
      /\ UserProfile.limite_orcamentos (UserProfile.self r.2) = -1
      /\ forall n hoje d,
           let e' := Nat.iter n UserProfile.incrementar_transacoes r.2 in
           UserProfile.pode_criar_transacao hoje e' = (true, e')
           /\ UserProfile.pode_criar_orcamento d e' = true).
Proof.
  intros r. subst r. unfold UserProfile.upgrade_plano. split; [|split].
  - intros t o ->. done.
  - intros Hnao. destruct (UserProfile.limites novo_plano) as [[t o]|] eqn:E; [|done].
    destruct Hnao. apply limites_validos. by rewrite E.
  - intros ->. cbn. split; [done|]. split; [done|]. intros n hoje d.
    set (e0 := UserProfile.mkEstado _ _).
    destruct (iter_incrementar e0 n) as [Hs _].
    unfold UserProfile.pode_criar_transacao, UserProfile.pode_criar_orcamento.
    rewrite Hs. done.
Qed.


(** *** The API's update that changes the account *)

Lemma movido_em_dia d0 d d' :
  chaves_emitidas d -> razao_em_dia d0 d -> movido d d' ->
  chaves_emitidas d' /\ razao_em_dia d0 d'.
Proof.
  intros Hch Hinv (id & t & t' & velha & nova & Ht & Hne & Hvelha & Hnova & ->). split.
  - intros j. cbn [transacoes transacao_seq]. intros [x Hx].
    apply lookup_insert_Some in Hx as [[<- _]|[_ Hx]]; apply Hch; eauto.
  - set (dm := mkDB (<[Transacao.conta t
                       := Conta.set_saldo (Conta.saldo velha - valor_assinado t) velha]>
                       (contas d))
                 (categorias d) (delete id (transacoes d)) (orcamentos d) (transacao_seq d)).
    assert (Hm : razao_em_dia d0 dm).
    { eapply (razao_em_dia_passo d0 d dm _ velha (- valor_assinado t));
        [exact Hinv | exact Hvelha | reflexivity |].
      intros j. rewrite !soma_assinada_soma. subst dm. cbn [transacoes].
      rewrite (soma_filtrada_delete _ _ _ _ _ Ht). cbn [snd].
      destruct (Transacao.conta t =? j); lia. }
    eapply (razao_em_dia_passo d0 dm _ (Transacao.conta t') nova (valor_assinado t'));
      [exact Hm | | |].
    + subst dm. cbn [contas]. by rewrite lookup_insert_ne.
    + reflexivity.
    + intros j. rewrite !soma_assinada_soma. subst dm. cbn [transacoes].
      rewrite <- (insert_delete_eq (transacoes d)).
      rewrite (soma_filtrada_insert_novo _ _ _ _ _ (lookup_delete_eq (transacoes d) id)).
      reflexivity.
Qed.

(** [perform_update] once validation has let the request through, for
    validated data that carry an account object other than the instance's. *)
Lemma perform_update_outra_conta (d : DB) (user id : Z) (t : Transacao.t)
    (velha nova : Conta.t) (destino : Z) (categoria : option Api.CategoriaObj)
    (v : Api.DadosAtualizacao) :
  contas d !! Transacao.conta t = Some velha ->
  contas d !! destino = Some nova ->
  destino <> Transacao.conta t ->
  Api.u_conta v = Some 1%nat ->
  let h := [mkContaObj (Transacao.conta t) velha; mkContaObj destino nova] in
  Api._validate_related_objects user 1
    match Api.u_categoria v with
    | Some (Some cat) => Some cat
    | _ => categoria
    end (mkWorld d h None)
  = (Ok tt, mkWorld d h None) ->
  let t' := Transacao.mk (Transacao.usuario t) destino
              (fst <$> default categoria (Api.u_categoria v))
              (default (Transacao.descricao t) (Api.u_descricao v))
              (default (Transacao.valor t) (Api.u_valor v))
              (default (Transacao.tipo t) (Api.u_tipo v))
              (default (Transacao.data t) (Api.u_data v))
              (default (Transacao.observacoes t) (Api.u_observacoes v))
              (default (Transacao.recorrente t) (Api.u_recorrente v)) in
  exists h',
    Api.perform_update user (Api.mkInstancia id t 0%nat categoria) v (mkWorld d h None)
    = (Ok tt,
       mkWorld
         (mkDB (<[destino := Conta.set_saldo (Conta.saldo nova + valor_assinado t') nova]>
                  (<[Transacao.conta t
                     := Conta.set_saldo (Conta.saldo velha - valor_assinado t) velha]>
                     (contas d)))
            (categorias d) (<[id := t']> (transacoes d)) (orcamentos d) (transacao_seq d))
         h' None).
Proof.
  intros Hvelha Hnova Hne Hconta h Hok t'.
  unfold Api.perform_update.
  cbn [Api.inst_conta Api.inst_categoria Api.inst_campos Api.inst_pk].
  rewrite Hconta. cbn [default from_option Datatypes.id].
  erewrite bind_ok by exact Hok.
  set (s1 := Conta.saldo velha - valor_assinado t).
  set (d1 := set_contas (<[Transacao.conta t := Conta.set_saldo s1 velha]>) d).
  set (o1 := mkContaObj (Transacao.conta t) (Conta.set_saldo s1 velha)).
  assert (Hrev : Api._aplicar_saldo 0 (Transacao.valor t) (Transacao.tipo t) true
                   (mkWorld d h None)
                 = (Ok tt, mkWorld d1 [o1; mkContaObj destino nova] None)).
  { erewrite (aplicar_saldo_efeito _ _ 0%nat (mkContaObj (Transacao.conta t) velha) velha);
      [|reflexivity|exact Hvelha].
    subst d1 o1 s1 h. unfold valor_assinado. cbn.
    destruct (String.eqb (Transacao.tipo t) "receita"); repeat f_equal; lia. }
  assert (Hsave : Api.serializer_save_update (Api.mkInstancia id t 0%nat categoria) v
            (mkWorld d1 [o1; mkContaObj destino nova] None)
          = (Ok (Api.mkInstancia id t' 1%nat (default categoria (Api.u_categoria v))),
             mkWorld (set_transacoes (<[id := t']>) d1) [o1; mkContaObj destino nova] None)).
  { unfold Api.serializer_save_update, Transacao_save.
    cbn [Api.inst_conta Api.inst_categoria Api.inst_campos Api.inst_pk].
    rewrite Hconta. cbn [default from_option Datatypes.id].
    erewrite bind_ok by (by apply ler_objeto_run).
    avancar. reflexivity. }
  exists [o1; mkContaObj destino
                (Conta.set_saldo (Conta.saldo nova + valor_assinado t') nova)].
  apply atomic_run_ok.
  erewrite bind_ok by exact Hrev. erewrite bind_ok by exact Hsave.
  cbn [Api.inst_conta Api.inst_campos].
  erewrite (aplicar_saldo_efeito _ _ 1%nat (mkContaObj destino nova) nova);
    [|reflexivity|subst d1; cbn; by rewrite lookup_insert_ne].
  subst d1. unfold set_contas, set_transacoes, valor_assinado.
  cbn [fst snd db pk campos contas categorias transacoes orcamentos transacao_seq
       Conta.saldo].
  destruct (String.eqb (Transacao.tipo t') "receita"); reflexivity.
Qed.

Lemma api_update_outra_conta_casos d user id p destino :
  Api.p_conta p = Some destino ->
  (forall t, transacoes d !! id = Some t -> destino <> Transacao.conta t) ->
  let d' := efeito (Api.update user id p) (mundo d) in
  d' = d \/ movido d d'.
Proof.
  intros Hconta Hne d'. subst d'. unfold efeito, Api.update, mundo.
  destruct (get_object_casos d [] None user id) as [(t & c & Ht & Hu & Hc)|Hfalha].
  2:{ erewrite bind_raise by exact Hfalha. by left. }
  erewrite bind_ok by (by eapply get_object_ok).
  rewrite Hconta. cbn [app length].
  destruct (contas d !! destino) as [nova|] eqn:Hnova.
  2:{ left. erewrite bind_raise by (by apply validar_conta_ausente). done. }
  erewrite bind_ok by (by apply validar_conta_ok). cbn [app length].
  passo_puro Hcat. passo_puro Hvalor. clear Hcat Hvalor. rename x into cat, x0 into v.
  set (categoria := cid ← Transacao.categoria t; k ← categorias d !! cid; Some (cid, k)).
  set (dados := Api.mkDadosAtualizacao (Some 1%nat) cat (Api.p_descricao p) v (Api.p_tipo p)
                  (Api.p_data p) (Api.p_observacoes p) (Api.p_recorrente p)).
  destruct (validate_related_objects_casos d
              [mkContaObj (Transacao.conta t) c; mkContaObj destino nova] None user 1%nat
              (mkContaObj destino nova)
              match Api.u_categoria dados with
              | Some (Some k) => Some k
              | _ => categoria
              end eq_refl) as [(_ & _ & Hok)|Hrej].
  2:{ left. unfold Api.perform_update.
      cbn [Api.inst_conta Api.u_conta default from_option Datatypes.id dados].
      erewrite bind_raise by exact Hrej. done. }
  destruct (perform_update_outra_conta d user id t c nova destino categoria dados
              Hc Hnova (Hne t Ht) eq_refl Hok) as (h' & Hrun).
  rewrite Hrun. right.
  match goal with
  | |- movido _ (db (_, mkWorld (mkDB _ _ (<[id := ?x]> _) _ _) _ _).2) =>
      exists id, t, x, c, nova
  end.
  split; [exact Ht|]. split; [exact (Hne t Ht)|].
  split; [exact Hc|]. split; [exact Hnova|]. reflexivity.
Qed.

(** Every request leaves the ledger alone or changes it in one of the four
    ways. *)
Lemma executar_casos d p :
  nao_reenvia_conta d p ->
  executar d p = d \/ lancado d (executar d p) \/ estornado d (executar d p)
  \/ substituido d (executar d p) \/ movido d (executar d p).
Proof.
  destruct p as [user f|user id|user p|user id p|user id];
    cbn [nao_reenvia_conta executar]; intros Hp.
  - destruct (transacao_criar_casos d user f); auto.
  - destruct (transacao_deletar_casos d user id); auto.
  - destruct (api_create_casos d user p); auto.
  - destruct (Api.p_conta p) as [destino|] eqn:Hconta.
    + destruct (api_update_outra_conta_casos d user id p destino Hconta); auto.
      intros t Ht ->. by apply (Hp t Ht).
    + destruct (api_update_casos d user id p Hconta); auto.
  - destruct (api_destroy_casos d user id); auto.
Qed.

Lemma executar_em_dia d0 d p :
  nao_reenvia_conta d p -> chaves_emitidas d -> razao_em_dia d0 d ->
  chaves_emitidas (executar d p) /\ razao_em_dia d0 (executar d p).
Proof.
  intros Hp Hch Hinv.
  destruct (executar_casos d p Hp) as [->|[H|[H|[H|H]]]]; [done|..].
  - by eapply lancado_em_dia.
  - by eapply estornado_em_dia.
  - by eapply substituido_em_dia.
  - by eapply movido_em_dia.
Qed.



(** X5.  A PUT or PATCH that names an account other than the transaction's
    own, for a request that passes validation: the old account gives back the
    old signed amount, the new account receives the new one, both rows are
    saved and the transaction now references the new account - no other
    account row changes, and every balance still moves with the signed sum of
    its transactions. *)
Theorem api_update_outra_conta (d : DB) (user id : Z) (p : Api.Payload) (t : Transacao.t)
    (velha nova : Conta.t) (destino : Z) :
  transacoes d !! id = Some t ->
  Transacao.usuario t = user ->
  contas d !! Transacao.conta t = Some velha ->
  Api.p_conta p = Some destino ->
  destino <> Transacao.conta t ->
  contas d !! destino = Some nova ->
  Conta.usuario nova = user ->
  (forall k, Api.p_categoria p = Some (Some k) ->
     exists cat, categorias d !! k = Some cat /\ Categoria.usuario cat = user) ->
  (forall k cat, Transacao.categoria t = Some k -> categorias d !! k = Some cat ->
     Categoria.usuario cat = user) ->
  (forall v, Api.p_valor p = Some v -> is_Some v) ->
  let d' := efeito (Api.update user id p) (mundo d) in
  exists t',
    retorno (Api.update user id p) (mundo d) = Ok tt
    /\ transacoes d' = <[id := t']> (transacoes d)
    /\ Transacao.conta t' = destino
    /\ Transacao.valor t' = default (Transacao.valor t) (mjoin (Api.p_valor p))
    /\ Transacao.tipo t' = default (Transacao.tipo t) (Api.p_tipo p)
    /\ contas d'
       = <[destino := Conta.set_saldo (Conta.saldo nova + valor_assinado t') nova]>
           (<[Transacao.conta t := Conta.set_saldo (Conta.saldo velha - valor_assinado t) velha]>
              (contas d))
    /\ (forall d0, chaves_emitidas d -> razao_em_dia d0 d -> razao_em_dia d0 d').
Proof.
  intros Ht Hu Hvelha Hconta Hne Hnova Hnu Hcat Hcat_t Hvalor d'.
  subst d'. unfold retorno, efeito, Api.update, mundo.
  erewrite bind_ok by (by eapply get_object_ok).
  rewrite Hconta. erewrite bind_ok by (by apply validar_conta_ok).
  cbn [app length].
  set (h := [mkContaObj (Transacao.conta t) velha; mkContaObj destino nova]).
  destruct (validar_categoria_ok d h None (Api.p_categoria p) user Hcat)
    as (cat & Hval & Hfst & Hdono).
  erewrite bind_ok by exact Hval.
  assert (Hv : exists v, Api.validar_valor (Api.p_valor p) (mkWorld d h None)
                         = (Ok v, mkWorld d h None) /\ v = mjoin (Api.p_valor p)).
  { destruct (Api.p_valor p) as [[z|]|] eqn:E; [by eexists| |by eexists].
    by destruct (Hvalor None eq_refl). }
  destruct Hv as (v & Hv & Hvj). erewrite bind_ok by exact Hv.
  set (categoria := cid ← Transacao.categoria t; k ← categorias d !! cid; Some (cid, k)).
  assert (Hdono_t : forall c, categoria = Some c -> Categoria.usuario c.2 = user).
  { intros [k c]. subst categoria. destruct (Transacao.categoria t) as [k'|] eqn:Hk; [|done].
    cbn. destruct (categorias d !! k') as [c'|] eqn:Hk'; [|done].
    cbn. intros [= <- <-]. by eapply Hcat_t. }
  set (dados := Api.mkDadosAtualizacao (Some 1%nat) cat (Api.p_descricao p) v (Api.p_tipo p)
                  (Api.p_data p) (Api.p_observacoes p) (Api.p_recorrente p)).
  destruct (perform_update_outra_conta d user id t velha nova destino categoria dados
              Hvelha Hnova Hne eq_refl) as (h' & Hrun).
  { eapply (validate_related_objects_ok _ _ _ _ 1%nat (mkContaObj destino nova));
      [reflexivity | exact Hnu |].
    intros c Hc. subst dados. cbn [Api.u_categoria] in Hc.
    destruct cat as [[c'|]|]; cbn in Hdono.
    - injection Hc as <-. by apply Hdono.
    - by apply Hdono_t.
    - by apply Hdono_t. }
  subst h. rewrite Hrun. cbn [fst snd db contas transacoes].
  eexists. split; [reflexivity|]. split; [reflexivity|]. split; [reflexivity|].
  split; [cbn; by rewrite Hvj|]. split; [reflexivity|]. split; [reflexivity|].
  intros d0 Hch Hinv. eapply movido_em_dia; [exact Hch | exact Hinv |].
  match goal with
  | |- movido _ (mkDB _ _ (<[id := ?x]> _) _ _) => exists id, t, x, velha, nova
  end.
  split; [exact Ht|]. split; [exact Hne|].
  split; [exact Hvelha|]. split; [exact Hnova|]. reflexivity.
Qed.

Lemma api_update_outra_conta_witness :
  saldo_de api_apos_mover 1 = Some 10000 /\ saldo_de api_apos_mover 3 = Some 35000
  /\ razao_em_dia db0 api_apos_mover.
Proof.
  destruct (api_update_outra_conta api_apos_criar 1 1 api_patch_conta_c
              (Transacao.mk 1 1 (Some 1) "salario" 5000 "receita" dia15 "" false)
              (Conta.set_saldo 15000 conta_a) conta_c 3)
    as (t' & _ & _ & _ & _ & _ & Hcontas & Hinv); try (vm_compute; reflexivity).
  - discriminate.
  - intros k [=].
  - intros k cat [= <-] Hk. vm_compute in Hk. injection Hk as <-. reflexivity.
  - intros v [=].
  - split; [vm_compute; reflexivity|]. split; [vm_compute; reflexivity|].
    apply Hinv.
    + intros k [x Hx].
      change (transacoes api_apos_criar)
        with (<[1 := Transacao.mk 1 1 (Some 1) "salario" 5000 "receita" dia15 "" false]>
                (∅ : gmap Z Transacao.t)) in Hx.
      apply lookup_insert_Some in Hx as [[<- _]|[_ Hx]]; [by vm_compute|].
      by rewrite lookup_empty in Hx.
    + apply (executar_em_dia db0 db0 (ApiCriar 1 api_receita_50) I).
      * intros k [x Hx]. vm_compute in Hx. discriminate.
      * apply razao_em_dia_refl.
Defined.

(** ** Accounts: create and edit *)

(** X19.  [conta_editar] on an account of the requesting user.  With a
    decimal [saldo] it saves name, kind, balance, bank and colour as the form
    gives them: the balance is overwritten outright, and owner and [ativo]
    stay as they are - an edit neither hands the account over nor brings a
    deactivated account back.  With a [saldo] that is not a decimal the
    database is untouched, but the instance the form is rendered from
    already carries the new name and kind.  On an account that does not
    exist or belongs to another user the lookup's [DoesNotExist] leaves the
    handler, for a GET as for a POST. *)
Theorem conta_editar_sobrescreve (d : DB) (user id : Z) (f : Cadastros.ContaEdicao) :
  (forall c s,
     contas d !! id = Some c -> Conta.usuario c = user -> Cadastros.e_saldo f = Some s ->
     let nova := Conta.mk (Conta.usuario c) (Cadastros.e_nome f) (Cadastros.e_tipo f) s
                   (default "" (Cadastros.e_banco f)) (default "#007AFF" (Cadastros.e_cor f))
                   (Conta.ativo c) in
     Cadastros.conta_editar user id (Views.POST f) (mundo d)
     = (Ok (Views.Redirect "contas", [Views.Success "Conta atualizada com sucesso!"]),
        mkWorld (set_contas (<[id := nova]>) d) [mkContaObj id nova] None))
  /\ (forall c,
        contas d !! id = Some c -> Conta.usuario c = user -> Cadastros.e_saldo f = None ->
        Cadastros.conta_editar user id (Views.POST f) (mundo d)
        = (Ok (Views.Render "budget/conta_form.html",
               [Views.Error "Erro ao editar conta" InvalidOperation]),
           mkWorld d
             [mkContaObj id
                (Conta_set_tipo (Cadastros.e_tipo f) (Conta_set_nome (Cadastros.e_nome f) c))]
             None))
  /\ ((forall c, contas d !! id = Some c -> Conta.usuario c <> user) ->
      forall request h n,
        Cadastros.conta_editar user id request (mkWorld d h n)
        = (Raise DoesNotExist, mkWorld d h n)).
Proof.
  split; [|split].
  - intros c s Hc Hu Hs nova. unfold Cadastros.conta_editar, mundo.
    avancar. unfold try_except. rewrite Hs. unfold Conta_save.
    avancar. cbn. subst nova. by destruct c.
  - intros c Hc Hu Hs. unfold Cadastros.conta_editar, mundo.
    avancar. unfold try_except. rewrite Hs.
    avancar. reflexivity.
  - intros Halheia request h n. unfold Cadastros.conta_editar.
    erewrite bind_raise; [reflexivity|].
    destruct (Conta_objects_get_casos d h n id user) as [(c & Hc & Hu)|H]; [|done].
    by destruct (Halheia c Hc).
Qed.

Example conta_editar_exemplo :
  saldo_de (efeito (Cadastros.conta_editar 1 1
                      (Views.POST (Cadastros.mkContaEdicao "A" "corrente" (Some 99900) None None)))
              (mundo apos_criar)) 1 = Some 99900
  /\ soma_assinada apos_criar 1 = 5000.
Proof. split; vm_compute; reflexivity. Qed.

(** X20.  [conta_criar].  With a [saldo] that is a decimal, or none (the
    default is 0), it inserts one row: an active account of the requesting
    user with the form's values.  The user's total balance on the dashboard
    grows by the opening balance, every other user's total is what it was,
    and no existing row of any table changes.  A [saldo] that is not a
    decimal creates nothing. *)
Theorem conta_criar_ok (d : DB) (novo_id user : Z) (f : Cadastros.ContaNova) :
  contas d !! novo_id = None ->
  let pedido := Cadastros.conta_criar novo_id user (Views.POST f) in
  (forall s, default (Some 0) (Cadastros.n_saldo f) = Some s ->
     let nova := Conta.mk user (Cadastros.n_nome f) (Cadastros.n_tipo f) s
                   (default "" (Cadastros.n_banco f)) (default "#007AFF" (Cadastros.n_cor f))
                   true in
     pedido (mundo d)
     = (Ok (Views.Redirect "contas", [Views.Success "Conta criada com sucesso!"]),
        mkWorld (set_contas (<[novo_id := nova]>) d) [] None)
     /\ Views.saldo_total user (efeito pedido (mundo d)) = Views.saldo_total user d + s
     /\ (forall outro, outro <> user ->
           Views.saldo_total outro (efeito pedido (mundo d)) = Views.saldo_total outro d)
     /\ (forall k, k <> novo_id -> contas (efeito pedido (mundo d)) !! k = contas d !! k))
  /\ (Cadastros.n_saldo f = Some None ->
      pedido (mundo d)
      = (Ok (Views.Render "budget/conta_form.html",
             [Views.Error "Erro ao criar conta" InvalidOperation]),
         mundo d)).
Proof.
  intros Hnovo pedido. split.
  - intros s Hs nova.
    assert (Hrun : pedido (mundo d)
      = (Ok (Views.Redirect "contas", [Views.Success "Conta criada com sucesso!"]),
         mkWorld (set_contas (<[novo_id := nova]>) d) [] None)).
    { subst pedido. unfold Cadastros.conta_criar, mundo, try_except, Conta_objects_create.
      rewrite Hs. avancar. reflexivity. }
    split; [exact Hrun|]. unfold efeito. rewrite Hrun. cbn [snd db].
    split; [|split].
    + rewrite !saldo_total_soma. unfold set_contas. cbn [contas].
      rewrite (soma_filtrada_insert_novo _ _ _ _ _ Hnovo). unfold Views.conta_ativa_de.
      subst nova. cbn [snd Conta.usuario Conta.ativo Conta.saldo].
      by rewrite Z.eqb_refl.
    + intros outro Hne. rewrite !saldo_total_soma. unfold set_contas. cbn [contas].
      rewrite (soma_filtrada_insert_novo _ _ _ _ _ Hnovo). unfold Views.conta_ativa_de.
      subst nova. cbn [snd Conta.usuario Conta.ativo Conta.saldo].
      apply not_eq_sym, Z.eqb_neq in Hne. rewrite Hne. cbn. lia.
    + intros k Hk. unfold set_contas. cbn [contas]. by rewrite lookup_insert_ne.
  - intros Hs. subst pedido. unfold Cadastros.conta_criar, mundo, try_except.
    rewrite Hs. reflexivity.
Qed.

Lemma conta_criar_ok_witness :
  Views.saldo_total 1
    (efeito (Cadastros.conta_criar 4 1
               (Views.POST (Cadastros.mkContaNova "D" "carteira" (Some (Some 2500)) None None)))
       (mundo db0))
  = Views.saldo_total 1 db0 + 2500.
Proof.
  refine (proj1 (proj2 (proj1 (conta_criar_ok db0 4 1 _ _) 2500 _))); reflexivity.
Defined.

(** ** Budgets: ownership and uniqueness *)

Lemma orm_write_casos f d h n :
  orm_write f (mkWorld d h n) = (Raise DatabaseError, mkWorld d h n)
  \/ exists n', orm_write f (mkWorld d h n) = (Ok tt, mkWorld (f d) h n').
Proof.
  unfold orm_write. cbn. destruct n as [[|n]|]; [by left|right; by eexists..].
Qed.

Lemma Orcamento_objects_get_casos d h n id user :
  (exists o, orcamentos d !! id = Some o /\ Orcamento.usuario o = user
             /\ Orcamento_objects_get id user (mkWorld d h n) = (Ok o, mkWorld d h n))
  \/ ((forall o, orcamentos d !! id = Some o -> Orcamento.usuario o <> user)
      /\ Orcamento_objects_get id user (mkWorld d h n) = (Raise DoesNotExist, mkWorld d h n)).
Proof.
  unfold Orcamento_objects_get. erewrite bind_ok by apply read_db_run.
  destruct (orcamentos d !! id) as [o|] eqn:Ho; [|by right].
  destruct (Z.eqb_spec (Orcamento.usuario o) user) as [Hu|Hu].
  - left. by exists o.
  - right. split; [|done]. by intros ? [= <-].
Qed.

Lemma orcamento_duplicado_false (o : Orcamento.t) (exceto : option Z)
    (m : gmap Z Orcamento.t) :
  orcamento_duplicado o exceto m = false ->
  forall k o', m !! k = Some o' -> Some k <> exceto ->
    Orcamento.usuario o' = Orcamento.usuario o ->
    Orcamento.categoria o' = Orcamento.categoria o ->
    Orcamento.mes o' = Orcamento.mes o ->
    Orcamento.ano o' = Orcamento.ano o -> False.
Proof.
  intros Hd k o' Hk Hne Hu Hc Hm Ha.
  assert (Hex : orcamento_duplicado o exceto m = true); [|congruence].
  unfold orcamento_duplicado. apply existsb_exists. exists (k, o'). split.
  - apply list_elem_of_In. unfold linhas. by apply elem_of_map_to_list.
  - cbn [fst snd]. rewrite bool_decide_eq_false_2 by done.
    by rewrite Hu, Hc, Hm, Ha, !Z.eqb_refl.
Qed.

Lemma orcamento_gravado_ok d d' :
  orcamentos_do_dono d -> orcamentos_unicos d -> orcamento_gravado d d' ->
  orcamentos_do_dono d' /\ orcamentos_unicos d' /\ categorias d' = categorias d.
Proof.
  intros Hdono Hunic (k & o & cat & exceto & -> & Hcat & Hu & Hdup & Hexc).
  pose proof (orcamento_duplicado_false o exceto (orcamentos d) Hdup) as Hdif.
  assert (Houtro : forall k' o', orcamentos d !! k' = Some o' -> k' <> k -> Some k' <> exceto).
  { intros k' o' Hk' Hne. destruct Hexc as [->|[-> _]]; congruence. }
  unfold set_orcamentos. split; [|split; [|done]].
  - intros k' o'. cbn [orcamentos categorias]. intros Hk'.
    apply lookup_insert_Some in Hk' as [[<- <-]|[Hne Hk']]; [eauto|].
    by eapply Hdono.
  - intros k1 k2 o1 o2. cbn [orcamentos]. intros H1 H2 Hu' Hc' Hm' Ha'.
    apply lookup_insert_Some in H1 as [[<- <-]|[Hne1 H1]];
      apply lookup_insert_Some in H2 as [[<- <-]|[Hne2 H2]]; try done.
    + exfalso. eapply (Hdif k2 o2 H2); eauto.
    + exfalso. eapply (Hdif k1 o1 H1); eauto.
    + by eapply Hunic.
Qed.

Lemma orcamento_removido_ok d d' :
  orcamentos_do_dono d -> orcamentos_unicos d -> orcamento_removido d d' ->
  orcamentos_do_dono d' /\ orcamentos_unicos d' /\ categorias d' = categorias d.
Proof.
  intros Hdono Hunic (k & ->). unfold set_orcamentos. split; [|split; [|done]].
  - intros k' o'. cbn [orcamentos categorias]. intros Hk'.
    apply lookup_delete_Some in Hk' as [_ Hk']. by eapply Hdono.
  - intros k1 k2 o1 o2. cbn [orcamentos]. intros H1 H2.
    apply lookup_delete_Some in H1 as [_ H1]. apply lookup_delete_Some in H2 as [_ H2].
    by eapply Hunic.
Qed.

(** What [Orcamento.objects.create] and [save] do. *)
Lemma Orcamento_objects_create_casos d h n novo_id o :
  (exists e, Orcamento_objects_create novo_id o (mkWorld d h n) = (Raise e, mkWorld d h n))
  \/ (orcamento_duplicado o None (orcamentos d) = false
      /\ exists n', Orcamento_objects_create novo_id o (mkWorld d h n)
                    = (Ok tt, mkWorld (set_orcamentos (insert novo_id o) d) h n')).
Proof.
  unfold Orcamento_objects_create. erewrite bind_ok by apply read_db_run.
  destruct (orcamento_duplicado o None (orcamentos d)); [left; by eexists|].
  destruct (orm_write_casos (set_orcamentos (insert novo_id o)) d h n) as [->|[n' ->]].
  - left. by eexists.
  - right. split; [done|]. by eexists.
Qed.

Lemma Orcamento_save_casos d h n id o :
  (exists e, Orcamento_save id o (mkWorld d h n) = (Raise e, mkWorld d h n))
  \/ (orcamento_duplicado o (Some id) (orcamentos d) = false
      /\ exists n', Orcamento_save id o (mkWorld d h n)
                    = (Ok tt, mkWorld (set_orcamentos (insert id o) d) h n')).
Proof.
  unfold Orcamento_save. erewrite bind_ok by apply read_db_run.
  destruct (orcamento_duplicado o (Some id) (orcamentos d)); [left; by eexists|].
  destruct (orm_write_casos (set_orcamentos (insert id o)) d h n) as [->|[n' ->]].
  - left. by eexists.
  - right. split; [done|]. by eexists.
Qed.

Lemma orcamento_criar_casos d h n novo_id user f :
  orcamentos d !! novo_id = None ->
  let d' := db (Cadastros.orcamento_criar novo_id user (Views.POST f) (mkWorld d h n)).2 in
  d' = d \/ orcamento_gravado d d'.
Proof.
  intros Hnovo d'. subst d'. unfold Cadastros.orcamento_criar, try_except.
  destruct (Categoria_objects_get_casos d h n (Cadastros.o_categoria f) user)
    as [(cat & Hcat & Hcu)|Hfalha].
  2:{ erewrite bind_raise by exact Hfalha. by left. }
  erewrite bind_ok by (by eapply Categoria_objects_get_ok).
  destruct (Cadastros.o_limite f) as [limite|]; [|by left].
  erewrite (bind_ok (Decimal (Some limite))) by reflexivity.
  set (o := Orcamento.mk user (Cadastros.o_categoria f) limite (Cadastros.o_mes f)
              (Cadastros.o_ano f)).
  destruct (Orcamento_objects_create_casos d h n novo_id o) as [[e He]|[Hdup [n' Hok]]].
  - erewrite bind_raise by exact He. by left.
  - erewrite bind_ok by exact Hok. right.
    exists novo_id, o, cat, None. by repeat split; [..| right].
Qed.

Lemma orcamento_editar_casos d h n user id f :
  let d' := db (Cadastros.orcamento_editar user id (Views.POST f) (mkWorld d h n)).2 in
  d' = d \/ orcamento_gravado d d'.
Proof.
  intros d'. subst d'. unfold Cadastros.orcamento_editar.
  destruct (Orcamento_objects_get_casos d h n id user) as [(o0 & Ho0 & Hu0 & Hget)|[_ Hget]].
  2:{ erewrite bind_raise by exact Hget. by left. }
  erewrite bind_ok by exact Hget. unfold try_except.
  destruct (Categoria_objects_get_casos d h n (Cadastros.o_categoria f) user)
    as [(cat & Hcat & Hcu)|Hfalha].
  2:{ erewrite bind_raise by exact Hfalha. by left. }
  erewrite bind_ok by (by eapply Categoria_objects_get_ok).
  destruct (Cadastros.o_limite f) as [limite|]; [|by left].
  erewrite (bind_ok (Decimal (Some limite))) by reflexivity.
  set (o := Orcamento.mk (Orcamento.usuario o0) (Cadastros.o_categoria f) limite
              (Cadastros.o_mes f) (Cadastros.o_ano f)).
  destruct (Orcamento_save_casos d h n id o) as [[e He]|[Hdup [n' Hok]]].
  - erewrite bind_raise by exact He. by left.
  - erewrite bind_ok by exact Hok. right.
    exists id, o, cat, (Some id). repeat split; try done.
    + cbn. congruence.
    + by left.
Qed.

Lemma orcamento_deletar_casos d h n user id :
  let d' := db (Cadastros.orcamento_deletar user id (Views.POST tt) (mkWorld d h n)).2 in
  d' = d \/ orcamento_removido d d'.
Proof.
  intros d'. subst d'. unfold Cadastros.orcamento_deletar, try_except.
  destruct (Orcamento_objects_get_casos d h n id user) as [(o0 & Ho0 & Hu0 & Hget)|[_ Hget]].
  2:{ erewrite bind_raise by exact Hget. by left. }
  erewrite bind_ok by exact Hget. unfold Orcamento_delete.
  destruct (orm_write_casos (set_orcamentos (delete id)) d h n) as [Hw|[n' Hw]].
  - erewrite bind_raise by exact Hw. by left.
  - erewrite bind_ok by exact Hw. right. by exists id.
Qed.

Lemma validar_categoria_orcamento_casos d h n (p : option Z) :
  (exists e, ApiOrcamento.validar_categoria p (mkWorld d h n) = (Raise e, mkWorld d h n))
  \/ (exists r, ApiOrcamento.validar_categoria p (mkWorld d h n) = (Ok r, mkWorld d h n)
                /\ forall cat, r = Some cat -> categorias d !! cat.1 = Some cat.2).
Proof.
  unfold ApiOrcamento.validar_categoria. destruct p as [id|].
  - erewrite bind_ok by apply read_db_run.
    destruct (categorias d !! id) as [cat|] eqn:Hcat; [|left; by eexists].
    right. eexists. split; [reflexivity|]. by intros ? [= <-].
  - right. eexists. split; [reflexivity|]. done.
Qed.

Lemma exigir_casos {A} (o : option A) w :
  Api.exigir o w = (Raise ValidationError, w)
  \/ exists a, o = Some a /\ Api.exigir o w = (Ok a, w).
Proof. destruct o as [a|]; [right; by exists a | by left]. Qed.

Lemma api_orcamento_create_casos d h n novo_id user p :
  orcamentos d !! novo_id = None ->
  let d' := db (ApiOrcamento.create novo_id user p (mkWorld d h n)).2 in
  d' = d \/ orcamento_gravado d d'.
Proof.
  intros Hnovo d'. subst d'. unfold ApiOrcamento.create.
  destruct (validar_categoria_orcamento_casos d h n (ApiOrcamento.p_categoria p))
    as [[e He]|(r & Hr & Hcat)].
  { erewrite bind_raise by exact He. by left. }
  erewrite bind_ok by exact Hr.
  destruct (exigir_casos r (mkWorld d h n)) as [He|(cat & -> & He)].
  { erewrite bind_raise by exact He. by left. }
  erewrite bind_ok by exact He.
  destruct (exigir_casos (ApiOrcamento.p_limite p) (mkWorld d h n)) as [He1|(limite & _ & He1)].
  { erewrite bind_raise by exact He1. by left. }
  erewrite bind_ok by exact He1.
  destruct (exigir_casos (ApiOrcamento.p_mes p) (mkWorld d h n)) as [He2|(m & _ & He2)].
  { erewrite bind_raise by exact He2. by left. }
  erewrite bind_ok by exact He2.
  destruct (exigir_casos (ApiOrcamento.p_ano p) (mkWorld d h n)) as [He3|(a & _ & He3)].
  { erewrite bind_raise by exact He3. by left. }
  erewrite bind_ok by exact He3.
  unfold ApiOrcamento.perform_create.
  destruct (Z.eqb_spec (Categoria.usuario cat.2) user) as [Hu|Hu]; cbn [negb]; [|by left].
  set (o := Orcamento.mk user cat.1 limite m a).
  destruct (Orcamento_objects_create_casos d h n novo_id o) as [[e He']|[Hdup [n' Hok]]].
  - rewrite He'. by left.
  - rewrite Hok. right. exists novo_id, o, cat.2, None.
    split; [done|]. split; [by apply Hcat|]. split; [done|]. split; [done|]. by right.
Qed.

Lemma api_orcamento_update_casos d h n user id p :
  orcamentos_do_dono d ->
  let d' := db (ApiOrcamento.update user id p (mkWorld d h n)).2 in
  d' = d \/ orcamento_gravado d d'.
Proof.
  intros Hdono d'. subst d'. unfold ApiOrcamento.update.
  destruct (Orcamento_objects_get_casos d h n id user) as [(o0 & Ho0 & Hu0 & Hget)|[_ Hget]].
  2:{ erewrite bind_raise by exact Hget. by left. }
  erewrite bind_ok by exact Hget.
  destruct (validar_categoria_orcamento_casos d h n (ApiOrcamento.p_categoria p))
    as [[e He]|(r & Hr & Hcat)].
  { erewrite bind_raise by exact He. by left. }
  erewrite bind_ok by exact Hr.
  unfold ApiOrcamento.perform_update.
  cbn [ApiOrcamento.v_categoria ApiOrcamento.v_limite ApiOrcamento.v_mes ApiOrcamento.v_ano
       fst snd].
  set (o := Orcamento.mk (Orcamento.usuario o0)
              (default (Orcamento.categoria o0) (fst <$> r))
              (default (Orcamento.limite o0) (ApiOrcamento.p_limite p))
              (default (Orcamento.mes o0) (ApiOrcamento.p_mes p))
              (default (Orcamento.ano o0) (ApiOrcamento.p_ano p))).
  assert (Hsalvar : forall cat,
            categorias d !! Orcamento.categoria o = Some cat ->
            Categoria.usuario cat = Orcamento.usuario o ->
            db (Orcamento_save id o (mkWorld d h n)).2 = d
            \/ orcamento_gravado d (db (Orcamento_save id o (mkWorld d h n)).2)).
  { intros cat Hc Hcu.
    destruct (Orcamento_save_casos d h n id o) as [[e He']|[Hdup [n' Hok]]].
    - rewrite He'. by left.
    - rewrite Hok. right. exists id, o, cat, (Some id). repeat split; try done. by left. }
  destruct r as [cat|].
  - destruct (Z.eqb_spec (Categoria.usuario cat.2) user) as [Hu|Hu]; cbn [negb]; [|by left].
    apply (Hsalvar cat.2); [by apply Hcat | cbn; congruence].
  - destruct (Hdono id o0 Ho0) as (cat & Hc & Hcu). by apply (Hsalvar cat).
Qed.

(** Serving one budget request. *)
Lemma servir_casos d h n p :
  chave_nova d p ->
  orcamentos_do_dono d ->
  let d' := db (servir p (mkWorld d h n)).2 in
  d' = d \/ orcamento_gravado d d' \/ orcamento_removido d d'.
Proof.
  intros Hnova Hdono d'. subst d'.
  assert (Hseq : forall (m : M Views.Resultado) w, db ((m;; mret tt) w).2 = db (m w).2).
  { intros m w. unfold mbind, M_bind, bind. by destruct (m w) as [[a|e] w']. }
  destruct p as [novo_id user f|user id f|user id|novo_id user p|user id p];
    cbn [servir chave_nova] in *; rewrite ?Hseq.
  - destruct (orcamento_criar_casos d h n novo_id user f Hnova); auto.
  - destruct (orcamento_editar_casos d h n user id f); auto.
  - destruct (orcamento_deletar_casos d h n user id); auto.
  - destruct (api_orcamento_create_casos d h n novo_id user p Hnova); auto.
  - destruct (api_orcamento_update_casos d h n user id p Hdono); auto.
Qed.

(** X21.  The table of budgets keeps two invariants under every request that
    writes to it - the three web forms and the API's create and update,
    valid or rejected, by any user, with or without a database failure:
    every budget's category belongs to the budget's own user, and no two
    budgets share user, category, month and year.  No such request touches
    the categories. *)
Theorem orcamentos_invariantes (w : World) (p : PedidoOrcamento) :
  chave_nova (db w) p ->
  orcamentos_do_dono (db w) ->
  orcamentos_unicos (db w) ->
  let d' := db (servir p w).2 in
  orcamentos_do_dono d' /\ orcamentos_unicos d' /\ categorias d' = categorias (db w).
Proof.
  intros Hnova Hdono Hunic d'. subst d'. destruct w as [d h n]. cbn [db] in *.
  destruct (servir_casos d h n p Hnova Hdono) as [->|[H|H]]; [done|..].
  - by apply orcamento_gravado_ok.
  - by apply orcamento_removido_ok.
Qed.

Lemma orcamentos_invariantes_witness :
  let d := db_orcamento 20000 0 in
  let d' := db (servir (FormCriar 2 1 (Cadastros.mkOrcamentoForm 3 (Some 5000) 2 2025))
                  (mundo d)).2 in
  orcamentos d' !! 2 = Some (Orcamento.mk 1 3 5000 2 2025)
  /\ orcamentos_do_dono d' /\ orcamentos_unicos d'.
Proof.
  intros d d'. split; [vm_compute; reflexivity|].
  assert (Hdono : orcamentos_do_dono d).
  { intros k o Hk.
    change (orcamentos d) with ({[ 1 := Orcamento.mk 1 3 20000 1 2025 ]} : gmap Z Orcamento.t)
      in Hk.
    apply lookup_singleton_Some in Hk as [_ <-]. exists mercado. by split. }
  assert (Hunic : orcamentos_unicos d).
  { intros k k' o o' Hk Hk' _ _ _ _.
    change (orcamentos d) with ({[ 1 := Orcamento.mk 1 3 20000 1 2025 ]} : gmap Z Orcamento.t)
      in Hk, Hk'.
    apply lookup_singleton_Some in Hk as [<- _]. by apply lookup_singleton_Some in Hk' as [<- _]. }
  destruct (orcamentos_invariantes (mundo d)
              (FormCriar 2 1 (Cadastros.mkOrcamentoForm 3 (Some 5000) 2 2025)))
    as (H1 & H2 & _); [reflexivity | exact Hdono | exact Hunic |].
  by split.
Defined.

Lemma orcamento_duplicado_true (o : Orcamento.t) (exceto : option Z)
    (m : gmap Z Orcamento.t) :
  orcamento_duplicado o exceto m = true <->
  exists k o', m !! k = Some o' /\ Some k <> exceto
    /\ Orcamento.usuario o' = Orcamento.usuario o
    /\ Orcamento.categoria o' = Orcamento.categoria o
    /\ Orcamento.mes o' = Orcamento.mes o
    /\ Orcamento.ano o' = Orcamento.ano o.
Proof.
  split.
  - intros H. apply existsb_exists in H as ([k o'] & Hin & Hp).
    apply list_elem_of_In in Hin. unfold linhas in Hin. apply elem_of_map_to_list in Hin.
    cbn [fst snd] in Hp.
    repeat (apply andb_prop in Hp as [Hp ?]).
    apply negb_true_iff, bool_decide_eq_false in Hp.
    exists k, o'. repeat split; try done; by apply Z.eqb_eq.
  - intros (k & o' & Hk & Hne & Hu & Hc & Hm & Ha).
    destruct (orcamento_duplicado o exceto m) eqn:Hd; [done|].
    by destruct (orcamento_duplicado_false o exceto m Hd k o').
Qed.

(** X22.  A valid budget form - a category of the user's, a limit that is a
    decimal - is accepted exactly when the user has no budget yet for that
    category, month and year.  A second one is turned down by the database:
    the form is shown again with the error and the table is as it was.
    Otherwise the row is written with the user as owner and the user is sent
    to the list. *)
Theorem orcamento_criar_unico (d : DB) (h : list ContaObj) (novo_id user : Z)
    (f : Cadastros.OrcamentoForm) (cat : Categoria.t) (limite : Z) :
  categorias d !! Cadastros.o_categoria f = Some cat ->
  Categoria.usuario cat = user ->
  Cadastros.o_limite f = Some limite ->
  let existe :=
    exists k o, orcamentos d !! k = Some o
      /\ Orcamento.usuario o = user
      /\ Orcamento.categoria o = Cadastros.o_categoria f
      /\ Orcamento.mes o = Cadastros.o_mes f
      /\ Orcamento.ano o = Cadastros.o_ano f in
  let r := Cadastros.orcamento_criar novo_id user (Views.POST f) (mkWorld d h None) in
  (existe ->
     r = (Ok (Views.Render "budget/orcamento_form.html",
              [Views.Error "Erro ao criar orcamento" DatabaseError]),
          mkWorld d h None))
  /\ (~ existe ->
     r = (Ok (Views.Redirect "orcamentos", [Views.Success "Orcamento criado com sucesso!"]),
          mkWorld
            (set_orcamentos
               (insert novo_id
                  (Orcamento.mk user (Cadastros.o_categoria f) limite (Cadastros.o_mes f)
                     (Cadastros.o_ano f))) d) h None)).
Proof.
  intros Hcat Hu Hlim existe r.
  set (o := Orcamento.mk user (Cadastros.o_categoria f) limite (Cadastros.o_mes f)
              (Cadastros.o_ano f)).
  assert (Hdup : orcamento_duplicado o None (orcamentos d) = true <-> existe).
  { rewrite orcamento_duplicado_true. subst existe o. cbn [Orcamento.usuario
      Orcamento.categoria Orcamento.mes Orcamento.ano].
    split; intros (k & o' & H); exists k, o'; [tauto|].
    repeat split; try tauto. done. }
  assert (Hr : r = if orcamento_duplicado o None (orcamentos d)
                   then (Ok (Views.Render "budget/orcamento_form.html",
                             [Views.Error "Erro ao criar orcamento" DatabaseError]),
                         mkWorld d h None)
                   else (Ok (Views.Redirect "orcamentos",
                             [Views.Success "Orcamento criado com sucesso!"]),
                         mkWorld (set_orcamentos (insert novo_id o) d) h None)).
  { subst r. unfold Cadastros.orcamento_criar, try_except, Categoria_objects_get,
      Orcamento_objects_create, Decimal.
    unfold mbind, M_bind, bind, read_db, ret, mret, M_ret, raise. cbn [db].
    rewrite Hcat, Hlim. rewrite (proj2 (Z.eqb_eq _ _) Hu). cbn [db].
    fold o. by destruct (orcamento_duplicado o None (orcamentos d)). }
  split.
  - intros He. apply Hdup in He. by rewrite Hr, He.
  - intros He. rewrite Hr. destruct (orcamento_duplicado o None (orcamentos d)); [|done].
    destruct He. by apply Hdup.
Qed.

Lemma orcamento_criar_unico_witness :
  let d := db_orcamento 20000 0 in
  let f := Cadastros.mkOrcamentoForm 3 (Some 5000) 1 2025 in
  Cadastros.orcamento_criar 2 1 (Views.POST f) (mundo d)
  = (Ok (Views.Render "budget/orcamento_form.html",
         [Views.Error "Erro ao criar orcamento" DatabaseError]), mundo d).
Proof.
  intros d f.
  apply (orcamento_criar_unico d [] 2 1 f mercado 5000); [reflexivity..|].
  exists 1, (Orcamento.mk 1 3 20000 1 2025). by repeat split.
Defined.
